(** * DANCER analysis service: queue-driven processing pipeline

    A shallow embedding of the analysis service of the dancer-app
    repository (analysis-service/main.py and analysis-service/services/),
    and the properties of its specification checked against that code.

    Python values are embedded as the inductive [pyval]; a [float] is
    Rocq's primitive binary64 float, the same IEEE 754 format CPython
    uses; an operation that can raise returns a [res], and [try/except]
    is a match on it; the outside world (queue, object store, local
    files, external probe tool, standard output, record store, clock) is
    explicit state or an explicit outcome passed in. *)

From Stdlib Require Import ZArith Lia Bool List Ascii String.
From Stdlib Require Import Uint63Axioms PrimFloat FloatOps SpecFloat FloatAxioms.
From stdpp Require Import base option strings pretty gmap.
Import ListNotations.

#[local] Set Warnings "-register-all,-inexact-float".

#[local] Open Scope string_scope.
#[local] Open Scope Z_scope.

(* ===================================================================== *)
(** ** Python values, exceptions *)
(* ===================================================================== *)

(** The Python values the service handles: what [json.loads] produces,
    plus what the service itself puts in its result dictionaries (a
    [datetime] is kept as its ISO text). A dictionary is an association
    list in insertion order; a lookup takes the first entry of a key. *)
Inductive pyval : Type :=
  | PNone
  | PBool (b : bool)
  | PInt (n : Z)
  | PFloat (f : float)
  | PStr (s : string)
  | PDatetime (iso : string)
  | PList (l : list pyval)
  | PDict (d : list (string * pyval)).

(** The exception classes the code distinguishes or produces. *)
Inductive exn : Type :=
  | TypeError
  | ValueError
  | KeyError
  | AttributeError
  | ZeroDivisionError
  | OverflowError
  | JSONDecodeError
  | FileNotFoundError
  | TimeoutExpired
  | CalledProcessError
  | ClientError (code : string)
  | OSError (msg : string)
  | Exception (msg : string).

(** Result of a Python call: a returned value or a raised exception. *)
Inductive res (A : Type) : Type :=
  | Ret (a : A)
  | Raise (e : exn).
Arguments Ret {A} a.
Arguments Raise {A} e.

(** Sequencing: an exception raised by [m] propagates past [k];
    written [x ← m; k] below. *)
#[global] Instance res_bind : MBind res := fun A B k m =>
  match m with
  | Ret a => k a
  | Raise e => Raise e
  end.

#[global] Instance res_ret : MRet res := fun A a => Ret a.

(** [d.get(key, default)] / [key in d] / [d[key]] on a dictionary body. *)
Fixpoint assoc (key : string) (d : list (string * pyval)) : option pyval :=
  match d with
  | [] => None
  | (k, v) :: d' => if String.eqb k key then Some v else assoc key d'
  end.

(** [obj.get(key, default)]: only a dict has [get]. *)
Definition py_get (obj : pyval) (key : string) (default : pyval) : res pyval :=
  match obj with
  | PDict d => Ret (match assoc key d with Some v => v | None => default end)
  | _ => Raise AttributeError
  end.

(** [obj[key]] with a string key: [KeyError] on a dict without the key,
    [TypeError] on every other value a JSON document can hold. *)
Definition py_getitem (obj : pyval) (key : string) : res pyval :=
  match obj with
  | PDict d => match assoc key d with Some v => Ret v | None => Raise KeyError end
  | _ => Raise TypeError
  end.

(** [for x in obj]: the elements a loop or comprehension visits. *)
Definition py_iter (obj : pyval) : res (list pyval) :=
  match obj with
  | PList l => Ret l
  | PDict d => Ret (map (fun kv => PStr (fst kv)) d)
  | PStr s => Ret (map (fun c => PStr (String c EmptyString)) (list_ascii_of_string s))
  | _ => Raise TypeError
  end.

(** [v == s] for a string [s]: a value of another type is never equal. *)
Definition py_eq_str (v : pyval) (s : string) : bool :=
  match v with
  | PStr t => String.eqb t s
  | _ => false
  end.

(** Truthiness of a value ([if v:]). *)
Definition truthy (v : pyval) : bool :=
  match v with
  | PNone => false
  | PBool b => b
  | PInt n => negb (n =? 0)
  | PFloat f => negb (PrimFloat.eqb f 0%float)
  | PStr s => negb (String.eqb s "")
  | PDatetime _ => true
  | PList l => match l with [] => false | _ => true end
  | PDict d => match d with [] => false | _ => true end
  end.

(* ===================================================================== *)
(** ** Strings and paths *)
(* ===================================================================== *)

(** [s.split(sep)] for a one-character separator. *)
Fixpoint split (sep : ascii) (s : string) : list string :=
  match s with
  | EmptyString => [EmptyString]
  | String c s' =>
      if Ascii.eqb c sep then EmptyString :: split sep s'
      else match split sep s' with
           | [] => [String c EmptyString]
           | w :: ws => String c w :: ws
           end
  end.

(** [s.startswith(p)]. *)
Definition startswith (s p : string) : bool := String.prefix p s.

(** [s.lower()], a character standing for a code point below 256. *)
Definition lower_char (c : ascii) : ascii :=
  let n := nat_of_ascii c in
  if (((65 <=? n) && (n <=? 90)) || ((192 <=? n) && (n <=? 214))
      || ((216 <=? n) && (n <=? 222)))%nat
  then ascii_of_nat (n + 32) else c.

Fixpoint lower (s : string) : string :=
  match s with
  | EmptyString => EmptyString
  | String c s' => String (lower_char c) (lower s')
  end.

(** [s.strip(c)] for one character: drop it from both ends. *)
Fixpoint lstrip_char (c : ascii) (s : string) : string :=
  match s with
  | String a s' => if Ascii.eqb a c then lstrip_char c s' else s
  | EmptyString => EmptyString
  end.

Definition rev_string (s : string) : string :=
  string_of_list_ascii (rev (list_ascii_of_string s)).

Definition strip_char (c : ascii) (s : string) : string :=
  rev_string (lstrip_char c (rev_string (lstrip_char c s))).

(** The double quote character. *)
Definition dquote : ascii := ascii_of_nat 34.

(** [os.path.basename(p)] (POSIX): what follows the last slash. *)
Definition basename (p : string) : string := List.last (split "/" p) "".

(** [os.path.join(a, b)] (POSIX). *)
Definition path_join (a b : string) : string :=
  if startswith b "/" then b
  else if String.eqb a "" || startswith (rev_string a) "/" then a ++ b
  else a ++ "/" ++ b.

(** [os.path.splitext(p)[1]] (POSIX): the extension of the last path
    component, from its last dot, provided a character other than a dot
    comes before that dot within the component. *)
Fixpoint all_dots (s : string) : bool :=
  match s with
  | EmptyString => true
  | String c s' => Ascii.eqb c "." && all_dots s'
  end.

Definition splitext_ext (p : string) : string :=
  let base := basename p in
  let parts := split "." base in
  if (length parts <=? 1)%nat then ""
  else if all_dots (String.concat "." (removelast parts)) then ""
  else "." ++ List.last parts "".

(* ===================================================================== *)
(** ** Floats: [float(...)], true division, [round(x, 2)] *)
(* ===================================================================== *)

(** Nearest integer to [n / d], ties to the even one ([0 <= n], [0 < d]). *)
Definition round_half_even_div (n d : Z) : Z :=
  let q := n / d in
  match Z.compare (2 * (n mod d)) d with
  | Lt => q
  | Gt => q + 1
  | Eq => if Z.even q then q else q + 1
  end.

(** The binary64 value nearest to the rational [n / d] ([0 <= n],
    [0 < d]), ties to even, infinity on overflow: what CPython's
    correctly rounded string-to-double conversion and its true division
    of integers compute. [k] is the floor of the binary logarithm of
    [n / d]; the significand keeps 53 bits, fewer below [2^-1022]. *)
Definition nearest_double (n d : Z) : float :=
  if n =? 0 then zero
  else
    let k0 := Z.log2 n - Z.log2 d in
    let k := if n * 2 ^ Z.max 0 (- k0) <? d * 2 ^ Z.max 0 k0 then k0 - 1 else k0 in
    let e := Z.max (k - 52) (-1074) in
    let m := round_half_even_div (n * 2 ^ Z.max 0 (- e)) (d * 2 ^ Z.max 0 e) in
    Z.ldexp (of_uint63 (Uint63Axioms.of_Z m)) e.

Definition signed_double (neg : bool) (n d : Z) : float :=
  let f := nearest_double n d in if neg then (- f)%float else f.

(** [round(x, 2)] on a float: nans, infinities and zeros round to
    themselves; a finite value is rounded to two decimals exactly
    (ties to even on its exact binary value) and converted back. *)
Definition py_round2 (x : float) : float :=
  match Prim2SF x with
  | S754_finite s m e =>
      let n := Zpos m * 2 ^ Z.max 0 e in
      let d := 2 ^ Z.max 0 (- e) in
      signed_double s (round_half_even_div (n * 100) d) 100
  | _ => x
  end.

(** [a / b] on floats. *)
Definition float_div (a b : float) : res float :=
  if PrimFloat.eqb b zero then Raise ZeroDivisionError else Ret (a / b)%float.

(** [a / b] on integers ([0 < b]): the nearest double, and an
    [OverflowError] when that is beyond the finite doubles. *)
Definition int_true_div (a b : Z) : res float :=
  let q := signed_double (a <? 0) (Z.abs a) b in
  if PrimFloat.is_infinity q then Raise OverflowError else Ret q.

(** *** [float(s)] on a string

    The string may carry single underscores between digits; leading and
    trailing whitespace is dropped; then comes an optional sign and
    either [inf], [infinity], [nan] in any letter case, or a decimal
    numeral with an optional exponent. Anything else is a [ValueError].
    A character of a [string] stands for a code point below 256: the
    digits are the ASCII ones, the spaces are tab to carriage return,
    the blank, and the code points 133 and 160. *)

Definition is_digit (c : ascii) : bool :=
  let n := nat_of_ascii c in ((48 <=? n) && (n <=? 57))%nat.

Definition is_space (c : ascii) : bool :=
  let n := nat_of_ascii c in
  (((9 <=? n) && (n <=? 13)) || (n =? 32) || (n =? 133) || (n =? 160))%nat.

Definition digit_val (c : ascii) : Z := Z.of_nat (nat_of_ascii c) - 48.

(** Underscores are allowed only between two digits; they are removed.
    [prev] is the character before [l], if any. *)
Fixpoint drop_underscores (prev : option ascii) (l : list ascii) : option (list ascii) :=
  match l with
  | [] => match prev with
          | Some "_"%char => None
          | _ => Some []
          end
  | c :: l' =>
      if Ascii.eqb c "_" then
        match prev with
        | Some p => if is_digit p then drop_underscores (Some c) l' else None
        | None => None
        end
      else
        match prev with
        | Some "_"%char =>
            if is_digit c then option_map (cons c) (drop_underscores (Some c) l') else None
        | _ => option_map (cons c) (drop_underscores (Some c) l')
        end
  end.

Fixpoint lstrip_space (l : list ascii) : list ascii :=
  match l with
  | c :: l' => if is_space c then lstrip_space l' else l
  | [] => []
  end.

Definition strip_space (l : list ascii) : list ascii :=
  rev (lstrip_space (rev (lstrip_space l))).

(** The longest run of digits at the head of [l]: its value read after
    [acc], how many digits it has, and the rest. *)
Fixpoint take_digits (acc : Z) (cnt : Z) (l : list ascii) : Z * Z * list ascii :=
  match l with
  | c :: l' => if is_digit c then take_digits (10 * acc + digit_val c) (cnt + 1) l'
               else (acc, cnt, l)
  | [] => (acc, cnt, [])
  end.

Definition take_sign (l : list ascii) : bool * list ascii :=
  match l with
  | "-"%char :: l' => (true, l')
  | "+"%char :: l' => (false, l')
  | _ => (false, l)
  end.

(** The exponent part, if a well-formed one starts [l]: its value and
    what follows it. An [e] that no digit follows is not consumed. *)
Definition take_exponent (l : list ascii) : Z * list ascii :=
  match l with
  | c :: l' =>
      if Ascii.eqb c "e" || Ascii.eqb c "E" then
        let '(neg, l1) := take_sign l' in
        let '(v, cnt, l2) := take_digits 0 0 l1 in
        if cnt =? 0 then (0, l) else ((if neg then - v else v), l2)
      else (0, l)
  | [] => (0, [])
  end.

Definition lower_list (l : list ascii) : string :=
  lower (string_of_list_ascii l).

(** [float(s)] for a [str]. *)
Definition float_of_string (s : string) : res float :=
  match drop_underscores None (list_ascii_of_string s) with
  | None => Raise ValueError
  | Some l0 =>
      let '(neg, l1) := take_sign (strip_space l0) in
      let name := lower_list l1 in
      if String.eqb name "inf" || String.eqb name "infinity" then
        Ret (if neg then neg_infinity else infinity)
      else if String.eqb name "nan" then Ret nan
      else
        let '(ip, ic, l2) := take_digits 0 0 l1 in
        let '(m, fc, l3) :=
          match l2 with
          | "."%char :: l2' => take_digits ip 0 l2'
          | _ => (ip, 0, l2)
          end in
        if ic + fc =? 0 then Raise ValueError
        else
          let '(ex, l4) := take_exponent l3 in
          match l4 with
          | [] =>
              let e10 := ex - fc in
              Ret (signed_double neg (m * 10 ^ Z.max 0 e10) (10 ^ Z.max 0 (- e10)))
          | _ => Raise ValueError
          end
  end.

(** [float(v)] for any value. An [int] too large for a double is an
    [OverflowError]. *)
Definition py_float (v : pyval) : res float :=
  match v with
  | PStr s => float_of_string s
  | PFloat f => Ret f
  | PInt n =>
      let f := signed_double (n <? 0) (Z.abs n) 1 in
      if is_infinity f then Raise OverflowError else Ret f
  | PBool b => Ret (if b then one else zero)
  | PNone | PDatetime _ | PList _ | PDict _ => Raise TypeError
  end.

(** [int(s)] on a string: optional sign and decimal digits, single
    underscores between digits, whitespace around. *)
Definition int_of_string (s : string) : res Z :=
  match drop_underscores None (list_ascii_of_string s) with
  | None => Raise ValueError
  | Some l0 =>
      let '(neg, l1) := take_sign (strip_space l0) in
      let '(v, cnt, l2) := take_digits 0 0 l1 in
      match l2 with
      | [] => if cnt =? 0 then Raise ValueError else Ret (if neg then - v else v)
      | _ => Raise ValueError
      end
  end.

(** [int(v)] for any value; a float is truncated towards zero. *)
Definition py_int (v : pyval) : res Z :=
  match v with
  | PStr s => int_of_string s
  | PInt n => Ret n
  | PBool b => Ret (if b then 1 else 0)
  | PFloat f =>
      match Prim2SF f with
      | S754_zero _ => Ret 0
      | S754_finite s m e =>
          let a := Zpos m * 2 ^ Z.max 0 e / 2 ^ Z.max 0 (- e) in
          Ret (if s then - a else a)
      | S754_infinity _ => Raise OverflowError
      | S754_nan => Raise ValueError
      end
  | PNone | PDatetime _ | PList _ | PDict _ => Raise TypeError
  end.

(** [key in obj] for a string [key]: a key of a dict, an element of a
    list, a substring of a string; other values are not containers. *)
Definition py_in_str (key : string) (obj : pyval) : res bool :=
  match obj with
  | PDict d => Ret (bool_decide (is_Some (assoc key d)))
  | PList l => Ret (existsb (fun x => py_eq_str x key) l)
  | PStr s => Ret (bool_decide (is_Some (String.index 0 key s)))
  | _ => Raise TypeError
  end.

(** [v.split('/')] and [v.startswith(p)]: string methods. *)
Definition py_split (sep : ascii) (v : pyval) : res (list string) :=
  match v with
  | PStr s => Ret (split sep s)
  | _ => Raise AttributeError
  end.

Definition py_startswith (v : pyval) (p : string) : res bool :=
  match v with
  | PStr s => Ret (startswith s p)
  | _ => Raise AttributeError
  end.

(** [v / d] for a positive integer [d]. *)
Definition py_truediv (v : pyval) (d : Z) : res float :=
  match v with
  | PInt n => int_true_div n d
  | PBool b => int_true_div (if b then 1 else 0) d
  | PFloat f => Ret (f / nearest_double d 1)%float
  | PNone | PStr _ | PDatetime _ | PList _ | PDict _ => Raise TypeError
  end.

Fixpoint repeat_string (n : nat) (s : string) : string :=
  match n with
  | O => ""
  | S n' => s +:+ repeat_string n' s
  end.

(** [v * k] for a positive integer [k]: a product of numbers, or a
    string or list repeated. *)
Definition py_mul (v : pyval) (k : Z) : res pyval :=
  match v with
  | PInt n => Ret (PInt (n * k))
  | PBool b => Ret (PInt ((if b then 1 else 0) * k))
  | PFloat f => Ret (PFloat (f * nearest_double k 1))
  | PStr s => Ret (PStr (repeat_string (Z.to_nat k) s))
  | PList l => Ret (PList (concat (repeat l (Z.to_nat k))))
  | PNone | PDatetime _ | PDict _ => Raise TypeError
  end.

(** [format(v, ".1f")], as an f-string applies it: only whether it
    raises matters here. An integer is converted to a float first; a
    [datetime] takes the specification as a [strftime] pattern. *)
Definition py_format_f (v : pyval) : res unit :=
  match v with
  | PInt n => _ ← int_true_div n 1; Ret tt
  | PBool _ | PFloat _ | PDatetime _ => Ret tt
  | PStr _ => Raise ValueError
  | PNone | PList _ | PDict _ => Raise TypeError
  end.

(* ===================================================================== *)
(** ** services/metadata_extractor.py: [_parse_fps] *)
(* ===================================================================== *)

(** The body of the [try] in [MetadataExtractor._parse_fps]. *)
Definition _parse_fps_body (fps_string : pyval) : res float :=
  has_slash ← py_in_str "/" fps_string;
  if has_slash : bool then
    parts ← py_split "/" fps_string;
    match parts with
    | [num; den] =>
        n ← float_of_string num;
        d ← float_of_string den;
        q ← float_div n d;
        Ret (py_round2 q)
    | _ => Raise ValueError
    end
  else py_float fps_string.

(** [MetadataExtractor._parse_fps]: the bare [except] turns every
    exception of the body into [None]. *)
Definition _parse_fps (fps_string : pyval) : res (option float) :=
  match _parse_fps_body fps_string with
  | Ret f => Ret (Some f)
  | Raise _ => Ret None
  end.

(** [str(e)]. An exception the service raises itself, and an operating
    system error, carry their text; for the interpreter's and the
    libraries' own exceptions the wording of the message is not
    modelled, and the class name stands for it. *)
Definition exn_str (e : exn) : string :=
  match e with
  | Exception msg => msg
  | OSError msg => msg
  | ClientError code => code
  | TypeError => "TypeError"
  | ValueError => "ValueError"
  | KeyError => "KeyError"
  | AttributeError => "AttributeError"
  | ZeroDivisionError => "ZeroDivisionError"
  | OverflowError => "OverflowError"
  | JSONDecodeError => "JSONDecodeError"
  | FileNotFoundError => "FileNotFoundError"
  | TimeoutExpired => "TimeoutExpired"
  | CalledProcessError => "CalledProcessError"
  end.

Definition opt_pyval {A : Type} (f : A -> pyval) (o : option A) : pyval :=
  match o with
  | Some a => f a
  | None => PNone
  end.

(* ===================================================================== *)
(** ** The outside world *)
(* ===================================================================== *)

(** How a [subprocess.run] call ends: the program is not installed, the
    timeout expires, or the process completes. *)
Inductive run_outcome : Type :=
  | RunNotFound
  | RunTimeout
  | RunCompleted (returncode : Z) (stdout stderr : string).

(** The response of the object store to [head_object]. *)
Record HeadResponse : Type := {
  ContentLength : option Z;
  ContentType : option string;
  LastModified : option string;
  ETag : option string;
  Metadata : option (list (string * string));
  StorageClass : option string
}.

(** How a write to the standard output fails: the stream refuses it (an
    [OSError] with its error number and text), or the stream is closed
    or cannot encode a character of the line (a [ValueError]). *)
Inductive write_failure : Type :=
  | WriteRefused (errno : Z) (strerror : string)
  | WriteInvalid.

Definition write_error (f : write_failure) : exn :=
  match f with
  | WriteRefused errno strerror => OSError ("[Errno " +:+ pretty errno +:+ "] " +:+ strerror)
  | WriteInvalid => ValueError
  end.

(** What the world does while one message is handled, in the order the
    code asks: record creation, the directory for the download, the
    pre-check of the object, the byte transfer (what it leaves at the
    destination path: no file, or a file of that many bytes), the
    metadata lookup, the file's modification time, the two runs of the
    probe tool, the clock, the standard output (the line of
    metadata_extractor.py whose [print] fails, and how, if one does),
    the status update, the removal of the file. *)
Record MsgEnv : Type := {
  db_create_ok : bool;
  created_at : string;
  makedirs_ok : bool;
  pre_head : res HeadResponse;
  transfer : res (option Z);
  meta_head : res HeadResponse;
  file_mtime : string;
  ffprobe_version : run_outcome;
  ffprobe_run : run_outcome;
  processing_timestamp : string;
  stdout_failure : option (Z * write_failure);
  db_update_ok : bool;
  completed_at : string;
  remove_ok : bool
}.

(** The [print] call at line [line] of metadata_extractor.py. *)
Definition print (env : MsgEnv) (line : Z) : res unit :=
  match stdout_failure env with
  | Some (l, f) => if l =? line then Raise (write_error f) else Ret tt
  | None => Ret tt
  end.

(** A loop whose body is the [print] call at line [line]. *)
Fixpoint print_each (env : MsgEnv) (line : Z) (items : list pyval) : res unit :=
  match items with
  | [] => Ret tt
  | _ :: rest => _ ← print env line; print_each env line rest
  end.

(** Local files: path to size in bytes. *)
Abbreviation files := (gmap string Z).

(* ===================================================================== *)
(** ** services/metadata_extractor.py *)
(* ===================================================================== *)

Section MetadataExtractor.

(** [json.loads]: [None] stands for [JSONDecodeError]. *)
Variable json_loads : string -> option pyval.

Definition loads (text : string) : res pyval :=
  match json_loads text with
  | Some v => Ret v
  | None => Raise JSONDecodeError
  end.

(** [MetadataExtractor._get_file_info]. [os.stat] fails on a path
    that names no file. *)
Definition _get_file_info (fs : files) (mtime : string) (file_path : string) : pyval :=
  match fs !! file_path with
  | Some st_size =>
      PDict [("local_path", PStr file_path);
             ("filename", PStr (basename file_path));
             ("file_size_bytes", PInt st_size);
             ("file_size_mb", PFloat (py_round2 (nearest_double st_size (1024 * 1024))));
             ("file_extension", PStr (lower (splitext_ext file_path)));
             ("modification_time", PStr mtime)]
  | None =>
      PDict [("error", PStr (exn_str (OSError
               ("[Errno 2] No such file or directory: '" +:+ file_path +:+ "'"))))]
  end.

(** [[s for s in streams if s.get('codec_type') == kind]]. *)
Fixpoint filter_streams (kind : string) (streams : list pyval) : res (list pyval) :=
  match streams with
  | [] => Ret []
  | s :: rest =>
      codec_type ← py_get s "codec_type" PNone;
      kept ← filter_streams kind rest;
      Ret (if py_eq_str codec_type kind then s :: kept else kept)
  end.

(** The summary [_extract_with_ffprobe] builds from the tool's parsed
    output. *)
Definition probe_summary (probe_data : pyval) : res pyval :=
  streams ← py_get probe_data "streams" (PList []);
  elems ← py_iter streams;
  video_streams ← filter_streams "video" elems;
  audio_streams ← filter_streams "audio" elems;
  fmt ← py_get probe_data "format" (PDict []);
  duration ← py_get fmt "duration" (PInt 0) ≫= py_float;
  bit_rate ← py_get fmt "bit_rate" (PInt 0) ≫= py_int;
  file_size ← py_get fmt "size" (PInt 0) ≫= py_int;
  let metadata :=
    [("extraction_method", PStr "ffprobe");
     ("format", fmt);
     ("video_streams", PInt (Z.of_nat (length video_streams)));
     ("audio_streams", PInt (Z.of_nat (length audio_streams)));
     ("duration_seconds", PFloat duration);
     ("bitrate", PInt bit_rate);
     ("file_size", PInt file_size)] in
  match video_streams with
  | [] => Ret (PDict metadata)
  | primary_video :: _ =>
      codec ← py_get primary_video "codec_name" PNone;
      width ← py_get primary_video "width" PNone;
      height ← py_get primary_video "height" PNone;
      fps ← py_get primary_video "r_frame_rate" PNone ≫= _parse_fps;
      aspect_ratio ← py_get primary_video "display_aspect_ratio" PNone;
      pixel_format ← py_get primary_video "pix_fmt" PNone;
      Ret (PDict (metadata ++
             [("video_details",
               PDict [("codec", codec);
                      ("width", width);
                      ("height", height);
                      ("fps", opt_pyval PFloat fps);
                      ("aspect_ratio", aspect_ratio);
                      ("pixel_format", pixel_format)])]))
  end.

Definition ffprobe_not_found : exn :=
  Exception "ffprobe not found - install ffmpeg to enable video metadata extraction".

(** The body of the outer [try] of [_extract_with_ffprobe]: the
    availability check ([ffprobe -version], 5 s, [check=True]), then
    the extraction call (30 s). *)
Definition _extract_with_ffprobe_body (env : MsgEnv) : res pyval :=
  _ ← match ffprobe_version env with
      | RunCompleted returncode _ _ =>
          if returncode =? 0 then Ret tt else Raise ffprobe_not_found
      | RunTimeout | RunNotFound => Raise ffprobe_not_found
      end;
  match ffprobe_run env with
  | RunNotFound => Raise FileNotFoundError
  | RunTimeout => Raise TimeoutExpired
  | RunCompleted returncode stdout stderr =>
      if returncode =? 0 then loads stdout ≫= probe_summary
      else Raise (Exception ("ffprobe failed with return code " +:+ pretty returncode
                             +:+ ": " +:+ stderr))
  end.

(** [MetadataExtractor._extract_with_ffprobe]: every failure leaves as
    an [Exception]. *)
Definition _extract_with_ffprobe (env : MsgEnv) : res pyval :=
  match _extract_with_ffprobe_body env with
  | Ret metadata => Ret metadata
  | Raise FileNotFoundError => Raise ffprobe_not_found
  | Raise TimeoutExpired => Raise (Exception "ffprobe timed out")
  | Raise JSONDecodeError => Raise (Exception "Failed to parse ffprobe output")
  | Raise e => Raise (Exception ("ffprobe extraction failed: " +:+ exn_str e))
  end.

(** The extension table of [_extract_basic_video_info]. *)
Definition format_info (file_extension : string) : string * string :=
  if String.eqb file_extension ".mp4" then ("MP4", "H.264")
  else if String.eqb file_extension ".avi" then ("AVI", "Various")
  else if String.eqb file_extension ".mov" then ("QuickTime", "H.264")
  else if String.eqb file_extension ".mkv" then ("Matroska", "Various")
  else if String.eqb file_extension ".wmv" then ("Windows Media", "WMV")
  else if String.eqb file_extension ".flv" then ("Flash Video", "H.264")
  else ("Unknown", "Unknown").

(** The body of the [try] of [_extract_basic_video_info]: string
    operations and a table lookup on a [str] path. *)
Definition _extract_basic_video_info_body (file_path : string) : res pyval :=
  let file_extension := lower (splitext_ext file_path) in
  let info := format_info file_extension in
  Ret (PDict [("extraction_method", PStr "basic_analysis");
              ("file_extension", PStr file_extension);
              ("detected_format", PStr (fst info));
              ("likely_codec", PStr (snd info));
              ("note", PStr "Limited metadata - install ffmpeg for detailed analysis")]).

(** [MetadataExtractor._extract_basic_video_info]. *)
Definition _extract_basic_video_info (file_path : string) : res pyval :=
  match _extract_basic_video_info_body file_path with
  | Ret info => Ret info
  | Raise e => Ret (PDict [("extraction_method", PStr "failed");
                           ("error", PStr (exn_str e))])
  end.

(** [MetadataExtractor._extract_video_metadata]. *)
Definition _extract_video_metadata (env : MsgEnv) (file_path : string) : res pyval :=
  match _extract_with_ffprobe env with
  | Ret metadata => Ret metadata
  | Raise _ => _extract_basic_video_info file_path
  end.

(** [MetadataExtractor._run_placeholder_analysis]. *)
Definition _run_placeholder_analysis : pyval :=
  PDict [("analysis_type", PStr "placeholder_gait_analysis");
         ("status", PStr "completed");
         ("processing_time_seconds", PFloat 1%float);
         ("placeholder_results",
           PDict [("gait_cycle_detected", PBool true);
                  ("estimated_stride_length", PFloat 1.25%float);
                  ("estimated_cadence", PInt 110);
                  ("estimated_walking_speed", PFloat 1.4%float);
                  ("confidence_score", PFloat 0.85%float);
                  ("notes", PList [PStr "This is a placeholder analysis";
                                   PStr "Replace with actual gait analysis algorithm";
                                   PStr "Results are simulated for demonstration"])]);
         ("next_steps", PList [PStr "Implement actual video processing pipeline";
                               PStr "Add machine learning models for gait analysis";
                               PStr "Integrate with clinical assessment tools"])].

(** [MetadataExtractor._print_metadata_summary]: the text it prints is
    not modelled, the exceptions it can raise are. The values it formats
    with the default format never raise; the three it formats with
    [.1f] are a quotient, a quotient and a product. *)
Definition _print_metadata_summary (env : MsgEnv) (metadata : pyval) : res unit :=
  _ ← print env 276;
  _ ← print env 277;
  _ ← print env 278;
  (* Processing information *)
  processing_info ← py_get metadata "processing_info" (PDict []);
  _ ← py_get processing_info "processing_timestamp" (PStr "Unknown");
  _ ← print env 282;
  _ ← py_get processing_info "processor_version" (PStr "Unknown");
  _ ← print env 283;
  _ ← print env 285;
  _ ← print env 286;
  real_metadata ← py_get metadata "real_metadata" (PDict []);
  (* File information *)
  file_info ← py_get real_metadata "file_info" (PDict []);
  _ ← py_get file_info "filename" (PStr "Unknown");
  _ ← print env 292;
  _ ← py_get file_info "file_size_mb" (PInt 0);
  _ ← print env 293;
  _ ← py_get file_info "modification_time" (PStr "Unknown");
  _ ← print env 294;
  _ ← py_get file_info "file_extension" (PStr "Unknown");
  _ ← print env 295;
  (* S3 information *)
  s3_info ← py_get real_metadata "s3_info" (PDict []);
  _ ← py_get s3_info "bucket" (PStr "unknown");
  _ ← py_get s3_info "key" (PStr "unknown");
  _ ← print env 299;
  _ ← py_get s3_info "content_type" (PStr "Unknown");
  _ ← print env 300;
  _ ← py_get s3_info "etag" (PStr "Unknown");
  _ ← print env 301;
  _ ← py_get s3_info "storage_class" (PStr "Unknown");
  _ ← print env 302;
  (* Video technical metadata *)
  video_meta ← py_get real_metadata "video_technical_metadata" (PDict []);
  _ ← py_get video_meta "extraction_method" (PStr "Unknown");
  _ ← print env 306;
  has_details ← py_in_str "video_details" video_meta;
  _ ← (if has_details : bool then
         details ← py_getitem video_meta "video_details";
         _ ← py_get details "width" (PStr "?");
         _ ← py_get details "height" (PStr "?");
         _ ← print env 310;
         _ ← py_get details "fps" (PStr "?");
         _ ← print env 311;
         _ ← py_get details "codec" (PStr "Unknown");
         _ ← print env 312;
         _ ← py_get details "aspect_ratio" (PStr "Unknown");
         _ ← print env 313;
         _ ← py_get details "pixel_format" (PStr "Unknown");
         print env 314
       else Ret tt);
  has_duration ← py_in_str "duration_seconds" video_meta;
  _ ← (if has_duration : bool then
         duration ← py_getitem video_meta "duration_seconds";
         _ ← py_truediv duration 60;
         print env 318
       else Ret tt);
  has_bitrate ← py_in_str "bitrate" video_meta;
  _ ← (if has_bitrate : bool then
         bitrate ← py_getitem video_meta "bitrate";
         _ ← py_truediv bitrate 1000000;
         print env 322
       else Ret tt);
  has_video_streams ← py_in_str "video_streams" video_meta;
  _ ← (if has_video_streams : bool then
         _ ← py_getitem video_meta "video_streams";
         print env 325
       else Ret tt);
  has_audio_streams ← py_in_str "audio_streams" video_meta;
  _ ← (if has_audio_streams : bool then
         _ ← py_getitem video_meta "audio_streams";
         print env 328
       else Ret tt);
  (* Placeholder analysis section *)
  _ ← print env 331;
  _ ← print env 332;
  placeholder_analysis ← py_get metadata "placeholder_analysis" (PDict []);
  analysis_results ← py_get placeholder_analysis "analysis_results" (PDict []);
  _ ← py_get placeholder_analysis "warning" (PStr "Unknown");
  _ ← print env 337;
  _ ← py_get analysis_results "status" (PStr "Unknown");
  _ ← print env 338;
  has_results ← py_in_str "placeholder_results" analysis_results;
  _ ← (if has_results : bool then
         results ← py_getitem analysis_results "placeholder_results";
         _ ← py_get results "gait_cycle_detected" (PBool false);
         _ ← print env 342;
         _ ← py_get results "estimated_stride_length" (PInt 0);
         _ ← print env 343;
         _ ← py_get results "estimated_cadence" (PInt 0);
         _ ← print env 344;
         _ ← py_get results "estimated_walking_speed" (PInt 0);
         _ ← print env 345;
         confidence ← py_get results "confidence_score" (PInt 0);
         percent ← py_mul confidence 100;
         _ ← py_format_f percent;
         print env 346
       else Ret tt);
  _ ← print env 348;
  next_steps ← py_get analysis_results "next_steps" (PList []) ≫= py_iter;
  _ ← print_each env 351 next_steps;
  _ ← print env 353;
  _ ← print env 354;
  _ ← print env 355;
  print env 356.

(** [MetadataExtractor.extract_metadata]: the result is built, its
    summary printed, and the result returned. *)
Definition extract_metadata (fs : files) (env : MsgEnv)
    (file_path : string) (s3_metadata : pyval) : res pyval :=
  let file_info := _get_file_info fs (file_mtime env) file_path in
  video_technical_metadata ← _extract_video_metadata env file_path;
  let analysis_results := _run_placeholder_analysis in
  let metadata := PDict
    [("processing_info",
       PDict [("processing_timestamp", PStr (processing_timestamp env));
              ("processor_version", PStr "1.0.0");
              ("extraction_status", PStr "completed")]);
     ("real_metadata",
       PDict [("file_info", file_info);
              ("s3_info", s3_metadata);
              ("video_technical_metadata", video_technical_metadata)]);
     ("placeholder_analysis",
       PDict [("note", PStr "THIS IS PLACEHOLDER DATA - Replace with actual gait analysis");
              ("analysis_results", analysis_results);
              ("warning", PStr "These results are simulated for demonstration purposes only")])] in
  (* Print extracted metadata with clear distinction *)
  _ ← _print_metadata_summary env metadata;
  Ret metadata.

End MetadataExtractor.

(* ===================================================================== *)
(** ** services/database_updater.py *)
(* ===================================================================== *)

(** A row of the [processing_records] table. *)
Record ProcessingRecord : Type := {
  upload_id : option string;
  s3_bucket : pyval;
  s3_key : pyval;
  processing_status : string;
  processing_started : string;
  processing_completed : option string;
  metadata_json : option pyval;
  error_message : option string;
  retry_count : Z
}.

(** The table: rows by primary key, and the key the store gives to the
    next row. Keys are positive, as the store's row ids are, so an id is
    always truthy in [if record_id:]. *)
Record Database : Type := {
  rows : gmap positive ProcessingRecord;
  next_id : positive
}.

(** [DatabaseUpdater._extract_upload_id_from_key]: the body of its [try]. *)
Definition _extract_upload_id_from_key_body (s3_key : pyval) : res (option string) :=
  key_parts ← py_split "/" s3_key;
  if (4 <=? length key_parts)%nat && String.eqb (hd "" key_parts) "uploads" then
    let filename := List.last key_parts "" in
    let upload_id := hd "" (split "." filename) in
    Ret (Some upload_id)
  else Ret None.

(** [DatabaseUpdater._extract_upload_id_from_key]. *)
Definition _extract_upload_id_from_key (s3_key : pyval) : res (option string) :=
  match _extract_upload_id_from_key_body s3_key with
  | Ret r => Ret r
  | Raise _ => Ret None
  end.

(** [DatabaseUpdater.create_processing_record], called without an
    upload id. When the session or the commit fails, nothing is stored
    and the result is [None]. *)
Definition create_processing_record (env : MsgEnv) (db : Database)
    (bucket key : pyval) : option positive * Database :=
  if db_create_ok env then
    let upload_id :=
      match _extract_upload_id_from_key key with
      | Ret r => r
      | Raise _ => None
      end in
    let record := {|
      upload_id := upload_id;
      s3_bucket := bucket;
      s3_key := key;
      processing_status := "processing";
      processing_started := created_at env;
      processing_completed := None;
      metadata_json := None;
      error_message := None;
      retry_count := 0 |} in
    let record_id := next_id db in
    (Some record_id,
     {| rows := <[record_id := record]> (rows db); next_id := Pos.succ record_id |})
  else (None, db).

(** The fields [update_processing_status] sets on the row it found. *)
Definition updated_record (env : MsgEnv) (record : ProcessingRecord) (status : string)
    (metadata : option pyval) (error : option string) : ProcessingRecord :=
  if String.eqb status "completed" then
    {| upload_id := upload_id record;
       s3_bucket := s3_bucket record;
       s3_key := s3_key record;
       processing_status := status;
       processing_started := processing_started record;
       processing_completed := Some (completed_at env);
       metadata_json :=
         match metadata with
         | Some m => if truthy m then Some m else metadata_json record
         | None => metadata_json record
         end;
       error_message := error_message record;
       retry_count := retry_count record |}
  else if String.eqb status "failed" then
    {| upload_id := upload_id record;
       s3_bucket := s3_bucket record;
       s3_key := s3_key record;
       processing_status := status;
       processing_started := processing_started record;
       processing_completed := Some (completed_at env);
       metadata_json := metadata_json record;
       error_message :=
         match error with
         | Some msg => if String.eqb msg "" then error_message record else Some msg
         | None => error_message record
         end;
       retry_count := retry_count record + 1 |}
  else
    {| upload_id := upload_id record;
       s3_bucket := s3_bucket record;
       s3_key := s3_key record;
       processing_status := status;
       processing_started := processing_started record;
       processing_completed := processing_completed record;
       metadata_json := metadata_json record;
       error_message := error_message record;
       retry_count := retry_count record |}.

(** [DatabaseUpdater.update_processing_status]. A row that is not there,
    and a session or commit that fails, leave the table as it was. The
    metadata is stored as the value it serialises. *)
Definition update_processing_status (env : MsgEnv) (db : Database) (record_id : positive)
    (status : string) (metadata : option pyval) (error : option string) : Database :=
  if db_update_ok env then
    match rows db !! record_id with
    | None => db
    | Some record =>
        {| rows := <[record_id := updated_record env record status metadata error]> (rows db);
           next_id := next_id db |}
    end
  else db.

(* ===================================================================== *)
(** ** services/s3_downloader.py *)
(* ===================================================================== *)

Section S3Downloader.

Variable DOWNLOAD_DIR : string.

(** [S3Downloader.download_file], called without a local file name,
    for [str] arguments: the result and the local files afterwards. *)
Definition download_file_str (env : MsgEnv) (fs : files) (bucket key : string)
    : option string * files :=
  let base_filename := basename key in
  let local_filename := path_join DOWNLOAD_DIR base_filename in
  (* Download the file, then verify the download *)
  let download :=
    match transfer env with
    | Ret written =>
        let fs' := match written with
                   | Some n => <[local_filename := n]> fs
                   | None => fs
                   end in
        match fs' !! local_filename with
        | Some downloaded_size => (Some local_filename, fs')
        | None => (None, fs')
        end
    | Raise _ => (None, fs)
    end in
  if negb (makedirs_ok env) then (None, fs)
  else
    (* Get object metadata first *)
    match pre_head env with
    | Ret _ => download
    | Raise (ClientError code) =>
        if String.eqb code "NoSuchKey" then (None, fs) else download
    | Raise _ => (None, fs)
    end.

(** [S3Downloader.download_file]. A key that is not a [str] makes
    [os.path.basename] raise, a bucket that is not a [str] is refused
    by the client before any request: both end in the handler of
    [Exception], which returns [None]. *)
Definition download_file (env : MsgEnv) (fs : files) (bucket key : pyval)
    : option string * files :=
  match bucket, key with
  | PStr b, PStr k => download_file_str env fs b k
  | _, _ => (None, fs)
  end.

Definition metadata_of_response (bucket key : pyval) (response : HeadResponse) : pyval :=
  PDict [("bucket", bucket);
         ("key", key);
         ("size", PInt (default 0 (ContentLength response)));
         ("content_type", PStr (default "unknown" (ContentType response)));
         ("last_modified", opt_pyval PDatetime (LastModified response));
         ("etag", PStr (strip_char dquote (default "" (ETag response))));
         ("s3_metadata",
           PDict (map (fun kv => (fst kv, PStr (snd kv))) (default [] (Metadata response))));
         ("storage_class", PStr (default "STANDARD" (StorageClass response)))].

(** [S3Downloader.get_file_metadata]: [None] on every failure (the
    client refuses a bucket or key that is not a [str]). *)
Definition get_file_metadata (env : MsgEnv) (bucket key : pyval) : option pyval :=
  match bucket, key, meta_head env with
  | PStr _, PStr _, Ret response => Some (metadata_of_response bucket key response)
  | _, _, _ => None
  end.

(** [S3Downloader.cleanup_file]. *)
Definition cleanup_file (env : MsgEnv) (fs : files) (local_path : string) : bool * files :=
  match fs !! local_path with
  | Some _ => if remove_ok env then (true, delete local_path fs) else (false, fs)
  | None => (false, fs)
  end.

End S3Downloader.

(* ===================================================================== *)
(** ** config.py *)
(* ===================================================================== *)

(** The settings of [Config] the pipeline reads. *)
Record Config : Type := {
  S3_BUCKET : string;
  S3_PREFIX : string;
  SQS_MAX_MESSAGES : Z;
  EXPECTED_S3_EVENT_SOURCE : string;
  EXPECTED_S3_EVENT_PREFIX : string;
  DOWNLOAD_DIR : string;
  CLEANUP_AFTER_PROCESSING : bool;
  POLL_INTERVAL_SECONDS : Z;
  MAX_RUNTIME_HOURS : float
}.

(* ===================================================================== *)
(** ** services/sqs_handler.py *)
(* ===================================================================== *)

(** A message as the queue delivers it. *)
Record RawMessage : Type := {
  MessageId : string;
  ReceiptHandle : string;
  Body : string
}.

(** The dictionary [_parse_message] returns. The keys [etag],
    [event_source] and [aws_region] are absent from the direct format. *)
Record ParsedMessage : Type := {
  m_message_id : string;
  m_receipt_handle : string;
  m_bucket : pyval;
  m_key : pyval;
  m_size : pyval;
  m_etag : option pyval;
  m_event_name : pyval;
  m_event_time : pyval;
  m_event_source : option pyval;
  m_aws_region : option pyval;
  m_raw_message : RawMessage
}.

Section SQSHandler.

Variable config : Config.
Variable json_loads : string -> option pyval.

(** One turn of the loop over [body['Records']] in [_parse_message]:
    [Ret None] is [continue], [Ret (Some _)] is [return], and an
    exception leaves the loop. *)
Definition parse_record (message : RawMessage) (record : pyval) : res (option ParsedMessage) :=
  event_source ← py_get record "eventSource" (PStr "");
  if negb (py_eq_str event_source (EXPECTED_S3_EVENT_SOURCE config)) then Ret None
  else
    event_name ← py_get record "eventName" (PStr "");
    name_ok ← py_startswith event_name (EXPECTED_S3_EVENT_PREFIX config);
    if negb name_ok then Ret None
    else
      s3_info ← py_getitem record "s3";
      bucket_name ← py_getitem s3_info "bucket" ≫= (fun b => py_getitem b "name");
      object ← py_getitem s3_info "object";
      object_key ← py_getitem object "key";
      if negb (py_eq_str bucket_name (S3_BUCKET config)) then Ret None
      else
        key_ok ← py_startswith object_key (S3_PREFIX config +:+ "/");
        if negb key_ok then Ret None
        else
          size ← py_get object "size" (PInt 0);
          etag ← py_get object "eTag" (PStr "");
          event_time ← py_get record "eventTime" PNone;
          aws_region ← py_get record "awsRegion" PNone;
          Ret (Some {|
            m_message_id := MessageId message;
            m_receipt_handle := ReceiptHandle message;
            m_bucket := bucket_name;
            m_key := object_key;
            m_size := size;
            m_etag := Some etag;
            m_event_name := event_name;
            m_event_time := event_time;
            m_event_source := Some event_source;
            m_aws_region := Some aws_region;
            m_raw_message := message |}).

(** The loop [for record in body['Records']]: the first record that
    returns ends it; when it runs out, the function returns [None]. *)
Fixpoint parse_records (message : RawMessage) (records : list pyval)
    : res (option ParsedMessage) :=
  match records with
  | [] => Ret None
  | record :: rest =>
      r ← parse_record message record;
      match r with
      | Some parsed => Ret (Some parsed)
      | None => parse_records message rest
      end
  end.

(** The body of the [try] of [SQSHandler._parse_message]. *)
Definition _parse_message_body (message : RawMessage) : res (option ParsedMessage) :=
  body ← loads json_loads (Body message);
  has_records ← py_in_str "Records" body;
  if has_records : bool then
    records ← py_getitem body "Records" ≫= py_iter;
    parse_records message records
  else
    has_bucket ← py_in_str "bucket" body;
    has_key ← (if has_bucket : bool then py_in_str "key" body else Ret false);
    if has_key : bool then
      bucket ← py_getitem body "bucket";
      key ← py_getitem body "key";
      size ← py_get body "size" (PInt 0);
      Ret (Some {|
        m_message_id := MessageId message;
        m_receipt_handle := ReceiptHandle message;
        m_bucket := bucket;
        m_key := key;
        m_size := size;
        m_etag := None;
        m_event_name := PStr "manual";
        m_event_time := PNone;
        m_event_source := None;
        m_aws_region := None;
        m_raw_message := message |})
    else Ret None.

(** [SQSHandler._parse_message]: both handlers ([json.JSONDecodeError]
    and [Exception]) log and return [None]. *)
Definition _parse_message (message : RawMessage) : res (option ParsedMessage) :=
  match _parse_message_body message with
  | Ret r => Ret r
  | Raise _ => Ret None
  end.

(** [SQSHandler.delete_message]: the receipt handles the client was
    asked to delete, latest first. A failure of the client is caught
    and logged there. *)
Definition delete_message (deleted : list string) (receipt_handle : string) : list string :=
  receipt_handle :: deleted.

(** The loop of [SQSHandler.poll_messages] over the received messages:
    the parsed messages and the delete requests made. *)
Fixpoint poll_loop (messages : list RawMessage) (deleted : list string)
    : list ParsedMessage * list string :=
  match messages with
  | [] => ([], deleted)
  | message :: rest =>
      match _parse_message message with
      | Ret (Some parsed_message) =>
          let '(parsed_messages, deleted') := poll_loop rest deleted in
          (parsed_message :: parsed_messages, deleted')
      | Ret None => poll_loop rest deleted
      | Raise _ =>
          (* Delete malformed messages *)
          poll_loop rest (delete_message deleted (ReceiptHandle message))
      end
  end.

(** [SQSHandler.poll_messages]: [received] is what [receive_message]
    gives, the messages of the response or an exception. *)
Definition poll_messages (received : res (list RawMessage)) (deleted : list string)
    : list ParsedMessage * list string :=
  match received with
  | Ret messages => poll_loop messages deleted
  | Raise _ => ([], deleted)
  end.

End SQSHandler.

(* ===================================================================== *)
(** ** main.py: the orchestrator *)
(* ===================================================================== *)

(** [AnalysisService.stats]; times are microseconds on the UTC clock. *)
Record Stats : Type := {
  start_time : Z;
  messages_processed : Z;
  files_downloaded : Z;
  processing_errors : Z;
  last_activity : option Z
}.

(** What the service acts on: the record table, the local files, the
    delete requests sent to the queue, and its counters. *)
Record State : Type := {
  db : Database;
  fs : files;
  deleted : list string;
  stats : Stats
}.

Definition set_db (st : State) (d : Database) : State :=
  {| db := d; fs := fs st; deleted := deleted st; stats := stats st |}.

Definition set_fs (st : State) (f : files) : State :=
  {| db := db st; fs := f; deleted := deleted st; stats := stats st |}.

Definition set_deleted (st : State) (l : list string) : State :=
  {| db := db st; fs := fs st; deleted := l; stats := stats st |}.

Definition set_stats (st : State) (s : Stats) : State :=
  {| db := db st; fs := fs st; deleted := deleted st; stats := s |}.

Definition count_processed (s : Stats) : Stats :=
  {| start_time := start_time s;
     messages_processed := messages_processed s + 1;
     files_downloaded := files_downloaded s;
     processing_errors := processing_errors s;
     last_activity := last_activity s |}.

Definition count_downloaded (s : Stats) : Stats :=
  {| start_time := start_time s;
     messages_processed := messages_processed s;
     files_downloaded := files_downloaded s + 1;
     processing_errors := processing_errors s;
     last_activity := last_activity s |}.

Definition count_error (s : Stats) : Stats :=
  {| start_time := start_time s;
     messages_processed := messages_processed s;
     files_downloaded := files_downloaded s;
     processing_errors := processing_errors s + 1;
     last_activity := last_activity s |}.

Definition set_last_activity (s : Stats) (now : Z) : Stats :=
  {| start_time := start_time s;
     messages_processed := messages_processed s;
     files_downloaded := files_downloaded s;
     processing_errors := processing_errors s;
     last_activity := Some now |}.

(** What the world does during one cycle of the main loop: the clock
    when the runtime limit is checked, what the queue returns to the
    poll, the world of each message handled (by its position in the
    batch), and the clock at the end of the cycle. *)
Record CycleEnv : Type := {
  check_time : Z;
  received : res (list RawMessage);
  msg_env : nat -> MsgEnv;
  activity_time : Z
}.

(** What the main loop does, as seen from outside. *)
Inductive event : Type :=
  | EvCheck (elapsed_seconds : float)
  | EvPoll
  | EvSleep.

(** Why [start] came back. [WorldEnds]: the cycles given to the model
    ran out while the loop was still running. *)
Inductive exit_reason : Type :=
  | InitFailed
  | RuntimeLimit
  | WorldEnds.

Section AnalysisService.

Variable config : Config.
Variable json_loads : string -> option pyval.

(** The [try] of [AnalysisService.process_message], steps 1 to 6. *)
Definition process_message_try (env : MsgEnv) (st : State) (message : ParsedMessage)
    (record_id : option positive) : res unit * State :=
  let bucket := m_bucket message in
  let key := m_key message in
  let '(local_file_path, fs1) := download_file (DOWNLOAD_DIR config) env (fs st) bucket key in
  let st1 := set_fs st fs1 in
  match local_file_path with
  | None => (Raise (Exception "Failed to download file from S3"), st1)
  | Some path =>
      if String.eqb path "" then (Raise (Exception "Failed to download file from S3"), st1)
      else
        let st2 := set_stats st1 (count_downloaded (stats st1)) in
        let s3_metadata := get_file_metadata env bucket key in
        match extract_metadata json_loads (fs st2) env path (default (PDict []) s3_metadata) with
        | Raise e => (Raise e, st2)
        | Ret extracted_metadata =>
            let st3 :=
              match record_id with
              | Some id =>
                  set_db st2 (update_processing_status env (db st2) id "completed"
                                (Some extracted_metadata) None)
              | None => st2
              end in
            let st4 :=
              if CLEANUP_AFTER_PROCESSING config
              then set_fs st3 (snd (cleanup_file env (fs st3) path))
              else st3 in
            (Ret tt, set_deleted st4 (delete_message (deleted st4) (m_receipt_handle message)))
        end
  end.

(** [AnalysisService.process_message]. *)
Definition process_message (env : MsgEnv) (st : State) (message : ParsedMessage)
    : res unit * State :=
  let '(record_id, db1) :=
    create_processing_record env (db st) (m_bucket message) (m_key message) in
  let '(r, st1) := process_message_try env (set_db st db1) message record_id in
  match r with
  | Ret _ => (Ret tt, st1)
  | Raise e =>
      let st2 :=
        match record_id with
        | Some id =>
            set_db st1 (update_processing_status env (db st1) id "failed"
                          None (Some (exn_str e)))
        | None => st1
        end in
      (Raise e, st2)
  end.

(** One turn of the loop [for message in messages] of [process_cycle]:
    its [try] and its handler of [Exception]. *)
Definition handle_message (env : MsgEnv) (st : State) (message : ParsedMessage) : State :=
  let '(r, st1) := process_message env st message in
  match r with
  | Ret _ => set_stats st1 (count_processed (stats st1))
  | Raise _ =>
      (* Still delete the message to prevent infinite retries *)
      let st2 := set_stats st1 (count_error (stats st1)) in
      set_deleted st2 (delete_message (deleted st2) (m_receipt_handle message))
  end.

(** The loop [for message in messages] of [process_cycle]; [i] is the
    position of the first of [messages] in the batch. *)
Fixpoint process_messages (envs : nat -> MsgEnv) (i : nat) (st : State)
    (messages : list ParsedMessage) : State :=
  match messages with
  | [] => st
  | message :: rest => process_messages envs (S i) (handle_message (envs i) st message) rest
  end.

(** [AnalysisService.process_cycle]. *)
Definition process_cycle (c : CycleEnv) (st : State) : State :=
  let '(messages, deleted') := poll_messages config json_loads (received c) (deleted st) in
  let st1 := set_deleted st deleted' in
  match messages with
  | [] => st1
  | _ =>
      let st2 := process_messages (msg_env c) 0 st1 messages in
      set_stats st2 (set_last_activity (stats st2) (activity_time c))
  end.

(** [self.max_runtime_seconds], set in [__init__]. *)
Definition max_runtime_seconds : option float :=
  if PrimFloat.ltb 0 (MAX_RUNTIME_HOURS config)
  then Some (MAX_RUNTIME_HOURS config * 3600)%float
  else None.

(** [(now - start).total_seconds()]: the microseconds between the two
    clock readings, divided by [10**6]. *)
Definition total_seconds (start now : Z) : float :=
  signed_double (now - start <? 0) (Z.abs (now - start)) (10 ^ 6).

(** The [while self.running] loop of [AnalysisService.start], one turn
    per element of [cycles]: the reason it ended, the final state and
    the events in order. [self.running] stays true inside the loop:
    only [shutdown], which runs after it, clears the flag. An
    interrupt signal is not part of the model. *)
Fixpoint main_loop (cycles : list CycleEnv) (st : State)
    : exit_reason * State * list event :=
  match cycles with
  | [] => (WorldEnds, st, [])
  | c :: rest =>
      let continue (checks : list event) :=
        let st1 := process_cycle c st in
        let '(why, st2, evs) := main_loop rest st1 in
        (why, st2, (checks ++ EvPoll :: EvSleep :: evs)%list) in
      match max_runtime_seconds with
      | Some limit =>
          if PrimFloat.eqb limit 0 then continue []
          else
            let elapsed_seconds := total_seconds (start_time (stats st)) (check_time c) in
            if PrimFloat.leb limit elapsed_seconds
            then (RuntimeLimit, st, [EvCheck elapsed_seconds])
            else continue [EvCheck elapsed_seconds]
      | None => continue []
      end
  end.

(** [AnalysisService.start]. *)
Definition start (init_ok : bool) (cycles : list CycleEnv) (st : State)
    : exit_reason * State * list event :=
  if init_ok then main_loop cycles st else (InitFailed, st, []).

End AnalysisService.

(* ===================================================================== *)
(** ** Further operations of the services *)
(* ===================================================================== *)

(** [MetadataExtractor.get_real_metadata_only] (a static method). *)
Definition get_real_metadata_only (full_metadata : pyval) : res pyval :=
  processing_info ← py_get full_metadata "processing_info" (PDict []);
  real_metadata ← py_get full_metadata "real_metadata" (PDict []);
  Ret (PDict [("processing_info", processing_info);
              ("real_metadata", real_metadata)]).

(** [MetadataExtractor.get_placeholder_analysis_only] (a static method). *)
Definition get_placeholder_analysis_only (full_metadata : pyval) : res pyval :=
  processing_info ← py_get full_metadata "processing_info" (PDict []);
  placeholder_analysis ← py_get full_metadata "placeholder_analysis" (PDict []);
  Ret (PDict [("processing_info", processing_info);
              ("placeholder_analysis", placeholder_analysis)]).

(** The body of the [try] of [SQSHandler.get_queue_stats]; [response]
    is what [get_queue_attributes] gives, a dictionary or an
    exception. *)
Definition get_queue_stats_body (queue_url : string) (response : res pyval) : res pyval :=
  r ← response;
  attributes ← py_getitem r "Attributes";
  approximate_messages ←
    py_get attributes "ApproximateNumberOfMessages" (PInt 0) ≫= py_int;
  messages_in_flight ←
    py_get attributes "ApproximateNumberOfMessagesNotVisible" (PInt 0) ≫= py_int;
  messages_delayed ←
    py_get attributes "ApproximateNumberOfMessagesDelayed" (PInt 0) ≫= py_int;
  Ret (PDict [("queue_url", PStr queue_url);
              ("approximate_messages", PInt approximate_messages);
              ("messages_in_flight", PInt messages_in_flight);
              ("messages_delayed", PInt messages_delayed)]).

(** [SQSHandler.get_queue_stats]: an empty dictionary on any failure. *)
Definition get_queue_stats (queue_url : string) (response : res pyval) : pyval :=
  match get_queue_stats_body queue_url response with
  | Ret stats => stats
  | Raise _ => PDict []
  end.

(** One element of the list [DatabaseUpdater.get_failed_records]
    returns. *)
Definition failed_record_dict (id : positive) (r : ProcessingRecord) : pyval :=
  PDict [("id", PInt (Zpos id));
         ("upload_id", opt_pyval PStr (upload_id r));
         ("s3_bucket", s3_bucket r);
         ("s3_key", s3_key r);
         ("retry_count", PInt (retry_count r));
         ("error_message", opt_pyval PStr (error_message r))].

(** The filter of the query of [get_failed_records]. *)
Definition retryable (max_retries : Z) (r : ProcessingRecord) : bool :=
  String.eqb (processing_status r) "failed" && (retry_count r <? max_retries).

(** [DatabaseUpdater.get_failed_records]: the rows the query selects,
    in the order the store returns them (the query asks for none), or
    the empty list when the session or the query fails. *)
Definition get_failed_records (query_ok : bool) (d : Database) (max_retries : Z) : list pyval :=
  if query_ok then
    List.map (fun ir => failed_record_dict (fst ir) (snd ir))
      (List.filter (fun ir => retryable max_retries (snd ir)) (map_to_list (rows d)))
  else [].

(** backend/main.py, [upload_file]: the object key it stores an upload
    under, [f"{S3_PREFIX}/{user_id.strip()}/{subject_id.strip()}/{upload_id}{file_extension}"],
    from the two identifiers as stripped. *)
Definition upload_s3_key (prefix user_id subject_id upload_id file_extension : string) : string :=
  prefix +:+ "/" +:+ user_id +:+ "/" +:+ subject_id +:+ "/" +:+ upload_id +:+ file_extension.

(* ===================================================================== *)
(** * Notions used to state the properties *)
(* ===================================================================== *)

(** The inputs [_parse_fps] cannot read as a frame rate: a value that
    is not a string; a string without a slash that is no float literal;
    a string with a slash that does not split in exactly two parts, or
    with a part that is no float literal, or with a zero denominator. *)
Inductive unparsable : pyval -> Prop :=
  | unparsable_not_str v :
      (forall s, v <> PStr s) -> unparsable v
  | unparsable_number s e :
      py_in_str "/" (PStr s) = Ret false ->
      float_of_string s = Raise e ->
      unparsable (PStr s)
  | unparsable_shape s :
      py_in_str "/" (PStr s) = Ret true ->
      length (split "/" s) <> 2%nat ->
      unparsable (PStr s)
  | unparsable_numerator s num den e :
      py_in_str "/" (PStr s) = Ret true ->
      split "/" s = [num; den] ->
      float_of_string num = Raise e ->
      unparsable (PStr s)
  | unparsable_denominator s num den e :
      py_in_str "/" (PStr s) = Ret true ->
      split "/" s = [num; den] ->
      float_of_string den = Raise e ->
      unparsable (PStr s)
  | unparsable_zero_denominator s num den n d :
      py_in_str "/" (PStr s) = Ret true ->
      split "/" s = [num; den] ->
      float_of_string num = Ret n ->
      float_of_string den = Ret d ->
      PrimFloat.eqb d zero = true ->
      unparsable (PStr s).

(** The failures the specification names, read off the two runs of the
    probe tool: the tool is absent, a run times out, a run exits with a
    code other than zero, or the output does not decode. *)
Definition probe_failure (json_loads : string -> option pyval) (env : MsgEnv) : Prop :=
  ffprobe_version env = RunNotFound \/
  ffprobe_version env = RunTimeout \/
  (exists rc out err, ffprobe_version env = RunCompleted rc out err /\ rc <> 0) \/
  ffprobe_run env = RunNotFound \/
  ffprobe_run env = RunTimeout \/
  (exists rc out err, ffprobe_run env = RunCompleted rc out err /\ rc <> 0) \/
  (exists out err, ffprobe_run env = RunCompleted 0 out err /\ json_loads out = None).

(** The local files once the transfer has ended: a transfer that wrote
    [n] bytes leaves a file of that size at [local_filename]. *)
Definition after_transfer (fs : files) (local_filename : string) (written : option Z) : files :=
  match written with
  | Some n => <[local_filename := n]> fs
  | None => fs
  end.

(** The exception [process_message] raises when the download returned
    nothing. *)
Definition download_failed : exn := Exception "Failed to download file from S3".

(** Whatever [m] raises has a text ([str(e)] is not empty). *)
Definition raises_described {A : Type} (m : res A) : Prop :=
  forall e, m = Raise e -> exn_str e <> "".

(** The seconds elapsed since the service started, as the check of
    cycle [c] reads them. *)
Definition elapsed (st : State) (c : CycleEnv) : float :=
  total_seconds (start_time (stats st)) (check_time c).

(** The shape of a run of the main loop under a budget [limit]: cycles
    of a check that read less than the budget, a poll and a sleep,
    ended by a check that read the budget or more, or by the end of the
    cycles given to the model. *)
Inductive loop_trace (limit : float) : exit_reason -> list event -> Prop :=
  | loop_trace_end :
      loop_trace limit WorldEnds []
  | loop_trace_stop e :
      PrimFloat.leb limit e = true ->
      loop_trace limit RuntimeLimit [EvCheck e]
  | loop_trace_cycle e why evs :
      PrimFloat.leb limit e = false ->
      loop_trace limit why evs ->
      loop_trace limit why (EvCheck e :: EvPoll :: EvSleep :: evs).

(** What holds of an event decoded from a notification record. *)
Definition validated (config : Config) (message : RawMessage) (parsed : ParsedMessage)
    : Prop :=
  m_bucket parsed = PStr (S3_BUCKET config) /\
  (exists key, m_key parsed = PStr key /\
               startswith key (S3_PREFIX config +:+ "/") = true) /\
  (exists name, m_event_name parsed = PStr name /\
                startswith name (EXPECTED_S3_EVENT_PREFIX config) = true) /\
  m_event_source parsed = Some (PStr (EXPECTED_S3_EVENT_SOURCE config)) /\
  m_message_id parsed = MessageId message /\
  m_receipt_handle parsed = ReceiptHandle message /\
  m_raw_message parsed = message.

(** What holds of an event decoded from the direct format. *)
Definition manual (message : RawMessage) (parsed : ParsedMessage) : Prop :=
  m_event_name parsed = PStr "manual" /\
  m_event_source parsed = None /\
  m_etag parsed = None /\
  m_message_id parsed = MessageId message /\
  m_receipt_handle parsed = ReceiptHandle message /\
  m_raw_message parsed = message.

(** A counter of the queue as [get_queue_stats] reads it from the
    attributes of the response: [int] of the attribute, [0] when the
    attribute is absent. *)
Definition queue_counter (attributes : list (string * pyval)) (name : string) : res Z :=
  py_int (default (PInt 0) (assoc name attributes)).

(** A stream of the probe output is of kind [kind] (["video"],
    ["audio"]) when it is a dictionary whose [codec_type] is [kind]. *)
Definition stream_kind (kind : string) (stream : pyval) : bool :=
  match stream with
  | PDict d => py_eq_str (default PNone (assoc "codec_type" d)) kind
  | _ => false
  end.

Definition is_dict (v : pyval) : Prop := exists d, v = PDict d.

(** The three states the service leaves a record in: created and not
    yet updated, completed, or failed after its one attempt. *)
Definition service_record (r : ProcessingRecord) : Prop :=
  (processing_status r = "processing" /\ retry_count r = 0 /\
   processing_completed r = None /\ error_message r = None) \/
  (processing_status r = "completed" /\ retry_count r = 0 /\ error_message r = None) \/
  (processing_status r = "failed" /\ retry_count r = 1 /\ metadata_json r = None).

(** A table the service has written: every row is below the key the
    store gives out next, and is in one of the three states. *)
Definition db_ok (d : Database) : Prop :=
  forall id r, rows d !! id = Some r -> (id < next_id d)%positive /\ service_record r.

(** [d'] holds every row of [d], unchanged. *)
Definition db_extends (d d' : Database) : Prop :=
  (next_id d <= next_id d')%positive /\
  forall id r, rows d !! id = Some r -> rows d' !! id = Some r.

(** The character [c] occurs in [s]. *)
Fixpoint contains_char (c : ascii) (s : string) : bool :=
  match s with
  | EmptyString => false
  | String a s' => Ascii.eqb a c || contains_char c s'
  end.

(** The events a cycle handles: what its poll returns. *)
Definition polled (config : Config) (json_loads : string -> option pyval)
    (c : CycleEnv) (st : State) : list ParsedMessage :=
  fst (poll_messages config json_loads (received c) (deleted st)).

(* ===================================================================== *)
(** * Data for concrete runs *)
(* ===================================================================== *)

(** The settings [config.py] falls back on. *)
Definition default_config : Config := {|
  S3_BUCKET := "dancer-uploads";
  S3_PREFIX := "uploads";
  SQS_MAX_MESSAGES := 10;
  EXPECTED_S3_EVENT_SOURCE := "aws:s3";
  EXPECTED_S3_EVENT_PREFIX := "ObjectCreated";
  DOWNLOAD_DIR := "./temp_downloads";
  CLEANUP_AFTER_PROCESSING := true;
  POLL_INTERVAL_SECONDS := 5;
  MAX_RUNTIME_HOURS := 1
|}.

(** The JSON text of a value built from dictionaries, lists, strings
    without characters to escape, integers, booleans and [None]. *)
Definition quoted (s : string) : string :=
  String dquote s +:+ String dquote "".

Fixpoint json_text (v : pyval) : string :=
  match v with
  | PNone | PFloat _ | PDatetime _ => "null"
  | PBool b => if b then "true" else "false"
  | PInt n => pretty n
  | PStr s => quoted s
  | PList l =>
      "[" +:+ (fix items (l : list pyval) : string :=
                 match l with
                 | [] => ""
                 | x :: rest =>
                     json_text x +:+ match rest with
                                     | [] => ""
                                     | _ => "," +:+ items rest
                                     end
                 end) l +:+ "]"
  | PDict d =>
      "{" +:+ (fix items (d : list (string * pyval)) : string :=
                 match d with
                 | [] => ""
                 | (k, x) :: rest =>
                     quoted k +:+ ":" +:+ json_text x +:+ match rest with
                                                          | [] => ""
                                                          | _ => "," +:+ items rest
                                                          end
                 end) d +:+ "}"
  end.

(** One record of an object-store event notification. *)
Definition s3_record (source name bucket key : string) : pyval :=
  PDict [("eventSource", PStr source);
         ("eventName", PStr name);
         ("eventTime", PStr "2024-05-01T10:00:00.000Z");
         ("awsRegion", PStr "us-east-1");
         ("s3", PDict [("bucket", PDict [("name", PStr bucket)]);
                       ("object", PDict [("key", PStr key);
                                         ("size", PInt 1024);
                                         ("eTag", PStr "0a1b2c")])])].

Definition notification (records : list pyval) : pyval :=
  PDict [("Records", PList records)].

(** The documents the runs below use. *)
Definition valid_event : pyval :=
  notification [s3_record "aws:s3" "ObjectCreated:Put" "dancer-uploads"
                  "uploads/u1/s1/abc123.mp4"].

Definition wrong_source_event : pyval :=
  notification [s3_record "aws:sns" "ObjectCreated:Put" "dancer-uploads"
                  "uploads/u1/s1/abc123.mp4"].

Definition wrong_name_event : pyval :=
  notification [s3_record "aws:s3" "ObjectRemoved:Delete" "dancer-uploads"
                  "uploads/u1/s1/abc123.mp4"].

Definition wrong_bucket_event : pyval :=
  notification [s3_record "aws:s3" "ObjectCreated:Put" "other-bucket"
                  "uploads/u1/s1/abc123.mp4"].

Definition wrong_prefix_event : pyval :=
  notification [s3_record "aws:s3" "ObjectCreated:Put" "dancer-uploads"
                  "private/u1/s1/abc123.mp4"].

Definition three_record_event : pyval :=
  notification [s3_record "aws:s3" "ObjectRemoved:Delete" "dancer-uploads"
                  "uploads/u1/s1/first.mp4";
                s3_record "aws:s3" "ObjectCreated:Put" "dancer-uploads"
                  "uploads/u1/s1/second.mp4";
                s3_record "aws:s3" "ObjectCreated:Put" "dancer-uploads"
                  "uploads/u1/s1/third.mp4"].

Definition documents : list pyval :=
  [valid_event; wrong_source_event; wrong_name_event; wrong_bucket_event;
   wrong_prefix_event; three_record_event].

(** [json.loads] on the texts of [documents]; the other text the runs
    use, ["not json"], does not decode. *)
Definition loads_documents (text : string) : option pyval :=
  List.find (fun v => String.eqb (json_text v) text) documents.

Definition message_of (n : string) (v : pyval) : RawMessage :=
  {| MessageId := "id-" +:+ n; ReceiptHandle := "rh-" +:+ n; Body := json_text v |}.

Definition undecodable_message : RawMessage :=
  {| MessageId := "id-0"; ReceiptHandle := "rh-0"; Body := "not json" |}.

Definition abc123_response : HeadResponse := {|
  ContentLength := Some 1024;
  ContentType := Some "video/mp4";
  LastModified := Some "2024-05-01 10:00:00+00:00";
  ETag := Some (quoted "0a1b2c");
  Metadata := Some [];
  StorageClass := None
|}.

(** A world for one message: the store accepts the record and its
    update, the probe tool is not installed; the three answers of the
    object store are given. *)
Definition world (head1 : res HeadResponse) (bytes : res (option Z))
    (head2 : res HeadResponse) : MsgEnv := {|
  db_create_ok := true;
  created_at := "2024-05-01T10:00:01";
  makedirs_ok := true;
  pre_head := head1;
  transfer := bytes;
  meta_head := head2;
  file_mtime := "2024-05-01T10:00:02";
  ffprobe_version := RunNotFound;
  ffprobe_run := RunNotFound;
  processing_timestamp := "2024-05-01T10:00:03";
  stdout_failure := None;
  db_update_ok := true;
  completed_at := "2024-05-01T10:00:04";
  remove_ok := true
|}.

Definition initial_state : State := {|
  db := {| rows := ∅; next_id := 1 |};
  fs := ∅;
  deleted := [];
  stats := {| start_time := 0;
              messages_processed := 0;
              files_downloaded := 0;
              processing_errors := 0;
              last_activity := None |}
|}.

(** The event [poll_messages] decodes from [message_of "1" valid_event]. *)
Definition abc123_event : ParsedMessage := {|
  m_message_id := "id-1";
  m_receipt_handle := "rh-1";
  m_bucket := PStr "dancer-uploads";
  m_key := PStr "uploads/u1/s1/abc123.mp4";
  m_size := PInt 1024;
  m_etag := Some (PStr "0a1b2c");
  m_event_name := PStr "ObjectCreated:Put";
  m_event_time := PStr "2024-05-01T10:00:00.000Z";
  m_event_source := Some (PStr "aws:s3");
  m_aws_region := Some (PStr "us-east-1");
  m_raw_message := message_of "1" valid_event
|}.

(** Two cycles of a service started at time 0 with the default budget
    of one hour: the first check reads 10 seconds, the second 3600. *)
Definition first_cycle : CycleEnv := {|
  check_time := 10 * 10 ^ 6;
  received := Ret [message_of "1" valid_event];
  msg_env := fun _ => world (Ret abc123_response) (Ret (Some 1024)) (Ret abc123_response);
  activity_time := 12 * 10 ^ 6
|}.

Definition late_cycle : CycleEnv := {|
  check_time := 3600 * 10 ^ 6;
  received := Ret [message_of "1" valid_event];
  msg_env := fun _ => world (Ret abc123_response) (Ret (Some 1024)) (Ret abc123_response);
  activity_time := 3602 * 10 ^ 6
|}.

(** An output of the probe tool with a bit rate of [10^320], and the
    [json.loads] that decodes its text. *)
Definition huge_bit_rate : string := "1" +:+ repeat_string 320 "0".

Definition overflowing_probe_output : pyval :=
  PDict [("streams", PList []);
         ("format", PDict [("bit_rate", PStr huge_bit_rate)])].

Definition loads_overflowing (text : string) : option pyval :=
  if String.eqb text (json_text overflowing_probe_output)
  then Some overflowing_probe_output else None.

(** A world in which the object is downloaded, the metadata lookup is
    refused, and the probe tool prints [overflowing_probe_output]. *)
Definition overflowing_world : MsgEnv := {|
  db_create_ok := true;
  created_at := "2024-05-01T10:00:01";
  makedirs_ok := true;
  pre_head := Ret abc123_response;
  transfer := Ret (Some 1024);
  meta_head := Raise (ClientError "AccessDenied");
  file_mtime := "2024-05-01T10:00:02";
  ffprobe_version := RunCompleted 0 "ffprobe version 6.0" "";
  ffprobe_run := RunCompleted 0 (json_text overflowing_probe_output) "";
  processing_timestamp := "2024-05-01T10:00:03";
  stdout_failure := None;
  db_update_ok := true;
  completed_at := "2024-05-01T10:00:04";
  remove_ok := true
|}.

(** A message in the direct format, for another bucket and prefix. *)
Definition direct_event : pyval :=
  PDict [("bucket", PStr "other-bucket"); ("key", PStr "private/clip.mov")].

(** A record with the expected source and event name and no [s3]
    entry, and a notification that holds it before a valid record. *)
Definition broken_record : pyval :=
  PDict [("eventSource", PStr "aws:s3"); ("eventName", PStr "ObjectCreated:Put")].

Definition broken_then_valid_event : pyval :=
  notification [broken_record;
                s3_record "aws:s3" "ObjectCreated:Put" "dancer-uploads"
                  "uploads/u1/s1/abc123.mp4"].

(** An output of the probe tool: an audio stream and two video streams;
    the duration is given as the tool prints it. *)
Definition audio_stream : pyval :=
  PDict [("codec_type", PStr "audio"); ("codec_name", PStr "aac")].

Definition video_stream (codec : string) (width height : Z) : pyval :=
  PDict [("codec_type", PStr "video");
         ("codec_name", PStr codec);
         ("width", PInt width);
         ("height", PInt height);
         ("r_frame_rate", PStr "30000/1001")].

Definition probe_format (duration : string) : list (string * pyval) :=
  [("duration", PStr duration); ("bit_rate", PStr "800000"); ("size", PStr "1250000")].

Definition probe_output (duration : string) (streams : list pyval) : list (string * pyval) :=
  [("streams", PList streams); ("format", PDict (probe_format duration))].

Definition further_documents : list pyval :=
  [valid_event; direct_event; broken_then_valid_event;
   PDict (probe_output "N/A" [audio_stream; video_stream "h264" 1920 1080])].

(** [json.loads] on the texts of [further_documents]. *)
Definition loads_further (text : string) : option pyval :=
  List.find (fun v => String.eqb (json_text v) text) further_documents.

(** A world in which the probe tool is installed and prints [out]. *)
Definition probe_world (out : pyval) : MsgEnv := {|
  db_create_ok := true;
  created_at := "2024-05-01T10:00:01";
  makedirs_ok := true;
  pre_head := Ret abc123_response;
  transfer := Ret (Some 1024);
  meta_head := Ret abc123_response;
  file_mtime := "2024-05-01T10:00:02";
  ffprobe_version := RunCompleted 0 "ffprobe version 6.0" "";
  ffprobe_run := RunCompleted 0 (json_text out) "";
  processing_timestamp := "2024-05-01T10:00:03";
  stdout_failure := None;
  db_update_ok := true;
  completed_at := "2024-05-01T10:00:04";
  remove_ok := true
|}.

(** The world of a message whose object is not in the store, and the
    table after the handling of such a message. *)
Definition missing_object_world : MsgEnv :=
  world (Raise (ClientError "NoSuchKey")) (Ret None) (Raise (ClientError "NoSuchKey")).

Definition failed_table : Database :=
  db (handle_message default_config loads_documents missing_object_world
        initial_state abc123_event).

(** A cycle whose receive call fails. *)
Definition unreachable_queue_cycle : CycleEnv := {|
  check_time := 20 * 10 ^ 6;
  received := Raise (ClientError "AWS.SimpleQueueService.NonExistentQueue");
  msg_env := fun _ => missing_object_world;
  activity_time := 22 * 10 ^ 6
|}.

(** The default settings without a runtime budget. *)
Definition unlimited_config : Config := {|
  S3_BUCKET := S3_BUCKET default_config;
  S3_PREFIX := S3_PREFIX default_config;
  SQS_MAX_MESSAGES := SQS_MAX_MESSAGES default_config;
  EXPECTED_S3_EVENT_SOURCE := EXPECTED_S3_EVENT_SOURCE default_config;
  EXPECTED_S3_EVENT_PREFIX := EXPECTED_S3_EVENT_PREFIX default_config;
  DOWNLOAD_DIR := DOWNLOAD_DIR default_config;
  CLEANUP_AFTER_PROCESSING := CLEANUP_AFTER_PROCESSING default_config;
  POLL_INTERVAL_SECONDS := POLL_INTERVAL_SECONDS default_config;
  MAX_RUNTIME_HOURS := 0
|}.

(* ===================================================================== *)
(** * Properties *)
(* ===================================================================== *)

(** ** Frame-rate parsing *)

Lemma parse_fps_none_iff_raise (v : pyval) :
  _parse_fps v = Ret None <-> exists e, _parse_fps_body v = Raise e.
Proof.
  unfold _parse_fps. destruct (_parse_fps_body v) as [f|e].
  - split; [discriminate | intros [e H]; discriminate].
  - split; [eauto | reflexivity].
Qed.

Lemma parse_fps_not_str (v : pyval) :
  (forall s, v <> PStr s) -> exists e, _parse_fps_body v = Raise e.
Proof.
  intros Hv. unfold _parse_fps_body.
  destruct v as [| b | n | f | s | iso | l | d]; simpl; eauto.
  - exfalso. apply (Hv s). reflexivity.
  - destruct (existsb _ l); simpl; eauto.
  - destruct (bool_decide _); simpl; eauto.
Qed.

Lemma parse_fps_str_cases (s : string) (e : exn) :
  _parse_fps_body (PStr s) = Raise e -> unparsable (PStr s).
Proof.
  unfold _parse_fps_body.
  destruct (py_in_str "/" (PStr s)) as [[|]|e0] eqn:Hin; simpl; [| |discriminate].
  - destruct (split "/" s) as [|num [|den [|x rest]]] eqn:Hsplit;
      try (intros _; apply unparsable_shape; [exact Hin | rewrite Hsplit; simpl; lia]).
    destruct (float_of_string num) as [n|en] eqn:Hn; simpl;
      [| intros _; eapply unparsable_numerator; eauto].
    destruct (float_of_string den) as [d|ed] eqn:Hd; simpl;
      [| intros _; eapply unparsable_denominator; eauto].
    unfold float_div. destruct (PrimFloat.eqb d zero) eqn:Hz; simpl; [|discriminate].
    intros _. eapply unparsable_zero_denominator; eauto.
  - intros H. eapply unparsable_number; eauto.
Qed.

Lemma unparsable_raises (v : pyval) :
  unparsable v -> exists e, _parse_fps_body v = Raise e.
Proof.
  intros H. destruct H as [v Hv | s e Hin Hf | s Hin Hlen | s num den e Hin Hs Hf
                          | s num den e Hin Hs Hf | s num den n d Hin Hs Hn Hd Hz].
  - apply parse_fps_not_str. exact Hv.
  - unfold _parse_fps_body. rewrite Hin. simpl. rewrite Hf. eauto.
  - unfold _parse_fps_body. rewrite Hin. simpl.
    destruct (split "/" s) as [|a [|b [|c rest]]]; simpl in *; eauto; lia.
  - unfold _parse_fps_body. rewrite Hin. simpl. rewrite Hs, Hf. simpl. eauto.
  - unfold _parse_fps_body. rewrite Hin. simpl. rewrite Hs.
    destruct (float_of_string num); simpl; eauto. rewrite Hf. simpl. eauto.
  - unfold _parse_fps_body. rewrite Hin. simpl. rewrite Hs, Hn. simpl. rewrite Hd. simpl.
    unfold float_div. rewrite Hz. simpl. eauto.
Qed.

(** C3. [_parse_fps] maps ["30/1"] to [30.0] and ["24000/1001"] to
    [23.98] (the quotient rounded to two decimals); on ["0/0"] it gives
    [None]; on every input it returns and never raises; and it gives
    [None] exactly on the unparsable inputs. *)
Theorem parse_fps_spec :
  _parse_fps (PStr "30/1") = Ret (Some 30%float) /\
  _parse_fps (PStr "24000/1001") = Ret (Some 23.98%float) /\
  _parse_fps (PStr "0/0") = Ret None /\
  (forall v, exists r, _parse_fps v = Ret r) /\
  (forall v, unparsable v <-> _parse_fps v = Ret None).
Proof.
  split; [vm_compute; reflexivity|].
  split; [vm_compute; reflexivity|].
  split; [vm_compute; reflexivity|].
  split.
  - intros v. unfold _parse_fps. destruct (_parse_fps_body v); eauto.
  - intros v. rewrite parse_fps_none_iff_raise. split.
    + apply unparsable_raises.
    + intros [e He]. destruct v as [| b | n | f | s | iso | l | d];
        try (apply unparsable_not_str; intros s0; discriminate).
      eapply parse_fps_str_cases. exact He.
Qed.

(** ** Upload-id derivation *)

Lemma extract_upload_id_returns (s3_key : pyval) :
  exists r, _extract_upload_id_from_key s3_key = Ret r.
Proof.
  unfold _extract_upload_id_from_key.
  destruct (_extract_upload_id_from_key_body s3_key); eauto.
Qed.

(** C5. The key ["uploads/u1/s1/abc123.mp4"] gives the upload id
    ["abc123"]; a key with fewer than four segments between slashes, or
    whose first segment is not ["uploads"], gives no upload id, and the
    record created for it has an empty [upload_id]; no key (and no
    value in place of a key) makes the derivation raise. *)
Theorem extract_upload_id_spec :
  _extract_upload_id_from_key (PStr "uploads/u1/s1/abc123.mp4") = Ret (Some "abc123") /\
  (forall key : string,
      (length (split "/" key) < 4)%nat \/ hd "" (split "/" key) <> "uploads" ->
      _extract_upload_id_from_key (PStr key) = Ret None /\
      forall env db bucket,
        db_create_ok env = true ->
        exists record,
          fst (create_processing_record env db bucket (PStr key)) = Some (next_id db) /\
          rows (snd (create_processing_record env db bucket (PStr key))) !! next_id db
            = Some record /\
          upload_id record = None) /\
  (forall s3_key, exists r, _extract_upload_id_from_key s3_key = Ret r).
Proof.
  split; [vm_compute; reflexivity|].
  split; [|apply extract_upload_id_returns].
  intros key Hkey.
  assert (Hnone : _extract_upload_id_from_key (PStr key) = Ret None).
  { unfold _extract_upload_id_from_key, _extract_upload_id_from_key_body.
    cbv beta iota delta [mbind res_bind py_split].
    destruct Hkey as [Hlen | Hhd].
    - destruct (Nat.leb_spec 4 (length (split "/" key))) as [H4 | H4]; [lia | reflexivity].
    - destruct (String.eqb_spec (hd "" (split "/" key)) "uploads") as [Heq | Hne];
        [contradiction|].
      rewrite andb_false_r. reflexivity. }
  split; [exact Hnone|].
  intros env db bucket Hok. unfold create_processing_record. rewrite Hok, Hnone. simpl.
  eexists. split; [reflexivity|]. split; [apply lookup_insert_eq | reflexivity].
Qed.

(** ** The queue client: parsing and polling *)

Section SQSProperties.

Variable config : Config.
Variable json_loads : string -> option pyval.

Lemma parse_message_returns (message : RawMessage) :
  exists r, _parse_message config json_loads message = Ret r.
Proof.
  unfold _parse_message. destruct (_parse_message_body config json_loads message); eauto.
Qed.

(** The handler of [poll_messages] that deletes a malformed message is
    never entered: no delete request leaves a poll. *)
Lemma poll_loop_sends_no_delete (messages : list RawMessage) (deleted : list string) :
  snd (poll_loop config json_loads messages deleted) = deleted.
Proof.
  revert deleted. induction messages as [|message rest IH]; intros deleted; simpl.
  - reflexivity.
  - destruct (parse_message_returns message) as [r Hr]. rewrite Hr.
    destruct r as [parsed|].
    + specialize (IH deleted).
      destruct (poll_loop config json_loads rest deleted) as [ps del]. exact IH.
    + apply IH.
Qed.

Lemma poll_messages_sends_no_delete (received : res (list RawMessage)) (deleted : list string) :
  snd (poll_messages config json_loads received deleted) = deleted.
Proof.
  destruct received as [messages|e]; simpl; [apply poll_loop_sends_no_delete | reflexivity].
Qed.

(** A message whose body does not decode, or decodes to a record list
    in which no record passes the checks, yields no event. *)
Lemma poll_single (message : RawMessage) (deleted : list string) :
  poll_messages config json_loads (Ret [message]) deleted =
    (match _parse_message config json_loads message with
     | Ret (Some parsed) => [parsed]
     | _ => []
     end, deleted).
Proof.
  simpl. destruct (parse_message_returns message) as [r Hr]. rewrite Hr.
  destruct r; reflexivity.
Qed.

Lemma parse_message_records (message : RawMessage) (d : list (string * pyval))
    (records : list pyval) :
  json_loads (Body message) = Some (PDict d) ->
  assoc "Records" d = Some (PList records) ->
  _parse_message_body config json_loads message = parse_records config message records.
Proof.
  intros Hbody Hrec. unfold _parse_message_body, loads. rewrite Hbody.
  cbn [mbind res_bind py_in_str py_getitem py_iter]. rewrite Hrec.
  rewrite bool_decide_eq_true_2 by eauto. reflexivity.
Qed.

Lemma parse_records_first (message : RawMessage) (pre post : list pyval)
    (r : pyval) (parsed : ParsedMessage) :
  Forall (fun x => parse_record config message x = Ret None) pre ->
  parse_record config message r = Ret (Some parsed) ->
  parse_records config message (pre ++ r :: post) = Ret (Some parsed).
Proof.
  intros Hpre Hr. induction Hpre as [|x pre Hx Hpre IH]; simpl.
  - rewrite Hr. reflexivity.
  - rewrite Hx. simpl. exact IH.
Qed.

Lemma parse_records_some_inv (message : RawMessage) (records : list pyval)
    (parsed : ParsedMessage) :
  parse_records config message records = Ret (Some parsed) ->
  exists pre r post,
    records = (pre ++ r :: post)%list /\
    Forall (fun x => parse_record config message x = Ret None) pre /\
    parse_record config message r = Ret (Some parsed).
Proof.
  induction records as [|x rest IH]; simpl; [discriminate|].
  destruct (parse_record config message x) as [[p|]|e] eqn:Hx; simpl; [| |discriminate].
  - intros H. inversion H; subst. exists [], x, rest. auto.
  - intros H. destruct (IH H) as (pre & r & post & -> & Hpre & Hr).
    exists (x :: pre), r, post. auto.
Qed.

(** C9. A message whose body holds a [Records] list yields at most one
    event; an event it yields comes from the first record that passes
    all the checks, the records before it having failed one; and given
    such a first record the result is that one event whatever the later
    records are, valid or not. *)
Theorem poll_first_valid_record_only (message : RawMessage) (d : list (string * pyval))
    (records : list pyval) (deleted : list string) :
  json_loads (Body message) = Some (PDict d) ->
  assoc "Records" d = Some (PList records) ->
  (length (fst (poll_messages config json_loads (Ret [message]) deleted)) <= 1)%nat /\
  (forall parsed,
      In parsed (fst (poll_messages config json_loads (Ret [message]) deleted)) ->
      exists pre r post,
        records = (pre ++ r :: post)%list /\
        Forall (fun x => parse_record config message x = Ret None) pre /\
        parse_record config message r = Ret (Some parsed)) /\
  (forall pre r post parsed,
      records = (pre ++ r :: post)%list ->
      Forall (fun x => parse_record config message x = Ret None) pre ->
      parse_record config message r = Ret (Some parsed) ->
      fst (poll_messages config json_loads (Ret [message]) deleted) = [parsed]).
Proof.
  intros Hbody Hrec. rewrite poll_single. unfold _parse_message.
  rewrite (parse_message_records message d records Hbody Hrec). simpl.
  split; [|split].
  - destruct (parse_records config message records) as [[p|]|e]; simpl; lia.
  - intros parsed Hin.
    destruct (parse_records config message records) as [[p|]|e] eqn:Hp; simpl in Hin;
      try contradiction.
    destruct Hin as [-> | []]. apply parse_records_some_inv. exact Hp.
  - intros pre r post parsed -> Hpre Hr.
    rewrite (parse_records_first message pre post r parsed Hpre Hr). reflexivity.
Qed.

End SQSProperties.

(** ** The probe adapter: fallback and result shape *)

(** Case analysis on the first result a sequence of calls waits for. *)
Ltac step_bind :=
  match goal with
  | |- context [mbind _ ?m] =>
      let E := fresh "E" in
      destruct m eqn:E; cbn [mbind res_bind]; try discriminate
  end.

Section ExtractorProperties.

Variable json_loads : string -> option pyval.

Lemma basic_video_info_returns (file_path : string) :
  _extract_basic_video_info file_path =
    Ret (PDict [("extraction_method", PStr "basic_analysis");
                ("file_extension", PStr (lower (splitext_ext file_path)));
                ("detected_format", PStr (fst (format_info (lower (splitext_ext file_path)))));
                ("likely_codec", PStr (snd (format_info (lower (splitext_ext file_path)))));
                ("note", PStr "Limited metadata - install ffmpeg for detailed analysis")]).
Proof. reflexivity. Qed.

Lemma extract_video_metadata_returns (env : MsgEnv) (file_path : string) :
  exists m, _extract_video_metadata json_loads env file_path = Ret m.
Proof.
  unfold _extract_video_metadata.
  destruct (_extract_with_ffprobe json_loads env); [eauto|].
  rewrite basic_video_info_returns. eauto.
Qed.

Lemma raises_described_bind {A B : Type} (m : res A) (k : A -> res B) :
  raises_described m -> (forall a, raises_described (k a)) ->
  raises_described (m ≫= k).
Proof.
  intros Hm Hk e. destruct m as [a|e0]; cbn [mbind res_bind].
  - apply Hk.
  - intros H. apply Hm. inversion H. reflexivity.
Qed.

Lemma raises_described_ret {A : Type} (a : A) : raises_described (Ret a).
Proof. intros e H. discriminate. Qed.

Lemma raises_described_if {A : Type} (c : bool) (m1 m2 : res A) :
  raises_described m1 -> raises_described m2 ->
  raises_described (if c then m1 else m2).
Proof. destruct c; auto. Qed.

Lemma raises_described_raise {A : Type} (e : exn) :
  exn_str e <> "" -> raises_described (Raise e : res A).
Proof. intros He e0 H. inversion H; subst. exact He. Qed.

Lemma py_get_described (v : pyval) (key : string) (dflt : pyval) :
  raises_described (py_get v key dflt).
Proof.
  destruct v; simpl;
    first [apply raises_described_ret | apply raises_described_raise; discriminate].
Qed.

Lemma py_getitem_described (v : pyval) (key : string) :
  raises_described (py_getitem v key).
Proof.
  destruct v; simpl; try (apply raises_described_raise; discriminate).
  destruct (assoc key d);
    first [apply raises_described_ret | apply raises_described_raise; discriminate].
Qed.

Lemma py_in_str_described (key : string) (v : pyval) :
  raises_described (py_in_str key v).
Proof.
  destruct v; simpl;
    first [apply raises_described_ret | apply raises_described_raise; discriminate].
Qed.

Lemma py_iter_described (v : pyval) : raises_described (py_iter v).
Proof.
  destruct v; simpl;
    first [apply raises_described_ret | apply raises_described_raise; discriminate].
Qed.

Lemma int_true_div_described (a b : Z) : raises_described (int_true_div a b).
Proof.
  unfold int_true_div. cbv zeta.
  destruct (is_infinity _);
    first [apply raises_described_ret | apply raises_described_raise; discriminate].
Qed.

Lemma py_truediv_described (v : pyval) (d : Z) : raises_described (py_truediv v d).
Proof.
  destruct v; simpl;
    first [apply int_true_div_described | apply raises_described_ret
          | apply raises_described_raise; discriminate].
Qed.

Lemma py_mul_described (v : pyval) (k : Z) : raises_described (py_mul v k).
Proof.
  destruct v; simpl;
    first [apply raises_described_ret | apply raises_described_raise; discriminate].
Qed.

Lemma py_format_f_described (v : pyval) : raises_described (py_format_f v).
Proof.
  destruct v; simpl;
    first [apply raises_described_ret | apply raises_described_raise; discriminate | idtac].
  apply raises_described_bind; [apply int_true_div_described|].
  intros a. apply raises_described_ret.
Qed.

Lemma print_described (env : MsgEnv) (line : Z) : raises_described (print env line).
Proof.
  unfold print. destruct (stdout_failure env) as [[l f]|]; [|apply raises_described_ret].
  destruct (l =? line); [|apply raises_described_ret].
  apply raises_described_raise. destruct f; discriminate.
Qed.

Lemma print_each_described (env : MsgEnv) (line : Z) (items : list pyval) :
  raises_described (print_each env line items).
Proof.
  induction items as [|x rest IH]; simpl; [apply raises_described_ret|].
  apply raises_described_bind; [apply print_described | intros _; exact IH].
Qed.

(** The summary raises nothing without a text. *)
Lemma print_metadata_summary_described (env : MsgEnv) (metadata : pyval) :
  raises_described (_print_metadata_summary env metadata).
Proof.
  unfold _print_metadata_summary.
  repeat first
    [ apply raises_described_bind; [|intros ?]
    | apply raises_described_if
    | apply raises_described_ret
    | apply py_get_described
    | apply py_getitem_described
    | apply py_in_str_described
    | apply py_iter_described
    | apply py_truediv_described
    | apply py_mul_described
    | apply py_format_f_described
    | apply print_each_described
    | apply print_described ].
Qed.

(** What [extract_metadata] does: it builds the result, prints its
    summary, and returns the result when the printing raised nothing. *)
Lemma extract_metadata_shape (fs0 : files) (env : MsgEnv) (file_path : string)
    (s3_metadata : pyval) :
  exists info video analysis,
    _extract_video_metadata json_loads env file_path = Ret video /\
    let metadata :=
      PDict [("processing_info", info);
             ("real_metadata",
               PDict [("file_info", _get_file_info fs0 (file_mtime env) file_path);
                      ("s3_info", s3_metadata);
                      ("video_technical_metadata", video)]);
             ("placeholder_analysis", analysis)] in
    extract_metadata json_loads fs0 env file_path s3_metadata =
      (_ ← _print_metadata_summary env metadata; Ret metadata).
Proof.
  destruct (extract_video_metadata_returns env file_path) as [video Hvideo].
  unfold extract_metadata. rewrite Hvideo. cbn [mbind res_bind]. eauto.
Qed.

Lemma extract_metadata_described (fs0 : files) (env : MsgEnv) (file_path : string)
    (s3_metadata : pyval) :
  raises_described (extract_metadata json_loads fs0 env file_path s3_metadata).
Proof.
  destruct (extract_metadata_shape fs0 env file_path s3_metadata)
    as (info & video & analysis & _ & ->).
  apply raises_described_bind; [apply print_metadata_summary_described|].
  intros _. apply raises_described_ret.
Qed.

Lemma probe_summary_tag (probe_data m : pyval) :
  probe_summary probe_data = Ret m ->
  py_getitem m "extraction_method" = Ret (PStr "ffprobe").
Proof.
  unfold probe_summary. repeat step_bind.
  match goal with
  | |- context [match ?videos with [] => _ | _ :: _ => _ end] =>
      destruct videos as [|primary_video rest]
  end.
  - intros H. inversion H. reflexivity.
  - repeat step_bind. intros H. inversion H. reflexivity.
Qed.

Lemma extract_with_ffprobe_tag (env : MsgEnv) (m : pyval) :
  _extract_with_ffprobe json_loads env = Ret m ->
  py_getitem m "extraction_method" = Ret (PStr "ffprobe").
Proof.
  unfold _extract_with_ffprobe.
  destruct (_extract_with_ffprobe_body json_loads env) as [m0|e] eqn:Hbody;
    [| destruct e; discriminate].
  intros H. inversion H; subst m0. clear H. revert Hbody.
  unfold _extract_with_ffprobe_body.
  destruct (ffprobe_version env) as [| |rc out err]; cbn [mbind res_bind]; try discriminate.
  destruct (rc =? 0); cbn [mbind res_bind]; try discriminate.
  destruct (ffprobe_run env) as [| |rc' out' err']; try discriminate.
  destruct (rc' =? 0); try discriminate.
  unfold loads. destruct (json_loads out') as [probe_data|]; cbn [mbind res_bind];
    try discriminate.
  apply probe_summary_tag.
Qed.

Lemma extract_with_ffprobe_raises_exception (env : MsgEnv) (e : exn) :
  _extract_with_ffprobe_body json_loads env = Raise e ->
  exists msg, _extract_with_ffprobe json_loads env = Raise (Exception msg).
Proof.
  intros H. unfold _extract_with_ffprobe. rewrite H. destruct e; eauto.
Qed.

Lemma probe_failure_raises (env : MsgEnv) :
  probe_failure json_loads env ->
  exists msg, _extract_with_ffprobe json_loads env = Raise (Exception msg).
Proof.
  intros H.
  assert (Hbody : exists e, _extract_with_ffprobe_body json_loads env = Raise e).
  { revert H. unfold _extract_with_ffprobe_body, probe_failure.
    destruct (ffprobe_version env) as [| |rc out err]; cbn [mbind res_bind]; eauto.
    destruct (Z.eqb_spec rc 0) as [-> | Hrc]; cbn [mbind res_bind]; eauto.
    intros H.
    destruct H as [H | [H | [(rc & o & er & H & Hne) | H]]]; try discriminate.
    { inversion H; subst. contradiction. }
    destruct H as [H | [H | [(rc & o & er & H & Hne) | (o & er & H & Hj)]]]; rewrite H; eauto.
    - destruct (Z.eqb_spec rc 0) as [-> | Hrc]; [contradiction | eauto].
    - simpl. unfold loads. rewrite Hj. cbn [mbind res_bind]. eauto. }
  destruct Hbody as [e He]. eapply extract_with_ffprobe_raises_exception. exact He.
Qed.

(** C7. Each failure of the probe path the specification names makes
    [_extract_with_ffprobe] raise; whenever it raises, for whatever
    reason, [_extract_video_metadata] returns the result of the
    extension table, tagged ["basic_analysis"]; a result of the probe
    path is tagged ["ffprobe"]; and the step raises only if the
    fallback raises. *)
Theorem probe_failure_falls_back (env : MsgEnv) (file_path : string) :
  (probe_failure json_loads env ->
   exists e, _extract_with_ffprobe json_loads env = Raise e) /\
  (forall e, _extract_with_ffprobe json_loads env = Raise e ->
     _extract_video_metadata json_loads env file_path = _extract_basic_video_info file_path /\
     exists info,
       _extract_video_metadata json_loads env file_path = Ret (PDict info) /\
       assoc "extraction_method" info = Some (PStr "basic_analysis") /\
       assoc "detected_format" info =
         Some (PStr (fst (format_info (lower (splitext_ext file_path))))) /\
       assoc "likely_codec" info =
         Some (PStr (snd (format_info (lower (splitext_ext file_path)))))) /\
  (forall m, _extract_with_ffprobe json_loads env = Ret m ->
     _extract_video_metadata json_loads env file_path = Ret m /\
     py_getitem m "extraction_method" = Ret (PStr "ffprobe")) /\
  (forall e, _extract_video_metadata json_loads env file_path = Raise e ->
     _extract_basic_video_info file_path = Raise e).
Proof.
  split; [|split; [|split]].
  - intros H. destruct (probe_failure_raises env H) as [msg Hmsg]. eauto.
  - intros e He. unfold _extract_video_metadata. rewrite He.
    split; [reflexivity|]. rewrite basic_video_info_returns.
    eexists. split; [reflexivity|]. repeat split.
  - intros m Hm. unfold _extract_video_metadata. rewrite Hm.
    split; [reflexivity | eapply extract_with_ffprobe_tag; exact Hm].
  - intros e. unfold _extract_video_metadata.
    destruct (_extract_with_ffprobe json_loads env); [discriminate | auto].
Qed.

(** C6. Every extraction builds a dictionary with the three top-level
    keys [processing_info], [real_metadata] and [placeholder_analysis],
    prints its summary, and returns the dictionary as built: every
    result an extraction produces is that dictionary. The measured data
    (file, source object, probe) is under [real_metadata], the
    simulated analysis under [placeholder_analysis], which carries the
    two markers [note] and [warning] saying its values are simulated. *)
Theorem extraction_namespaces (fs : files) (env : MsgEnv) (file_path : string)
    (s3_metadata : pyval) :
  exists top real placeholder video,
    extract_metadata json_loads fs env file_path s3_metadata =
      (_ ← _print_metadata_summary env (PDict top); Ret (PDict top)) /\
    (forall result,
       extract_metadata json_loads fs env file_path s3_metadata = Ret result ->
       result = PDict top) /\
    map fst top = ["processing_info"; "real_metadata"; "placeholder_analysis"] /\
    assoc "real_metadata" top = Some (PDict real) /\
    assoc "placeholder_analysis" top = Some (PDict placeholder) /\
    _extract_video_metadata json_loads env file_path = Ret video /\
    real = [("file_info", _get_file_info fs (file_mtime env) file_path);
            ("s3_info", s3_metadata);
            ("video_technical_metadata", video)] /\
    map fst placeholder = ["note"; "analysis_results"; "warning"] /\
    assoc "note" placeholder =
      Some (PStr "THIS IS PLACEHOLDER DATA - Replace with actual gait analysis") /\
    assoc "warning" placeholder =
      Some (PStr "These results are simulated for demonstration purposes only") /\
    assoc "analysis_results" placeholder = Some _run_placeholder_analysis.
Proof.
  destruct (extract_video_metadata_returns env file_path) as [video Hvideo].
  unfold extract_metadata. rewrite Hvideo. cbn [mbind res_bind].
  do 4 eexists. split; [reflexivity|]. split.
  - destruct (_print_metadata_summary env _); cbn [mbind res_bind]; intros result H;
      inversion H; reflexivity.
  - repeat split.
Qed.

End ExtractorProperties.

(** ** The object store client: download *)

Lemma download_file_str_some (dir : string) (env : MsgEnv) (fs fs' : files)
    (bucket key path : string) :
  download_file_str dir env fs bucket key = (Some path, fs') ->
  path = path_join dir (basename key) /\
  exists written size,
    transfer env = Ret written /\
    fs' = after_transfer fs path written /\
    fs' !! path = Some size.
Proof.
  unfold download_file_str.
  set (local_filename := path_join dir (basename key)).
  set (download := match transfer env with Ret _ => _ | Raise _ => _ end).
  assert (Hdownload : download = (Some path, fs') ->
    path = local_filename /\
    exists written size,
      transfer env = Ret written /\
      fs' = after_transfer fs path written /\
      fs' !! path = Some size).
  { subst download. destruct (transfer env) as [written|e]; [|discriminate].
    fold (after_transfer fs local_filename written).
    destruct (after_transfer fs local_filename written !! local_filename)
      as [size|] eqn:Hsize; [|discriminate].
    intros H. inversion H; subst. split; [reflexivity|].
    exists written, size. auto. }
  destruct (makedirs_ok env); simpl; [|discriminate].
  destruct (pre_head env) as [response|e]; [exact Hdownload|].
  destruct e; try discriminate.
  destruct (String.eqb code "NoSuchKey"); [discriminate | exact Hdownload].
Qed.

(** C4 (amended). [download_file] returns a path only if the transfer
    reported success and, after it, a file exists at that path (of
    whatever size, zero included); a transfer that reports success but
    leaves no file at the destination is reported as a failure. *)
Theorem download_success_only_if_file_exists (dir : string) (env : MsgEnv) (fs : files)
    (bucket key : pyval) :
  (forall path fs',
      download_file dir env fs bucket key = (Some path, fs') ->
      exists written size,
        transfer env = Ret written /\
        fs' = after_transfer fs path written /\
        fs' !! path = Some size) /\
  (forall b k written,
      bucket = PStr b -> key = PStr k ->
      transfer env = Ret written ->
      after_transfer fs (path_join dir (basename k)) written
        !! path_join dir (basename k) = None ->
      fst (download_file dir env fs bucket key) = None).
Proof.
  split.
  - intros path fs' H. unfold download_file in H.
    destruct bucket as [| | | | b | | |]; try discriminate.
    destruct key as [| | | | k | | |]; try discriminate.
    apply download_file_str_some in H. tauto.
  - intros b k written -> -> Htransfer Hnone. unfold download_file, download_file_str.
    rewrite Htransfer. fold (after_transfer fs (path_join dir (basename k)) written).
    rewrite Hnone.
    destruct (makedirs_ok env); simpl; [|reflexivity].
    destruct (pre_head env) as [response|e]; [reflexivity|].
    destruct e; try reflexivity.
    destruct (String.eqb code "NoSuchKey"); reflexivity.
Qed.

(** ** The orchestrator: one message *)

Section ServiceProperties.

Variable config : Config.
Variable json_loads : string -> option pyval.

(** When the [try] of [process_message] fails, the exception has a
    text, and the table and the queue are untouched. *)
Lemma process_message_try_raise (env : MsgEnv) (st st1 : State) (message : ParsedMessage)
    (record_id : option positive) (e : exn) :
  process_message_try config json_loads env st message record_id = (Raise e, st1) ->
  exn_str e <> "" /\
  db st1 = db st /\ deleted st1 = deleted st /\
  processing_errors (stats st1) = processing_errors (stats st).
Proof.
  unfold process_message_try.
  destruct (download_file (DOWNLOAD_DIR config) env (fs st) (m_bucket message) (m_key message))
    as [[path|] fs1].
  - destruct (String.eqb_spec path "") as [-> | Hpath].
    + intros H. inversion H; subst. simpl. repeat split; auto.
    + match goal with
      | |- context [extract_metadata ?j ?f ?e ?p ?m] =>
          pose proof (extract_metadata_described j f e p m) as Hx;
          destruct (extract_metadata j f e p m) as [x|e0]
      end.
      * discriminate.
      * intros H. inversion H; subst. simpl. repeat split; auto.
  - intros H. inversion H; subst. simpl. repeat split; auto.
Qed.

Lemma create_processing_record_ok (env : MsgEnv) (d : Database) (bucket key : pyval) :
  db_create_ok env = true ->
  exists created,
    create_processing_record env d bucket key =
      (Some (next_id d),
       {| rows := <[next_id d := created]> (rows d); next_id := Pos.succ (next_id d) |}) /\
    s3_bucket created = bucket /\ s3_key created = key /\
    processing_status created = "processing" /\
    error_message created = None /\
    metadata_json created = None /\
    retry_count created = 0.
Proof.
  intros Hok. unfold create_processing_record. rewrite Hok.
  eexists. split; [reflexivity|]. simpl. auto 10.
Qed.

(** C2. When the handling of an event fails, the message is deleted
    from the queue all the same and one processing error is counted;
    and, when the record of the attempt could be created and the store
    accepts the update, that record, created with [retry_count = 0],
    ends with status ["failed"], a non-empty error text and
    [retry_count = 1]. A download that ends on an object that is not
    there is such a failure. *)
Theorem failed_handling_is_recorded_and_acknowledged (env : MsgEnv) (st : State)
    (message : ParsedMessage) :
  (pre_head env = Raise (ClientError "NoSuchKey") ->
   exists e, fst (process_message config json_loads env st message) = Raise e) /\
  (forall e,
     fst (process_message config json_loads env st message) = Raise e ->
     deleted (handle_message config json_loads env st message)
       = m_receipt_handle message :: deleted st /\
     processing_errors (stats (handle_message config json_loads env st message))
       = processing_errors (stats st) + 1 /\
     (db_create_ok env = true ->
      db_update_ok env = true ->
      exists created record msg,
        rows (snd (create_processing_record env (db st) (m_bucket message) (m_key message)))
          !! next_id (db st) = Some created /\
        retry_count created = 0 /\
        rows (db (handle_message config json_loads env st message)) !! next_id (db st)
          = Some record /\
        processing_status record = "failed" /\
        error_message record = Some msg /\ msg <> "" /\
        retry_count record = 1)).
Proof.
  split.
  - intros Hhead. unfold process_message.
    destruct (create_processing_record env (db st) (m_bucket message) (m_key message))
      as [record_id db1].
    assert (Hdl : fst (download_file (DOWNLOAD_DIR config) env (fs (set_db st db1))
                         (m_bucket message) (m_key message)) = None).
    { unfold download_file, download_file_str. rewrite Hhead.
      destruct (m_bucket message); try reflexivity.
      destruct (m_key message); try reflexivity.
      destruct (makedirs_ok env); reflexivity. }
    unfold process_message_try.
    destruct (download_file (DOWNLOAD_DIR config) env (fs (set_db st db1))
                (m_bucket message) (m_key message)) as [[path|] fs1];
      [discriminate|]. simpl. eauto.
  - intros e. unfold handle_message, process_message.
    destruct (create_processing_record env (db st) (m_bucket message) (m_key message))
      as [record_id db1] eqn:Hcr.
    destruct (process_message_try config json_loads env (set_db st db1) message record_id)
      as [[u|e'] st1] eqn:Htry; simpl; [discriminate|].
    intros He. inversion He; subst e'. clear He.
    apply process_message_try_raise in Htry.
    destruct Htry as (Htext & Hdb & Hdel & Herrs). simpl in Hdb, Hdel, Herrs.
    split; [destruct record_id; simpl; rewrite Hdel; reflexivity|].
    split; [destruct record_id; simpl; rewrite Herrs; reflexivity|].
    intros Hcreate Hupdate.
    destruct (create_processing_record_ok env (db st) (m_bucket message) (m_key message)
                Hcreate) as (created & Hcr' & _ & _ & _ & _ & _ & Hretry).
    rewrite Hcr in Hcr'. injection Hcr' as Hid Hdb1. subst record_id.
    rewrite Hdb1 in Hdb |- *.
    unfold update_processing_status. rewrite Hupdate, Hdb. simpl.
    rewrite lookup_insert_eq.
    exists created, (updated_record env created "failed" None (Some (exn_str e))),
           (exn_str e).
    simpl. rewrite lookup_insert_eq, Hretry.
    apply String.eqb_neq in Htext. rewrite Htext.
    apply String.eqb_neq in Htext. repeat split; auto.
Qed.

(** C10. When the download succeeded and the metadata lookup that
    follows returns nothing: extraction runs with an empty dictionary
    as the source-object attributes, and the message is deleted from
    the queue. The lookup failure itself fails nothing: the handling
    fails only when printing the summary of the extraction result
    raises. When the summary is printed, handling does not fail and the
    message is counted as processed; the record of the attempt, when it
    could be created, is not marked failed and holds no error; and when
    the store accepts the update it ends with status ["completed"] and
    holds the extraction result. *)
Theorem metadata_lookup_failure_still_completes (env : MsgEnv) (st : State)
    (message : ParsedMessage) (path : string) (fs1 : files) :
  download_file (DOWNLOAD_DIR config) env (fs st) (m_bucket message) (m_key message)
    = (Some path, fs1) ->
  path <> "" ->
  get_file_metadata env (m_bucket message) (m_key message) = None ->
  exists extracted top real,
    extract_metadata json_loads fs1 env path (PDict []) =
      (_ ← _print_metadata_summary env extracted; Ret extracted) /\
    extracted = PDict top /\
    assoc "real_metadata" top = Some (PDict real) /\
    assoc "s3_info" real = Some (PDict []) /\
    deleted (handle_message config json_loads env st message)
      = m_receipt_handle message :: deleted st /\
    (forall e,
       fst (process_message config json_loads env st message) = Raise e ->
       _print_metadata_summary env extracted = Raise e) /\
    (_print_metadata_summary env extracted = Ret tt ->
     fst (process_message config json_loads env st message) = Ret tt /\
     messages_processed (stats (handle_message config json_loads env st message))
       = messages_processed (stats st) + 1 /\
     processing_errors (stats (handle_message config json_loads env st message))
       = processing_errors (stats st) /\
     (db_create_ok env = true ->
      exists record,
        rows (db (handle_message config json_loads env st message)) !! next_id (db st)
          = Some record /\
        processing_status record <> "failed" /\
        error_message record = None /\
        retry_count record = 0 /\
        (db_update_ok env = true ->
         processing_status record = "completed" /\
         metadata_json record = Some extracted))).
Proof.
  intros Hdl Hpath Hmeta.
  destruct (extract_metadata_shape json_loads fs1 env path (PDict []))
    as (info & video & analysis & _ & Hex). cbv zeta in Hex.
  assert (Hne : String.eqb path "" = false) by (apply String.eqb_neq; exact Hpath).
  match type of Hex with
  | _ = mbind _ (_print_metadata_summary _ ?x) => exists x; eexists; eexists
  end.
  split; [exact Hex|]. split; [reflexivity|].
  split; [reflexivity|]. split; [reflexivity|].
  unfold handle_message, process_message.
  destruct (create_processing_record env (db st) (m_bucket message) (m_key message))
    as [record_id db1] eqn:Hcr.
  unfold process_message_try. cbn [fs set_db]. rewrite Hdl, Hne, Hmeta.
  cbn [default fs set_fs set_stats]. rewrite Hex.
  destruct (_print_metadata_summary env _) as [[]|e0]; cbn [mbind res_bind].
  - split; [destruct record_id, (CLEANUP_AFTER_PROCESSING config); reflexivity|].
    split; [discriminate|]. intros _.
    split; [reflexivity|].
    split; [destruct record_id, (CLEANUP_AFTER_PROCESSING config); reflexivity|].
    split; [destruct record_id, (CLEANUP_AFTER_PROCESSING config); reflexivity|].
    intros Hcreate.
    destruct (create_processing_record_ok env (db st) (m_bucket message) (m_key message)
                Hcreate) as (created & Hcr' & _ & _ & Hstatus & Herr & _ & Hretry).
    rewrite Hcr in Hcr'. injection Hcr' as Hid Hdb1. subst record_id db1.
    unfold update_processing_status. cbn [db set_db set_stats set_fs rows].
    rewrite lookup_insert_eq.
    destruct (db_update_ok env).
    + eexists. split.
      * destruct (CLEANUP_AFTER_PROCESSING config); simpl; apply lookup_insert_eq.
      * simpl. rewrite Herr, Hretry. repeat split; auto; discriminate.
    + exists created. split.
      * destruct (CLEANUP_AFTER_PROCESSING config); simpl; apply lookup_insert_eq.
      * rewrite Hstatus, Herr, Hretry. repeat split; auto; discriminate.
  - split; [destruct record_id; reflexivity|].
    split; [|discriminate].
    intros e He. destruct record_id; simpl in He; inversion He; reflexivity.
Qed.

(** ** The orchestrator: the main loop and its runtime budget *)

Lemma positive_budget_is_truthy (limit : float) :
  PrimFloat.ltb 0 limit = true -> PrimFloat.eqb limit 0 = false.
Proof.
  rewrite FloatAxioms.ltb_spec, FloatAxioms.eqb_spec.
  change (Prim2SF 0) with (S754_zero false).
  destruct (Prim2SF limit) as [s | s | | s m e]; simpl; try discriminate;
    destruct s; simpl; intros H; try discriminate; reflexivity.
Qed.

Lemma main_loop_cons (limit : float) (c : CycleEnv) (rest : list CycleEnv) (st : State) :
  max_runtime_seconds config = Some limit ->
  PrimFloat.eqb limit 0 = false ->
  main_loop config json_loads (c :: rest) st =
    if PrimFloat.leb limit (elapsed st c)
    then (RuntimeLimit, st, [EvCheck (elapsed st c)])
    else
      let '(why, st2, evs) :=
        main_loop config json_loads rest (process_cycle config json_loads c st) in
      (why, st2, EvCheck (elapsed st c) :: EvPoll :: EvSleep :: evs).
Proof.
  intros Hmax Htruthy. cbn [main_loop]. rewrite Hmax, Htruthy. fold (elapsed st c).
  destruct (PrimFloat.leb limit (elapsed st c)); [reflexivity|].
  destruct (main_loop config json_loads rest (process_cycle config json_loads c st))
    as [[why st2] evs]. reflexivity.
Qed.

Lemma process_message_try_start_time (env : MsgEnv) (st : State) (message : ParsedMessage)
    (record_id : option positive) :
  start_time (stats (snd (process_message_try config json_loads env st message record_id)))
    = start_time (stats st).
Proof.
  unfold process_message_try.
  repeat match goal with
         | |- context [match ?x with _ => _ end] => destruct x
         | |- context [if ?x then _ else _] => destruct x
         end; reflexivity.
Qed.

Lemma handle_message_start_time (env : MsgEnv) (st : State) (message : ParsedMessage) :
  start_time (stats (handle_message config json_loads env st message)) = start_time (stats st).
Proof.
  unfold handle_message, process_message.
  destruct (create_processing_record env (db st) (m_bucket message) (m_key message))
    as [record_id db1].
  pose proof (process_message_try_start_time env (set_db st db1) message record_id) as H.
  destruct (process_message_try config json_loads env (set_db st db1) message record_id)
    as [[u|e] st1]; simpl in *; destruct record_id; simpl; exact H.
Qed.

Lemma process_messages_start_time (envs : nat -> MsgEnv) (messages : list ParsedMessage) :
  forall i st,
    start_time (stats (process_messages config json_loads envs i st messages))
      = start_time (stats st).
Proof.
  induction messages as [|message rest IH]; intros i st; simpl; [reflexivity|].
  rewrite IH. apply handle_message_start_time.
Qed.

Lemma process_cycle_start_time (c : CycleEnv) (st : State) :
  start_time (stats (process_cycle config json_loads c st)) = start_time (stats st).
Proof.
  unfold process_cycle.
  destruct (poll_messages config json_loads (received c) (deleted st)) as [messages deleted'].
  destruct messages as [|m ms]; [reflexivity|].
  cbn [set_stats stats set_last_activity start_time].
  rewrite process_messages_start_time. reflexivity.
Qed.

Lemma main_loop_trace (limit : float) :
  max_runtime_seconds config = Some limit ->
  PrimFloat.eqb limit 0 = false ->
  forall cycles st why st' evs,
    main_loop config json_loads cycles st = (why, st', evs) ->
    loop_trace limit why evs.
Proof.
  intros Hmax Htruthy. induction cycles as [|c rest IH]; intros st why st' evs.
  - simpl. intros H. inversion H. constructor.
  - rewrite (main_loop_cons limit c rest st Hmax Htruthy).
    destruct (PrimFloat.leb limit (elapsed st c)) eqn:Hleb.
    + intros H. inversion H; subst. constructor. exact Hleb.
    + destruct (main_loop config json_loads rest (process_cycle config json_loads c st))
        as [[why2 st2] evs2] eqn:Hrest.
      intros H. inversion H; subst. constructor; [exact Hleb | eapply IH; exact Hrest].
Qed.

Lemma loop_trace_poll_after_check (limit : float) (why : exit_reason) (evs : list event) :
  loop_trace limit why evs ->
  forall i, evs !! i = Some EvPoll ->
  exists j e, i = S j /\ evs !! j = Some (EvCheck e) /\ PrimFloat.leb limit e = false.
Proof.
  induction 1 as [| e He | e why evs He Htrace IH]; intros i Hi.
  - destruct i; discriminate.
  - destruct i as [|[|i]]; discriminate.
  - destruct i as [|[|[|i]]]; try discriminate.
    + exists 0%nat, e. auto.
    + destruct (IH i Hi) as (j & e' & -> & Hj & He').
      exists (S (S (S j))), e'. auto.
Qed.

Lemma loop_trace_stops_at_budget (limit : float) (why : exit_reason) (evs : list event) :
  loop_trace limit why evs ->
  forall i e, evs !! i = Some (EvCheck e) -> PrimFloat.leb limit e = true ->
  why = RuntimeLimit /\ length evs = S i.
Proof.
  induction 1 as [| e0 He0 | e0 why evs He0 Htrace IH]; intros i e Hi He.
  - destruct i; discriminate.
  - destruct i as [|[|i]]; try discriminate. auto.
  - destruct i as [|[|[|i]]]; try discriminate.
    + simpl in Hi. inversion Hi; subst. rewrite He in He0. discriminate.
    + destruct (IH i e Hi He) as [-> Hlen]. simpl. rewrite Hlen. auto.
Qed.

Lemma main_loop_until_budget (limit : float) :
  max_runtime_seconds config = Some limit ->
  PrimFloat.eqb limit 0 = false ->
  forall pre c post st,
    Forall (fun c' => PrimFloat.leb limit (elapsed st c') = false) pre ->
    PrimFloat.leb limit (elapsed st c) = true ->
    main_loop config json_loads (pre ++ c :: post) st =
      (RuntimeLimit,
       fold_left (fun s c' => process_cycle config json_loads c' s) pre st,
       (flat_map (fun c' => [EvCheck (elapsed st c'); EvPoll; EvSleep]) pre
          ++ [EvCheck (elapsed st c)])%list).
Proof.
  intros Hmax Htruthy. induction pre as [|c0 pre IH]; intros c post st Hpre Hc.
  - change ([] ++ c :: post)%list with (c :: post).
    rewrite (main_loop_cons limit c post st Hmax Htruthy), Hc. reflexivity.
  - inversion Hpre as [|x l Hc0 Hpre']; subst.
    change ((c0 :: pre) ++ c :: post)%list with (c0 :: (pre ++ c :: post))%list.
    rewrite (main_loop_cons limit c0 _ st Hmax Htruthy), Hc0.
    assert (Hel : forall c', elapsed (process_cycle config json_loads c0 st) c' = elapsed st c').
    { intros c'. unfold elapsed. rewrite process_cycle_start_time. reflexivity. }
    rewrite (IH c post (process_cycle config json_loads c0 st)).
    + simpl. rewrite (Hel c). f_equal. f_equal. f_equal. f_equal.
      f_equal. apply flat_map_ext. intros c'. rewrite Hel. reflexivity.
    + eapply Forall_impl; [exact Hpre'|]. intros c'. simpl. rewrite Hel. auto.
    + rewrite Hel. exact Hc.
Qed.

(** C8. With a runtime budget greater than zero: every poll of the
    main loop comes directly after a check of the elapsed time that
    read less than the budget; after a check that reads the budget or
    more no event follows, and the loop has ended for that reason; and
    when a cycle is the first whose check reads the budget or more,
    the cycles before it are handled in full, each with its poll, and
    the loop ends there without another poll. *)
Theorem runtime_budget_stops_polling (limit : float) (cycles : list CycleEnv) (st : State)
    (why : exit_reason) (st' : State) (evs : list event) :
  max_runtime_seconds config = Some limit ->
  PrimFloat.ltb 0 limit = true ->
  main_loop config json_loads cycles st = (why, st', evs) ->
  loop_trace limit why evs /\
  (forall i, evs !! i = Some EvPoll ->
     exists j e, i = S j /\ evs !! j = Some (EvCheck e) /\ PrimFloat.leb limit e = false) /\
  (forall i e, evs !! i = Some (EvCheck e) -> PrimFloat.leb limit e = true ->
     why = RuntimeLimit /\ length evs = S i) /\
  (forall pre c post,
     cycles = (pre ++ c :: post)%list ->
     Forall (fun c' => PrimFloat.leb limit (elapsed st c') = false) pre ->
     PrimFloat.leb limit (elapsed st c) = true ->
     why = RuntimeLimit /\
     st' = fold_left (fun s c' => process_cycle config json_loads c' s) pre st /\
     evs = (flat_map (fun c' => [EvCheck (elapsed st c'); EvPoll; EvSleep]) pre
              ++ [EvCheck (elapsed st c)])%list).
Proof.
  intros Hmax Hpos Hrun.
  pose proof (positive_budget_is_truthy limit Hpos) as Htruthy.
  pose proof (main_loop_trace limit Hmax Htruthy cycles st why st' evs Hrun) as Htrace.
  split; [exact Htrace|]. split; [|split].
  - apply (loop_trace_poll_after_check limit why evs Htrace).
  - apply (loop_trace_stops_at_budget limit why evs Htrace).
  - intros pre c post -> Hpre Hc.
    rewrite (main_loop_until_budget limit Hmax Htruthy pre c post st Hpre Hc) in Hrun.
    inversion Hrun. auto.
Qed.

End ServiceProperties.

(** ** Concrete runs *)

(** A valid message is decoded to its event, and nothing is deleted. *)
Example poll_valid_message :
  poll_messages default_config loads_documents (Ret [message_of "1" valid_event]) []
    = ([abc123_event], []).
Proof. vm_compute. reflexivity. Qed.

(** C1, at inputs that fail the checks. A body that does not decode,
    and bodies whose only record has the wrong event source, the wrong
    event name, the wrong bucket or the wrong key prefix: the poll
    returns no event for any of them, and it asks the queue to delete
    none of them, although the code of [poll_messages] means to delete
    a malformed message. *)
Example poll_leaves_invalid_messages_in_queue :
  poll_messages default_config loads_documents
    (Ret [undecodable_message;
          message_of "2" wrong_source_event;
          message_of "3" wrong_name_event;
          message_of "4" wrong_bucket_event;
          message_of "5" wrong_prefix_event]) []
    = ([], []).
Proof. vm_compute. reflexivity. Qed.

(** An input [_parse_fps] cannot read: no slash, and no float literal. *)
Lemma parse_fps_spec_witness :
  unparsable (PStr "thirty") /\ _parse_fps (PStr "thirty") = Ret None.
Proof.
  assert (H : unparsable (PStr "thirty")).
  { apply (unparsable_number "thirty" ValueError); vm_compute; reflexivity. }
  split; [exact H|].
  destruct parse_fps_spec as (_ & _ & _ & _ & Hiff). apply Hiff. exact H.
Defined.

(** A key of two segments gives no upload id. *)
Lemma extract_upload_id_spec_witness :
  (length (split "/" "uploads/onlyonepart.mp4") < 4)%nat /\
  _extract_upload_id_from_key (PStr "uploads/onlyonepart.mp4") = Ret None.
Proof.
  assert (H : (length (split "/" "uploads/onlyonepart.mp4") < 4)%nat) by (vm_compute; lia).
  split; [exact H|].
  destruct extract_upload_id_spec as (_ & Hkey & _).
  apply (Hkey "uploads/onlyonepart.mp4"). left. exact H.
Defined.

(** Of three records, the first fails the event-name check and the
    other two pass: the poll yields the second one alone. *)
Lemma poll_first_valid_record_only_witness :
  exists parsed,
    fst (poll_messages default_config loads_documents
           (Ret [message_of "7" three_record_event]) []) = [parsed] /\
    m_key parsed = PStr "uploads/u1/s1/second.mp4".
Proof.
  destruct (poll_first_valid_record_only default_config loads_documents
              (message_of "7" three_record_event)
              [("Records",
                PList [s3_record "aws:s3" "ObjectRemoved:Delete" "dancer-uploads"
                         "uploads/u1/s1/first.mp4";
                       s3_record "aws:s3" "ObjectCreated:Put" "dancer-uploads"
                         "uploads/u1/s1/second.mp4";
                       s3_record "aws:s3" "ObjectCreated:Put" "dancer-uploads"
                         "uploads/u1/s1/third.mp4"])]
              _ [] ltac:(vm_compute; reflexivity) eq_refl) as (_ & _ & Hfirst).
  eexists. split.
  - apply (Hfirst [s3_record "aws:s3" "ObjectRemoved:Delete" "dancer-uploads"
                     "uploads/u1/s1/first.mp4"]
                  (s3_record "aws:s3" "ObjectCreated:Put" "dancer-uploads"
                     "uploads/u1/s1/second.mp4")
                  [s3_record "aws:s3" "ObjectCreated:Put" "dancer-uploads"
                     "uploads/u1/s1/third.mp4"]).
    + reflexivity.
    + constructor; [vm_compute; reflexivity | constructor].
    + vm_compute. reflexivity.
  - reflexivity.
Defined.

(** The probe tool is not installed: the result is the guess from the
    extension. *)
Lemma probe_failure_falls_back_witness :
  probe_failure loads_documents
    (world (Ret abc123_response) (Ret (Some 1024)) (Ret abc123_response)) /\
  exists info,
    _extract_video_metadata loads_documents
      (world (Ret abc123_response) (Ret (Some 1024)) (Ret abc123_response))
      "./temp_downloads/abc123.mp4" = Ret (PDict info) /\
    assoc "extraction_method" info = Some (PStr "basic_analysis") /\
    assoc "detected_format" info = Some (PStr "MP4").
Proof.
  assert (H : probe_failure loads_documents
                (world (Ret abc123_response) (Ret (Some 1024)) (Ret abc123_response))).
  { left. reflexivity. }
  split; [exact H|].
  destruct (probe_failure_falls_back loads_documents
              (world (Ret abc123_response) (Ret (Some 1024)) (Ret abc123_response))
              "./temp_downloads/abc123.mp4") as (Hraise & Hfall & _ & _).
  destruct (Hraise H) as [e He].
  destruct (Hfall e He) as (_ & info & Hinfo & Htag & Hformat & _).
  exists info. split; [exact Hinfo|]. split; [exact Htag|]. exact Hformat.
Defined.

(** An empty file left by the transfer is reported as a success. *)
Example download_of_empty_file :
  download_file "./temp_downloads"
    (world (Ret abc123_response) (Ret (Some 0)) (Ret abc123_response)) ∅
    (PStr "dancer-uploads") (PStr "uploads/u1/s1/abc123.mp4")
    = (Some "./temp_downloads/abc123.mp4", {["./temp_downloads/abc123.mp4" := 0]}).
Proof. vm_compute. reflexivity. Qed.

(** A file of 1024 bytes left by the transfer. *)
Example download_of_whole_file :
  download_file "./temp_downloads"
    (world (Ret abc123_response) (Ret (Some 1024)) (Ret abc123_response)) ∅
    (PStr "dancer-uploads") (PStr "uploads/u1/s1/abc123.mp4")
    = (Some "./temp_downloads/abc123.mp4", {["./temp_downloads/abc123.mp4" := 1024]}).
Proof. vm_compute. reflexivity. Qed.

(** C4 as stated fails: a path is returned although the file at it is
    empty. *)
Lemma download_empty_file_counterexample :
  ~ (forall dir env fs bucket key path fs',
        download_file dir env fs bucket key = (Some path, fs') ->
        exists size, fs' !! path = Some size /\ 0 < size).
Proof.
  intros Hclaim.
  destruct (Hclaim _ _ _ _ _ _ _ download_of_empty_file) as (size & Hsize & Hpos).
  vm_compute in Hsize. inversion Hsize; subst. lia.
Qed.

(** A transfer that reports success and writes nothing is a failure;
    one that writes the file returns its path. *)
Lemma download_success_only_if_file_exists_witness :
  fst (download_file "./temp_downloads"
         (world (Ret abc123_response) (Ret None) (Ret abc123_response)) ∅
         (PStr "dancer-uploads") (PStr "uploads/u1/s1/abc123.mp4")) = None /\
  exists written size,
    transfer (world (Ret abc123_response) (Ret (Some 1024)) (Ret abc123_response))
      = Ret written /\
    ({["./temp_downloads/abc123.mp4" := 1024]} : files) !! "./temp_downloads/abc123.mp4"
      = Some size.
Proof.
  split.
  - destruct (download_success_only_if_file_exists "./temp_downloads"
                (world (Ret abc123_response) (Ret None) (Ret abc123_response)) ∅
                (PStr "dancer-uploads") (PStr "uploads/u1/s1/abc123.mp4")) as [_ Hnone].
    apply (Hnone "dancer-uploads" "uploads/u1/s1/abc123.mp4" None);
      [reflexivity | reflexivity | reflexivity | vm_compute; reflexivity].
  - destruct (download_success_only_if_file_exists "./temp_downloads"
                (world (Ret abc123_response) (Ret (Some 1024)) (Ret abc123_response)) ∅
                (PStr "dancer-uploads") (PStr "uploads/u1/s1/abc123.mp4")) as [Hsome _].
    destruct (Hsome _ _ download_of_whole_file) as (written & size & Ht & _ & Hsize).
    exists written, size. split; [exact Ht | exact Hsize].
Defined.

(** The object is not in the store: the record of the attempt ends
    failed, with an error text and one retry counted, and the message
    is deleted. *)
Lemma failed_handling_is_recorded_and_acknowledged_witness :
  exists record msg,
    rows (db (handle_message default_config loads_documents
                (world (Raise (ClientError "NoSuchKey")) (Ret None)
                       (Raise (ClientError "NoSuchKey")))
                initial_state abc123_event)) !! 1%positive = Some record /\
    processing_status record = "failed" /\
    error_message record = Some msg /\ msg <> "" /\
    retry_count record = 1 /\
    deleted (handle_message default_config loads_documents
               (world (Raise (ClientError "NoSuchKey")) (Ret None)
                      (Raise (ClientError "NoSuchKey")))
               initial_state abc123_event) = ["rh-1"].
Proof.
  destruct (failed_handling_is_recorded_and_acknowledged default_config loads_documents
              (world (Raise (ClientError "NoSuchKey")) (Ret None)
                     (Raise (ClientError "NoSuchKey")))
              initial_state abc123_event) as [Hfails Hrecorded].
  destruct (Hfails eq_refl) as [e He].
  destruct (Hrecorded e He) as (Hdel & _ & Hrecord).
  destruct (Hrecord eq_refl eq_refl)
    as (created & record & msg & _ & _ & Hrow & Hstatus & Herr & Hmsg & Hretry).
  exists record, msg. auto 10.
Defined.

(** The download succeeds and the metadata lookup is refused: the
    record ends completed and the message is deleted. *)
Lemma metadata_lookup_failure_still_completes_witness :
  exists record,
    rows (db (handle_message default_config loads_documents
                (world (Ret abc123_response) (Ret (Some 1024))
                       (Raise (ClientError "AccessDenied")))
                initial_state abc123_event)) !! 1%positive = Some record /\
    processing_status record = "completed" /\
    error_message record = None /\
    retry_count record = 0 /\
    deleted (handle_message default_config loads_documents
               (world (Ret abc123_response) (Ret (Some 1024))
                      (Raise (ClientError "AccessDenied")))
               initial_state abc123_event) = ["rh-1"].
Proof.
  assert (Hdl : download_file (DOWNLOAD_DIR default_config)
                  (world (Ret abc123_response) (Ret (Some 1024))
                         (Raise (ClientError "AccessDenied")))
                  (fs initial_state) (m_bucket abc123_event) (m_key abc123_event)
                = (Some "./temp_downloads/abc123.mp4",
                   {["./temp_downloads/abc123.mp4" := 1024]})).
  { vm_compute. reflexivity. }
  assert (Hpath : "./temp_downloads/abc123.mp4" <> "") by discriminate.
  destruct (metadata_lookup_failure_still_completes default_config loads_documents
              (world (Ret abc123_response) (Ret (Some 1024))
                     (Raise (ClientError "AccessDenied")))
              initial_state abc123_event _ _ Hdl Hpath eq_refl)
    as (extracted & top & real & Hex & _ & _ & _ & Hdel & _ & Hprinted).
  destruct (_print_metadata_summary
              (world (Ret abc123_response) (Ret (Some 1024))
                     (Raise (ClientError "AccessDenied"))) extracted)
    as [[]|e] eqn:Hprint; [|vm_compute in Hex; discriminate].
  destruct (Hprinted eq_refl) as (_ & _ & _ & Hrecord).
  destruct (Hrecord eq_refl) as (record & Hrow & _ & Herr & Hretry & Hdone).
  destruct (Hdone eq_refl) as [Hstatus _].
  exists record. auto 10.
Defined.

(** C10 as stated fails: the download succeeded, the lookup returned
    nothing, the record could be created and updated, and the record
    ends failed, because the probe tool printed a bit rate whose
    quotient by [1000000] is beyond the floats and the summary raises
    on it. *)
Lemma lookup_failure_unprintable_bit_rate_counterexample :
  ~ (forall config json_loads env st message path fs1,
        download_file (DOWNLOAD_DIR config) env (fs st) (m_bucket message) (m_key message)
          = (Some path, fs1) ->
        path <> "" ->
        get_file_metadata env (m_bucket message) (m_key message) = None ->
        db_create_ok env = true ->
        db_update_ok env = true ->
        exists record,
          rows (db (handle_message config json_loads env st message)) !! next_id (db st)
            = Some record /\
          processing_status record = "completed").
Proof.
  intros Hclaim.
  destruct (Hclaim default_config loads_overflowing overflowing_world initial_state
              abc123_event "./temp_downloads/abc123.mp4"
              {["./temp_downloads/abc123.mp4" := 1024]})
    as (record & Hrow & Hstatus);
    [vm_compute; reflexivity | discriminate | reflexivity | reflexivity | reflexivity |].
  vm_compute in Hrow. inversion Hrow; subst record. discriminate Hstatus.
Qed.

(** An extraction that produces its result: the probe tool is absent
    and the standard output takes every line. *)
Lemma extraction_namespaces_witness :
  exists top,
    extract_metadata loads_documents {["./temp_downloads/abc123.mp4" := 1024]}
      (world (Ret abc123_response) (Ret (Some 1024)) (Ret abc123_response))
      "./temp_downloads/abc123.mp4" (PDict []) = Ret (PDict top) /\
    map fst top = ["processing_info"; "real_metadata"; "placeholder_analysis"].
Proof.
  destruct (extraction_namespaces loads_documents
              {["./temp_downloads/abc123.mp4" := 1024]}
              (world (Ret abc123_response) (Ret (Some 1024)) (Ret abc123_response))
              "./temp_downloads/abc123.mp4" (PDict []))
    as (top & real & placeholder & video & Hex & _ & Hkeys & _).
  exists top. split; [|exact Hkeys].
  rewrite Hex.
  destruct (_print_metadata_summary
              (world (Ret abc123_response) (Ret (Some 1024)) (Ret abc123_response))
              (PDict top)) as [[]|e] eqn:Hprint; [reflexivity|].
  vm_compute in Hex. discriminate.
Defined.

(** The first cycle polls and handles its message in full; the check of
    the second cycle reads the budget and the loop ends there: its
    message is never polled. *)
Lemma runtime_budget_stops_polling_witness :
  max_runtime_seconds default_config = Some 3600%float /\
  PrimFloat.ltb 0 3600 = true /\
  main_loop default_config loads_documents [first_cycle; late_cycle; first_cycle]
      initial_state
    = (RuntimeLimit,
       process_cycle default_config loads_documents first_cycle initial_state,
       [EvCheck 10; EvPoll; EvSleep; EvCheck 3600]) /\
  deleted (process_cycle default_config loads_documents first_cycle initial_state)
    = ["rh-1"].
Proof.
  assert (Hmax : max_runtime_seconds default_config = Some 3600%float)
    by (vm_compute; reflexivity).
  assert (Hpos : PrimFloat.ltb 0 3600 = true) by reflexivity.
  assert (Hrun : main_loop default_config loads_documents
                   [first_cycle; late_cycle; first_cycle] initial_state
                 = (RuntimeLimit,
                    process_cycle default_config loads_documents first_cycle initial_state,
                    [EvCheck 10; EvPoll; EvSleep; EvCheck 3600]))
    by (vm_compute; reflexivity).
  destruct (runtime_budget_stops_polling default_config loads_documents 3600%float
              [first_cycle; late_cycle; first_cycle] initial_state _ _ _ Hmax Hpos Hrun)
    as (_ & Hpoll & Hstop & _).
  destruct (Hstop 3%nat 3600%float eq_refl eq_refl) as [_ _].
  split; [exact Hmax|]. split; [exact Hpos|]. split; [exact Hrun|].
  vm_compute. reflexivity.
Defined.

(* ===================================================================== *)
(** * Further properties *)
(* ===================================================================== *)

(** Case analysis, in a hypothesis, on the first result a sequence of
    calls waits for, or on the test of a conditional. *)
Ltac step_in H :=
  first
    [ match type of H with
      | context [mbind _ ?m] =>
          let E := fresh "E" in
          destruct m eqn:E; cbn [mbind res_bind] in H; try discriminate
      end
    | match type of H with
      | context [if ?c then _ else _] =>
          let C := fresh "C" in
          destruct c eqn:C; try discriminate
      end ].

Lemma py_eq_str_true (v : pyval) (s : string) :
  py_eq_str v s = true -> v = PStr s.
Proof.
  destruct v; simpl; try discriminate.
  intros H. apply String.eqb_eq in H. subst. reflexivity.
Qed.

Lemma py_eq_str_refl (s : string) : py_eq_str (PStr s) s = true.
Proof. simpl. apply String.eqb_refl. Qed.

Lemma py_startswith_true (v : pyval) (p : string) :
  py_startswith v p = Ret true -> exists s, v = PStr s /\ startswith s p = true.
Proof.
  destruct v; simpl; try discriminate.
  intros H. inversion H. eauto.
Qed.

(** ** The queue client *)

Section SQSFurther.

Variable config : Config.
Variable json_loads : string -> option pyval.

Lemma parse_record_some (message : RawMessage) (record : pyval) (parsed : ParsedMessage) :
  parse_record config message record = Ret (Some parsed) -> validated config message parsed.
Proof.
  unfold parse_record. intros H. repeat step_in H.
  inversion H; subst parsed; clear H. unfold validated; simpl.
  repeat match goal with
         | C : negb _ = false |- _ => apply negb_false_iff in C
         end.
  repeat match goal with
         | C : py_eq_str _ _ = true |- _ => apply py_eq_str_true in C; subst
         end.
  repeat match goal with
         | E : py_startswith _ _ = Ret true |- _ =>
             apply py_startswith_true in E; destruct E as (? & -> & ?)
         end.
  repeat split; eauto.
Qed.

Lemma parse_message_some (message : RawMessage) (parsed : ParsedMessage) :
  _parse_message config json_loads message = Ret (Some parsed) ->
  manual message parsed \/ validated config message parsed.
Proof.
  unfold _parse_message.
  destruct (_parse_message_body config json_loads message) as [r|e] eqn:Hbody;
    [|discriminate].
  intros H. inversion H; subst r; clear H. revert Hbody.
  unfold _parse_message_body.
  destruct (loads json_loads (Body message)) as [body|e]; cbn [mbind res_bind];
    [|discriminate].
  destruct (py_in_str "Records" body) as [[|]|e]; cbn [mbind res_bind]; [| |discriminate].
  - destruct (py_getitem body "Records" ≫= py_iter) as [records|e]; cbn [mbind res_bind];
      [|discriminate].
    intros H. apply parse_records_some_inv in H. destruct H as (pre & r & post & _ & _ & Hr).
    right. eapply parse_record_some. exact Hr.
  - intros H. repeat step_in H. inversion H; subst parsed. left. unfold manual. simpl. auto 10.
Qed.

Lemma poll_loop_in (messages : list RawMessage) (deleted : list string)
    (parsed : ParsedMessage) :
  In parsed (fst (poll_loop config json_loads messages deleted)) ->
  exists message,
    In message messages /\ _parse_message config json_loads message = Ret (Some parsed).
Proof.
  revert deleted. induction messages as [|message rest IH]; intros deleted; simpl.
  - contradiction.
  - destruct (parse_message_returns config json_loads message) as [r Hr]. rewrite Hr.
    destruct r as [p|].
    + specialize (IH deleted).
      destruct (poll_loop config json_loads rest deleted) as [ps del]. simpl in *.
      intros [-> | Hin]; [eauto|].
      destruct (IH Hin) as (m & Hm & Hp). eauto.
    + intros Hin. destruct (IH deleted Hin) as (m & Hm & Hp). eauto.
Qed.

(** X1. Every event a poll returns was decoded from one of the received
    messages and carries that message and its identifiers; it either
    comes from the direct format (event name ["manual"]) or from a
    record that passed the four checks: its bucket is the configured
    bucket, its key starts with the configured prefix and a slash, its
    event name starts with the expected prefix and its event source is
    the expected one. *)
Theorem polled_events_are_validated (received : res (list RawMessage))
    (deleted : list string) (parsed : ParsedMessage) :
  In parsed (fst (poll_messages config json_loads received deleted)) ->
  exists messages message,
    received = Ret messages /\ In message messages /\
    (manual message parsed \/ validated config message parsed).
Proof.
  destruct received as [messages|e]; simpl; [|contradiction].
  intros Hin. apply poll_loop_in in Hin. destruct Hin as (message & Hm & Hp).
  exists messages, message. split; [reflexivity|]. split; [exact Hm|].
  apply parse_message_some. exact Hp.
Qed.

Lemma parse_record_valid (message : RawMessage) (d s3 b o : list (string * pyval))
    (name key : string) :
  assoc "eventSource" d = Some (PStr (EXPECTED_S3_EVENT_SOURCE config)) ->
  assoc "eventName" d = Some (PStr name) ->
  startswith name (EXPECTED_S3_EVENT_PREFIX config) = true ->
  assoc "s3" d = Some (PDict s3) ->
  assoc "bucket" s3 = Some (PDict b) ->
  assoc "name" b = Some (PStr (S3_BUCKET config)) ->
  assoc "object" s3 = Some (PDict o) ->
  assoc "key" o = Some (PStr key) ->
  startswith key (S3_PREFIX config +:+ "/") = true ->
  parse_record config message (PDict d) =
    Ret (Some {|
      m_message_id := MessageId message;
      m_receipt_handle := ReceiptHandle message;
      m_bucket := PStr (S3_BUCKET config);
      m_key := PStr key;
      m_size := default (PInt 0) (assoc "size" o);
      m_etag := Some (default (PStr "") (assoc "eTag" o));
      m_event_name := PStr name;
      m_event_time := default PNone (assoc "eventTime" d);
      m_event_source := Some (PStr (EXPECTED_S3_EVENT_SOURCE config));
      m_aws_region := Some (default PNone (assoc "awsRegion" d));
      m_raw_message := message |}).
Proof.
  intros Hsrc Hname Hpfx Hs3 Hb Hbn Ho Hk Hkp.
  unfold parse_record. cbn [py_get mbind res_bind]. rewrite Hsrc, py_eq_str_refl.
  cbn [negb]. rewrite Hname. cbn [py_startswith mbind res_bind]. rewrite Hpfx.
  cbn [negb py_getitem]. rewrite Hs3. cbn [mbind res_bind py_getitem]. rewrite Hb.
  cbn [mbind res_bind py_getitem]. rewrite Hbn, Ho. cbn [mbind res_bind py_getitem].
  rewrite Hk. cbn [mbind res_bind]. rewrite py_eq_str_refl.
  cbn [negb py_startswith mbind res_bind]. rewrite Hkp. cbn [negb py_get mbind res_bind].
  destruct (assoc "size" o), (assoc "eTag" o), (assoc "eventTime" d), (assoc "awsRegion" d);
    reflexivity.
Qed.

(** X2. A message whose body holds one record with the expected event
    source, an event name with the expected prefix, the configured
    bucket and a key under the configured prefix is decoded to one
    event that carries that bucket and that key unchanged; a size, an
    entity tag, an event time and a region that the record lacks are
    read as [0], the empty string, [None] and [None]. *)
Theorem valid_record_is_decoded (message : RawMessage) (body d s3 b o : list (string * pyval))
    (name key : string) (deleted : list string) :
  json_loads (Body message) = Some (PDict body) ->
  assoc "Records" body = Some (PList [PDict d]) ->
  assoc "eventSource" d = Some (PStr (EXPECTED_S3_EVENT_SOURCE config)) ->
  assoc "eventName" d = Some (PStr name) ->
  startswith name (EXPECTED_S3_EVENT_PREFIX config) = true ->
  assoc "s3" d = Some (PDict s3) ->
  assoc "bucket" s3 = Some (PDict b) ->
  assoc "name" b = Some (PStr (S3_BUCKET config)) ->
  assoc "object" s3 = Some (PDict o) ->
  assoc "key" o = Some (PStr key) ->
  startswith key (S3_PREFIX config +:+ "/") = true ->
  poll_messages config json_loads (Ret [message]) deleted =
    ([{| m_message_id := MessageId message;
         m_receipt_handle := ReceiptHandle message;
         m_bucket := PStr (S3_BUCKET config);
         m_key := PStr key;
         m_size := default (PInt 0) (assoc "size" o);
         m_etag := Some (default (PStr "") (assoc "eTag" o));
         m_event_name := PStr name;
         m_event_time := default PNone (assoc "eventTime" d);
         m_event_source := Some (PStr (EXPECTED_S3_EVENT_SOURCE config));
         m_aws_region := Some (default PNone (assoc "awsRegion" d));
         m_raw_message := message |}], deleted).
Proof.
  intros Hbody Hrec Hsrc Hname Hpfx Hs3 Hb Hbn Ho Hk Hkp.
  rewrite poll_single. unfold _parse_message.
  rewrite (parse_message_records config json_loads message body [PDict d] Hbody Hrec).
  cbn [parse_records].
  rewrite (parse_record_valid message d s3 b o name key Hsrc Hname Hpfx Hs3 Hb Hbn Ho Hk Hkp).
  reflexivity.
Qed.

(** X3. A body that decodes to a dictionary without a [Records] key and
    with the keys [bucket] and [key] is accepted as it is: the event
    carries whatever values those keys hold, of any type and for any
    bucket or prefix, and none of the checks made on notification
    records is applied. *)
Theorem direct_format_skips_validation (message : RawMessage) (d : list (string * pyval))
    (bucket key : pyval) (deleted : list string) :
  json_loads (Body message) = Some (PDict d) ->
  assoc "Records" d = None ->
  assoc "bucket" d = Some bucket ->
  assoc "key" d = Some key ->
  poll_messages config json_loads (Ret [message]) deleted =
    ([{| m_message_id := MessageId message;
         m_receipt_handle := ReceiptHandle message;
         m_bucket := bucket;
         m_key := key;
         m_size := default (PInt 0) (assoc "size" d);
         m_etag := None;
         m_event_name := PStr "manual";
         m_event_time := PNone;
         m_event_source := None;
         m_aws_region := None;
         m_raw_message := message |}], deleted).
Proof.
  intros Hbody Hrec Hb Hk. rewrite poll_single.
  unfold _parse_message, _parse_message_body, loads. rewrite Hbody.
  cbn [mbind res_bind py_in_str py_getitem py_get]. rewrite Hrec, Hb, Hk.
  rewrite bool_decide_eq_false_2 by (intros [x Hx]; discriminate).
  cbn [mbind res_bind].
  repeat (rewrite bool_decide_eq_true_2 by eauto; cbn [mbind res_bind]).
  destruct (assoc "size" d); reflexivity.
Qed.

Lemma parse_records_raise (message : RawMessage) (pre post : list pyval) (r : pyval)
    (e : exn) :
  Forall (fun x => parse_record config message x = Ret None) pre ->
  parse_record config message r = Raise e ->
  parse_records config message (pre ++ r :: post) = Raise e.
Proof.
  intros Hpre Hr. induction Hpre as [|x pre Hx Hpre IH]; simpl.
  - rewrite Hr. reflexivity.
  - rewrite Hx. simpl. exact IH.
Qed.

(** X4. One malformed record voids its message: when a record makes the
    parsing raise, and the records before it were skipped, the message
    yields no event, whatever records follow, valid ones included. A
    record with the expected source and event name but no [s3] entry
    is such a record. *)
Theorem malformed_record_voids_message (message : RawMessage) (d : list (string * pyval))
    (pre post : list pyval) (r : pyval) (deleted : list string) :
  json_loads (Body message) = Some (PDict d) ->
  assoc "Records" d = Some (PList (pre ++ r :: post)) ->
  Forall (fun x => parse_record config message x = Ret None) pre ->
  ((exists e, parse_record config message r = Raise e) ->
   poll_messages config json_loads (Ret [message]) deleted = ([], deleted)) /\
  (forall rd name,
     r = PDict rd ->
     assoc "eventSource" rd = Some (PStr (EXPECTED_S3_EVENT_SOURCE config)) ->
     assoc "eventName" rd = Some (PStr name) ->
     startswith name (EXPECTED_S3_EVENT_PREFIX config) = true ->
     assoc "s3" rd = None ->
     parse_record config message r = Raise KeyError).
Proof.
  intros Hbody Hrec Hpre. split.
  - intros [e He]. rewrite poll_single. unfold _parse_message.
    rewrite (parse_message_records config json_loads message d _ Hbody Hrec).
    rewrite (parse_records_raise message pre post r e Hpre He). reflexivity.
  - intros rd name -> Hsrc Hname Hpfx Hs3.
    unfold parse_record. cbn [py_get mbind res_bind]. rewrite Hsrc, py_eq_str_refl.
    cbn [negb]. rewrite Hname. cbn [py_startswith mbind res_bind]. rewrite Hpfx.
    cbn [negb py_getitem]. rewrite Hs3. reflexivity.
Qed.

Lemma parse_message_raw (message : RawMessage) (parsed : ParsedMessage) :
  _parse_message config json_loads message = Ret (Some parsed) ->
  m_raw_message parsed = message.
Proof.
  intros H. apply parse_message_some in H.
  destruct H as [H | H]; [unfold manual in H | unfold validated in H]; tauto.
Qed.

(** X5. A poll returns the events in the order their messages were
    received, at most one per message: the messages of the events form
    a sublist of the messages received. When the receive call itself
    fails, the poll returns no event. *)
Theorem poll_keeps_order (received : res (list RawMessage)) (deleted : list string) :
  (forall messages,
     received = Ret messages ->
     sublist (map m_raw_message (fst (poll_messages config json_loads received deleted)))
             messages) /\
  (forall e,
     received = Raise e ->
     fst (poll_messages config json_loads received deleted) = []).
Proof.
  split.
  - intros messages ->. simpl. revert deleted.
    induction messages as [|message rest IH]; intros deleted; simpl.
    + constructor.
    + destruct (parse_message_returns config json_loads message) as [r Hr]. rewrite Hr.
      destruct r as [p|].
      * specialize (IH deleted).
        destruct (poll_loop config json_loads rest deleted) as [ps del]. simpl in *.
        rewrite (parse_message_raw message p Hr). constructor. exact IH.
      * constructor. apply IH.
  - intros e ->. reflexivity.
Qed.

End SQSFurther.

Lemma py_get_dict (d : list (string * pyval)) (key : string) (dflt : pyval) :
  py_get (PDict d) key dflt = Ret (default dflt (assoc key d)).
Proof. simpl. destruct (assoc key d); reflexivity. Qed.

(** X6. [get_queue_stats] never raises. On a response with an
    [Attributes] dictionary it returns the queue URL and the three
    counters, an absent counter reading [0]; when the request fails,
    the response has no [Attributes], or one counter is not readable as
    an integer, it returns the empty dictionary: one unreadable counter
    hides the other two. *)
Theorem get_queue_stats_spec (queue_url : string) :
  (forall e, get_queue_stats queue_url (Raise e) = PDict []) /\
  (forall r, assoc "Attributes" r = None ->
             get_queue_stats queue_url (Ret (PDict r)) = PDict []) /\
  (forall r attributes,
     assoc "Attributes" r = Some (PDict attributes) ->
     (forall a b c,
        queue_counter attributes "ApproximateNumberOfMessages" = Ret a ->
        queue_counter attributes "ApproximateNumberOfMessagesNotVisible" = Ret b ->
        queue_counter attributes "ApproximateNumberOfMessagesDelayed" = Ret c ->
        get_queue_stats queue_url (Ret (PDict r)) =
          PDict [("queue_url", PStr queue_url);
                 ("approximate_messages", PInt a);
                 ("messages_in_flight", PInt b);
                 ("messages_delayed", PInt c)]) /\
     (forall name e,
        In name ["ApproximateNumberOfMessages"; "ApproximateNumberOfMessagesNotVisible";
                 "ApproximateNumberOfMessagesDelayed"] ->
        queue_counter attributes name = Raise e ->
        get_queue_stats queue_url (Ret (PDict r)) = PDict [])).
Proof.
  split; [reflexivity|]. split.
  - intros r Hr. unfold get_queue_stats, get_queue_stats_body.
    cbn [mbind res_bind py_getitem]. rewrite Hr. reflexivity.
  - intros r attributes Hr.
    assert (Hbody : get_queue_stats_body queue_url (Ret (PDict r)) =
              a ← queue_counter attributes "ApproximateNumberOfMessages";
              b ← queue_counter attributes "ApproximateNumberOfMessagesNotVisible";
              c ← queue_counter attributes "ApproximateNumberOfMessagesDelayed";
              Ret (PDict [("queue_url", PStr queue_url);
                          ("approximate_messages", PInt a);
                          ("messages_in_flight", PInt b);
                          ("messages_delayed", PInt c)])).
    { unfold get_queue_stats_body. cbn [mbind res_bind py_getitem]. rewrite Hr.
      cbn [mbind res_bind]. rewrite !py_get_dict. reflexivity. }
    unfold get_queue_stats. rewrite Hbody. split.
    + intros a b c Ha Hb Hc. rewrite Ha, Hb, Hc. reflexivity.
    + intros name e Hin He.
      destruct (queue_counter attributes "ApproximateNumberOfMessages") as [a|ea] eqn:Ha;
        cbn [mbind res_bind]; [|reflexivity].
      destruct (queue_counter attributes "ApproximateNumberOfMessagesNotVisible")
        as [b|eb] eqn:Hb; cbn [mbind res_bind]; [|reflexivity].
      destruct (queue_counter attributes "ApproximateNumberOfMessagesDelayed")
        as [c|ec] eqn:Hc; cbn [mbind res_bind]; [|reflexivity].
      simpl in Hin. destruct Hin as [<- | [<- | [<- | []]]]; congruence.
Qed.

(** ** The object store client *)

(** X7. [cleanup_file] reports success exactly when the file existed
    and could be removed; after a success the file is gone, and a
    second cleanup of the same path reports [False] and changes
    nothing; a cleanup that reports [False] leaves the local files as
    they were; and no other path is ever touched. *)
Theorem cleanup_file_spec (env env2 : MsgEnv) (fs : files) (local_path : string) :
  (fst (cleanup_file env fs local_path) = true <->
     is_Some (fs !! local_path) /\ remove_ok env = true) /\
  (fst (cleanup_file env fs local_path) = true ->
     snd (cleanup_file env fs local_path) !! local_path = None /\
     cleanup_file env2 (snd (cleanup_file env fs local_path)) local_path
       = (false, snd (cleanup_file env fs local_path))) /\
  (fst (cleanup_file env fs local_path) = false ->
     snd (cleanup_file env fs local_path) = fs) /\
  (forall other, other <> local_path ->
     snd (cleanup_file env fs local_path) !! other = fs !! other).
Proof.
  unfold cleanup_file.
  destruct (fs !! local_path) as [n|] eqn:Hfile; [destruct (remove_ok env)|]; simpl.
  - split; [split; eauto|]. split.
    + intros _. rewrite lookup_delete_eq. split; reflexivity.
    + split; [discriminate|]. intros other Hne. apply lookup_delete_ne. congruence.
  - split; [split; [discriminate | intros [_ H]; discriminate]|].
    split; [discriminate|]. split; reflexivity.
  - split; [split; [discriminate | intros [[x Hx] _]; discriminate]|].
    split; [discriminate|]. split; reflexivity.
Qed.

Lemma download_file_some (dir : string) (env : MsgEnv) (fs fs' : files)
    (bucket key : pyval) (path : string) :
  download_file dir env fs bucket key = (Some path, fs') ->
  exists b k written size,
    bucket = PStr b /\ key = PStr k /\
    path = path_join dir (basename k) /\
    transfer env = Ret written /\
    fs' = after_transfer fs path written /\
    fs' !! path = Some size.
Proof.
  unfold download_file.
  destruct bucket as [| | | | b | | |]; try discriminate.
  destruct key as [| | | | k | | |]; try discriminate.
  intros H. apply download_file_str_some in H.
  destruct H as (Hpath & written & size & Ht & Hfs & Hsize).
  exists b, k, written, size. auto 10.
Qed.

(** X8. Download followed by cleanup: once a download has succeeded, a
    cleanup of the returned path that can remove the file reports
    success and leaves the local files as they were before the
    download, less whatever file was at that path then (a file that
    was already there is overwritten by the download and removed with
    it). *)
Theorem download_then_cleanup (dir : string) (env env2 : MsgEnv) (fs fs' : files)
    (bucket key : pyval) (path : string) :
  download_file dir env fs bucket key = (Some path, fs') ->
  remove_ok env2 = true ->
  cleanup_file env2 fs' path = (true, delete path fs) /\
  (fs !! path = None -> cleanup_file env2 fs' path = (true, fs)).
Proof.
  intros Hdl Hrm. apply download_file_some in Hdl.
  destruct Hdl as (b & k & written & size & _ & _ & _ & _ & Hfs & Hsize).
  assert (Hclean : cleanup_file env2 fs' path = (true, delete path fs)).
  { unfold cleanup_file. rewrite Hsize, Hrm. f_equal.
    rewrite Hfs. destruct written as [n|]; simpl; [apply delete_insert_eq | reflexivity]. }
  split; [exact Hclean|].
  intros Hnone. rewrite Hclean. f_equal. apply delete_id. exact Hnone.
Qed.

(** X9. The local path of a download depends only on the download
    directory and the last segment of the key: two objects whose keys
    end in the same file name are downloaded to the same path, and the
    file the second download writes replaces the one the first left. *)
Theorem downloads_collide_on_basename (dir : string) (env1 env2 : MsgEnv)
    (fs fs1 fs2 : files) (bucket1 bucket2 : pyval) (key1 key2 path1 path2 : string) :
  basename key1 = basename key2 ->
  download_file dir env1 fs bucket1 (PStr key1) = (Some path1, fs1) ->
  download_file dir env2 fs1 bucket2 (PStr key2) = (Some path2, fs2) ->
  path1 = path2 /\
  (forall n, transfer env2 = Ret (Some n) -> fs2 !! path1 = Some n).
Proof.
  intros Hbase H1 H2.
  apply download_file_some in H1. apply download_file_some in H2.
  destruct H1 as (b1 & k1 & w1 & s1 & _ & Hk1 & Hp1 & _ & _ & _).
  destruct H2 as (b2 & k2 & w2 & s2 & _ & Hk2 & Hp2 & Ht2 & Hfs2 & _).
  inversion Hk1; subst k1. inversion Hk2; subst k2.
  assert (Hp : path1 = path2) by (rewrite Hp1, Hp2, Hbase; reflexivity).
  split; [exact Hp|].
  intros n Hn. rewrite Hn in Ht2. inversion Ht2; subst w2.
  rewrite Hfs2, Hp. simpl. apply lookup_insert_eq.
Qed.

(** ** The probe adapter *)

Section ExtractorFurther.

Variable json_loads : string -> option pyval.

(** X10. The two views of the result an extraction builds and, once
    its summary is printed, returns, split it without loss or mixing: [get_real_metadata_only] returns the processing
    information and the measured data, and nothing of the placeholder
    analysis; [get_placeholder_analysis_only] returns the processing
    information and the placeholder analysis, and nothing measured.
    On a dictionary that lacks a part, a view holds an empty dictionary
    in its place. *)
Theorem metadata_views_split (fs : files) (env : MsgEnv) (file_path : string)
    (s3_metadata : pyval) :
  (exists full info real placeholder,
     extract_metadata json_loads fs env file_path s3_metadata =
       (_ ← _print_metadata_summary env full; Ret full) /\
     full = PDict [("processing_info", info);
                   ("real_metadata", real);
                   ("placeholder_analysis", placeholder)] /\
     get_real_metadata_only full =
       Ret (PDict [("processing_info", info); ("real_metadata", real)]) /\
     get_placeholder_analysis_only full =
       Ret (PDict [("processing_info", info); ("placeholder_analysis", placeholder)])) /\
  (forall d,
     assoc "real_metadata" d = None ->
     assoc "placeholder_analysis" d = None ->
     get_real_metadata_only (PDict d) =
       Ret (PDict [("processing_info", default (PDict []) (assoc "processing_info" d));
                   ("real_metadata", PDict [])]) /\
     get_placeholder_analysis_only (PDict d) =
       Ret (PDict [("processing_info", default (PDict []) (assoc "processing_info" d));
                   ("placeholder_analysis", PDict [])])).
Proof.
  split.
  - destruct (extract_metadata_shape json_loads fs env file_path s3_metadata)
      as (info & video & analysis & _ & Hex).
    do 4 eexists. split; [exact Hex|]. split; [reflexivity|]. split; reflexivity.
  - intros d Hreal Hph. unfold get_real_metadata_only, get_placeholder_analysis_only.
    rewrite !py_get_dict. cbn [mbind res_bind]. rewrite Hreal, Hph. split; reflexivity.
Qed.

Lemma filter_streams_dicts (kind : string) (streams : list pyval) :
  Forall is_dict streams ->
  filter_streams kind streams = Ret (List.filter (stream_kind kind) streams).
Proof.
  induction 1 as [|s rest [d ->] Hrest IH]; [reflexivity|].
  cbn [filter_streams List.filter stream_kind]. rewrite py_get_dict, IH.
  cbn [mbind res_bind].
  destruct (py_eq_str (default PNone (assoc "codec_type" d)) kind); reflexivity.
Qed.

(** The summary [probe_summary] builds once the streams are sorted by
    kind: it depends on the streams only through the two counts and the
    first video stream. *)
Lemma probe_summary_dicts (pd : list (string * pyval)) (streams : list pyval) :
  assoc "streams" pd = Some (PList streams) ->
  Forall is_dict streams ->
  probe_summary (PDict pd) =
    (let fmt := default (PDict []) (assoc "format" pd) in
     duration ← py_get fmt "duration" (PInt 0) ≫= py_float;
     bit_rate ← py_get fmt "bit_rate" (PInt 0) ≫= py_int;
     file_size ← py_get fmt "size" (PInt 0) ≫= py_int;
     let metadata :=
       [("extraction_method", PStr "ffprobe");
        ("format", fmt);
        ("video_streams",
          PInt (Z.of_nat (length (List.filter (stream_kind "video") streams))));
        ("audio_streams",
          PInt (Z.of_nat (length (List.filter (stream_kind "audio") streams))));
        ("duration_seconds", PFloat duration);
        ("bitrate", PInt bit_rate);
        ("file_size", PInt file_size)] in
     match List.filter (stream_kind "video") streams with
     | [] => Ret (PDict metadata)
     | primary_video :: _ =>
         codec ← py_get primary_video "codec_name" PNone;
         width ← py_get primary_video "width" PNone;
         height ← py_get primary_video "height" PNone;
         fps ← py_get primary_video "r_frame_rate" PNone ≫= _parse_fps;
         aspect_ratio ← py_get primary_video "display_aspect_ratio" PNone;
         pixel_format ← py_get primary_video "pix_fmt" PNone;
         Ret (PDict (metadata ++
                [("video_details",
                  PDict [("codec", codec);
                         ("width", width);
                         ("height", height);
                         ("fps", opt_pyval PFloat fps);
                         ("aspect_ratio", aspect_ratio);
                         ("pixel_format", pixel_format)])]))
     end).
Proof.
  intros Hstreams Hdicts. unfold probe_summary.
  rewrite !py_get_dict, Hstreams. cbn [default mbind res_bind py_iter].
  change (id (PList streams)) with (PList streams). cbn [mbind res_bind py_iter].
  rewrite !(filter_streams_dicts _ streams Hdicts). cbn [mbind res_bind].
  reflexivity.
Qed.

(** X11. [probe_summary] counts the video and the audio streams of the
    probe output and describes one video stream only, the first: when
    the streams are dictionaries and the summary is built, its two
    counts are the numbers of streams of each kind, it has a
    [video_details] entry exactly when there is a video stream, and
    that entry is the same for every probe output with the same format
    and the same first video stream, whatever other streams it has. *)
Theorem probe_summary_streams (pd : list (string * pyval)) (streams : list pyval)
    (m : pyval) :
  assoc "streams" pd = Some (PList streams) ->
  Forall is_dict streams ->
  probe_summary (PDict pd) = Ret m ->
  exists md,
    m = PDict md /\
    assoc "video_streams" md =
      Some (PInt (Z.of_nat (length (List.filter (stream_kind "video") streams)))) /\
    assoc "audio_streams" md =
      Some (PInt (Z.of_nat (length (List.filter (stream_kind "audio") streams)))) /\
    (assoc "video_details" md = None <-> List.filter (stream_kind "video") streams = []) /\
    (forall pd' streams',
       assoc "streams" pd' = Some (PList streams') ->
       Forall is_dict streams' ->
       assoc "format" pd' = assoc "format" pd ->
       hd_error (List.filter (stream_kind "video") streams')
         = hd_error (List.filter (stream_kind "video") streams) ->
       exists md',
         probe_summary (PDict pd') = Ret (PDict md') /\
         assoc "video_details" md' = assoc "video_details" md).
Proof.
  intros Hstreams Hdicts H.
  rewrite (probe_summary_dicts pd streams Hstreams Hdicts) in H. cbv zeta in H.
  destruct (py_get (default (PDict []) (assoc "format" pd)) "duration" (PInt 0) ≫= py_float)
    as [duration|e] eqn:Hdur; cbn [mbind res_bind] in H; [|discriminate].
  destruct (py_get (default (PDict []) (assoc "format" pd)) "bit_rate" (PInt 0) ≫= py_int)
    as [bit_rate|e] eqn:Hbit; cbn [mbind res_bind] in H; [|discriminate].
  destruct (py_get (default (PDict []) (assoc "format" pd)) "size" (PInt 0) ≫= py_int)
    as [file_size|e] eqn:Hsize; cbn [mbind res_bind] in H; [|discriminate].
  destruct (List.filter (stream_kind "video") streams) as [|v rest] eqn:Hvideo.
  - inversion H; subst m; clear H. eexists. split; [reflexivity|].
    split; [reflexivity|]. split; [reflexivity|]. split; [split; reflexivity|].
    intros pd' streams' Hstreams' Hdicts' Hfmt Hhd.
    rewrite (probe_summary_dicts pd' streams' Hstreams' Hdicts'). cbv zeta.
    rewrite Hfmt, Hdur, Hbit, Hsize. cbn [mbind res_bind].
    destruct (List.filter (stream_kind "video") streams') as [|v' rest'];
      [|discriminate].
    eexists. split; reflexivity.
  - repeat step_in H. inversion H; subst m; clear H. eexists. split; [reflexivity|].
    split; [reflexivity|]. split; [reflexivity|].
    split; [split; discriminate|].
    intros pd' streams' Hstreams' Hdicts' Hfmt Hhd.
    rewrite (probe_summary_dicts pd' streams' Hstreams' Hdicts'). cbv zeta.
    rewrite Hfmt, Hdur, Hbit, Hsize. cbn [mbind res_bind].
    destruct (List.filter (stream_kind "video") streams') as [|v' rest'];
      [discriminate|].
    simpl in Hhd. inversion Hhd; subst v'.
    repeat match goal with
           | E : ?t = Ret _ |- context [?t] => rewrite E; cbn [mbind res_bind]
           end.
    eexists. split; reflexivity.
Qed.

Lemma probe_summary_unreadable (pd fmt : list (string * pyval)) :
  assoc "format" pd = Some (PDict fmt) ->
  (exists e, py_float (default (PInt 0) (assoc "duration" fmt)) = Raise e) \/
  (exists e, py_int (default (PInt 0) (assoc "bit_rate" fmt)) = Raise e) \/
  (exists e, py_int (default (PInt 0) (assoc "size" fmt)) = Raise e) ->
  exists e, probe_summary (PDict pd) = Raise e.
Proof.
  intros Hfmt Hbad. unfold probe_summary.
  destruct (py_get (PDict pd) "streams" (PList [])) as [streams|e];
    cbn [mbind res_bind]; [|eauto].
  destruct (py_iter streams) as [elems|e]; cbn [mbind res_bind]; [|eauto].
  destruct (filter_streams "video" elems) as [vs|e]; cbn [mbind res_bind]; [|eauto].
  destruct (filter_streams "audio" elems) as [aus|e]; cbn [mbind res_bind]; [|eauto].
  rewrite py_get_dict, Hfmt. cbn [default from_option id mbind res_bind].
  rewrite !py_get_dict. cbn [mbind res_bind].
  destruct Hbad as [[e He] | [[e He] | [e He]]].
  - rewrite He. cbn [mbind res_bind]. eauto.
  - destruct (py_float _) as [x|e1]; cbn [mbind res_bind]; [|eauto].
    rewrite He. cbn [mbind res_bind]. eauto.
  - destruct (py_float _) as [x|e1]; cbn [mbind res_bind]; [|eauto].
    destruct (py_int (default (PInt 0) (assoc "bit_rate" fmt))) as [y|e2];
      cbn [mbind res_bind]; [|eauto].
    rewrite He. cbn [mbind res_bind]. eauto.
Qed.

(** X12. One unreadable number discards the whole probe result: when
    the probe tool runs and its output decodes, but the duration of the
    format is not readable as a float, or its bit rate or size not as
    an integer, the extraction returns the guess made from the file
    extension, tagged ["basic_analysis"], as if the tool were absent. *)
Theorem unreadable_probe_number_falls_back (env : MsgEnv) (file_path out err : string)
    (pd fmt : list (string * pyval)) :
  ffprobe_run env = RunCompleted 0 out err ->
  json_loads out = Some (PDict pd) ->
  assoc "format" pd = Some (PDict fmt) ->
  (exists e, py_float (default (PInt 0) (assoc "duration" fmt)) = Raise e) \/
  (exists e, py_int (default (PInt 0) (assoc "bit_rate" fmt)) = Raise e) \/
  (exists e, py_int (default (PInt 0) (assoc "size" fmt)) = Raise e) ->
  _extract_video_metadata json_loads env file_path = _extract_basic_video_info file_path /\
  exists info,
    _extract_video_metadata json_loads env file_path = Ret (PDict info) /\
    assoc "extraction_method" info = Some (PStr "basic_analysis").
Proof.
  intros Hrun Hout Hfmt Hbad.
  destruct (probe_summary_unreadable pd fmt Hfmt Hbad) as [e He].
  assert (Hbody : exists e', _extract_with_ffprobe_body json_loads env = Raise e').
  { unfold _extract_with_ffprobe_body.
    destruct (ffprobe_version env) as [| |rc o er]; cbn [mbind res_bind]; eauto.
    destruct (rc =? 0); cbn [mbind res_bind]; eauto.
    rewrite Hrun. simpl. unfold loads. rewrite Hout. cbn [mbind res_bind]. eauto. }
  destruct Hbody as [e' He'].
  destruct (extract_with_ffprobe_raises_exception json_loads env e' He') as [msg Hmsg].
  unfold _extract_video_metadata. rewrite Hmsg. split; [reflexivity|].
  rewrite basic_video_info_returns. eexists. split; reflexivity.
Qed.

End ExtractorFurther.

(** ** The record table *)

(** X13. [update_processing_status] changes one row at most. An id
    that is not in the table, or a store that fails, leaves the table
    as it was. Otherwise every other row is untouched, and the row
    itself keeps its upload id, bucket, key and start time, takes the
    new status, and counts one more retry exactly when the new status
    is ["failed"]. *)
Theorem update_processing_status_spec (env : MsgEnv) (d : Database) (record_id : positive)
    (status : string) (metadata : option pyval) (error : option string) :
  next_id (update_processing_status env d record_id status metadata error) = next_id d /\
  (forall other, other <> record_id ->
     rows (update_processing_status env d record_id status metadata error) !! other
       = rows d !! other) /\
  (rows d !! record_id = None \/ db_update_ok env = false ->
     update_processing_status env d record_id status metadata error = d) /\
  (forall r,
     rows d !! record_id = Some r -> db_update_ok env = true ->
     exists r',
       rows (update_processing_status env d record_id status metadata error) !! record_id
         = Some r' /\
       upload_id r' = upload_id r /\ s3_bucket r' = s3_bucket r /\ s3_key r' = s3_key r /\
       processing_started r' = processing_started r /\
       processing_status r' = status /\
       retry_count r' = (if String.eqb status "failed" then retry_count r + 1
                         else retry_count r)).
Proof.
  unfold update_processing_status. split; [|split; [|split]].
  - destruct (db_update_ok env); [|reflexivity].
    destruct (rows d !! record_id); reflexivity.
  - intros other Hne. destruct (db_update_ok env); [|reflexivity].
    destruct (rows d !! record_id); [|reflexivity].
    simpl. apply lookup_insert_ne. congruence.
  - intros [Hnone | Hfail].
    + rewrite Hnone. destruct (db_update_ok env); reflexivity.
    + rewrite Hfail. reflexivity.
  - intros r Hr Hok. rewrite Hok, Hr. simpl. rewrite lookup_insert_eq.
    eexists. split; [reflexivity|]. unfold updated_record.
    destruct (String.eqb status "completed") eqn:Hc.
    + apply String.eqb_eq in Hc. subst status. simpl. auto 10.
    + destruct (String.eqb status "failed"); simpl; auto 10.
Qed.

Lemma db_ok_insert (d : Database) (r : ProcessingRecord)
    (rows' : gmap positive ProcessingRecord) :
  db_ok d -> service_record r ->
  rows' !! next_id d = Some r ->
  (forall id, id <> next_id d -> rows' !! id = rows d !! id) ->
  db_ok {| rows := rows'; next_id := Pos.succ (next_id d) |} /\
  db_extends d {| rows := rows'; next_id := Pos.succ (next_id d) |}.
Proof.
  intros Hok Hr Hnew Hold. split.
  - intros id r0. simpl. destruct (Pos.eq_dec id (next_id d)) as [-> | Hne].
    + rewrite Hnew. intros H. inversion H; subst. split; [lia | exact Hr].
    + rewrite (Hold id Hne). intros H. destruct (Hok id r0 H) as [Hlt Hsr].
      split; [lia | exact Hsr].
  - split; simpl; [lia|].
    intros id r0 H. destruct (Hok id r0 H) as [Hlt _].
    rewrite Hold; [exact H | lia].
Qed.

Lemma db_extends_refl (d : Database) : db_extends d d.
Proof. split; [lia | auto]. Qed.

Lemma db_extends_trans (d1 d2 d3 : Database) :
  db_extends d1 d2 -> db_extends d2 d3 -> db_extends d1 d3.
Proof. intros [H1 H1'] [H2 H2']. split; [lia | auto]. Qed.

Lemma in_filter_nil {A : Type} (f : A -> bool) (l : list A) :
  (forall x, In x l -> f x = false) -> List.filter f l = [].
Proof.
  induction l as [|a l IH]; intros H; simpl; [reflexivity|].
  rewrite (H a (or_introl eq_refl)). apply IH. intros x Hx. apply H. right. exact Hx.
Qed.

Lemma get_failed_records_in (d : Database) (max_retries : Z) (x : pyval) :
  In x (get_failed_records true d max_retries) <->
  exists id r,
    rows d !! id = Some r /\ processing_status r = "failed" /\
    retry_count r < max_retries /\ x = failed_record_dict id r.
Proof.
  unfold get_failed_records. rewrite in_map_iff. split.
  - intros [[id r] [Hx Hin]]. apply filter_In in Hin. destruct Hin as [Hin Hf].
    apply list_elem_of_In, elem_of_map_to_list in Hin.
    unfold retryable in Hf. apply andb_true_iff in Hf. destruct Hf as [Hs Hc].
    simpl in *. apply String.eqb_eq in Hs. apply Z.ltb_lt in Hc.
    exists id, r. auto.
  - intros (id & r & Hr & Hs & Hc & ->). exists (id, r). split; [reflexivity|].
    apply filter_In. split.
    + apply list_elem_of_In, elem_of_map_to_list. exact Hr.
    + unfold retryable. simpl. rewrite Hs. simpl. apply Z.ltb_lt. exact Hc.
Qed.

(** X14. In a table the service has written a failed record has had
    exactly one attempt. So [get_failed_records] returns every failed
    record, and no other, as soon as [max_retries] is 2 or more (its
    default is 3), and returns nothing when [max_retries] is 1 or
    less; when the query fails it returns the empty list. *)
Theorem failed_records_of_service_table (d : Database) (max_retries : Z) :
  db_ok d ->
  (2 <= max_retries ->
   forall x,
     In x (get_failed_records true d max_retries) <->
     exists id r,
       rows d !! id = Some r /\ processing_status r = "failed" /\
       x = failed_record_dict id r) /\
  (max_retries <= 1 -> get_failed_records true d max_retries = []) /\
  get_failed_records false d max_retries = [].
Proof.
  intros Hok. split; [|split; [|reflexivity]].
  - intros Hmax x. rewrite get_failed_records_in. split.
    + intros (id & r & Hr & Hs & _ & Hx). eauto.
    + intros (id & r & Hr & Hs & Hx). exists id, r.
      repeat split; auto.
      destruct (Hok id r Hr) as [_ [(H & _) | [(H & _) | (_ & Hc & _)]]];
        [rewrite Hs in H; discriminate | rewrite Hs in H; discriminate | lia].
  - intros Hmax. unfold get_failed_records. rewrite in_filter_nil; [reflexivity|].
    intros [id r] Hin. apply list_elem_of_In, elem_of_map_to_list in Hin.
    unfold retryable. simpl.
    destruct (String.eqb_spec (processing_status r) "failed") as [Hs | Hs]; [|reflexivity].
    destruct (Hok id r Hin) as [_ [(H & _) | [(H & _) | (_ & Hc & _)]]];
      [rewrite Hs in H; discriminate | rewrite Hs in H; discriminate |].
    simpl. apply Z.ltb_ge. lia.
Qed.

(** ** The orchestrator *)

Section ServiceFurther.

Variable config : Config.
Variable json_loads : string -> option pyval.

(** The three outcomes of handling one event: it is processed; its
    download returns nothing; or its download succeeds and the
    extraction raises, which leaves the downloaded file in place. *)
Lemma handle_message_cases (env : MsgEnv) (st : State) (message : ParsedMessage) :
  let created := create_processing_record env (db st) (m_bucket message) (m_key message) in
  let download :=
    download_file (DOWNLOAD_DIR config) env (fs st) (m_bucket message) (m_key message) in
  (exists path extracted,
     fst download = Some path /\ path <> "" /\
     fst (process_message config json_loads env st message) = Ret tt /\
     handle_message config json_loads env st message =
       {| db := match fst created with
                | Some id => update_processing_status env (snd created) id "completed"
                               (Some extracted) None
                | None => snd created
                end;
          fs := if CLEANUP_AFTER_PROCESSING config
                then snd (cleanup_file env (snd download) path)
                else snd download;
          deleted := m_receipt_handle message :: deleted st;
          stats := count_processed (count_downloaded (stats st)) |}) \/
  ((fst download = None \/ fst download = Some "") /\
   fst (process_message config json_loads env st message) = Raise download_failed /\
   handle_message config json_loads env st message =
     {| db := match fst created with
              | Some id => update_processing_status env (snd created) id "failed"
                             None (Some "Failed to download file from S3")
              | None => snd created
              end;
        fs := snd download;
        deleted := m_receipt_handle message :: deleted st;
        stats := count_error (stats st) |}) \/
  (exists path e,
     fst download = Some path /\ path <> "" /\
     fst (process_message config json_loads env st message) = Raise e /\
     handle_message config json_loads env st message =
       {| db := match fst created with
                | Some id => update_processing_status env (snd created) id "failed"
                               None (Some (exn_str e))
                | None => snd created
                end;
          fs := snd download;
          deleted := m_receipt_handle message :: deleted st;
          stats := count_error (count_downloaded (stats st)) |}).
Proof.
  cbv zeta. unfold handle_message, process_message, process_message_try.
  destruct (create_processing_record env (db st) (m_bucket message) (m_key message))
    as [record_id db1].
  cbn [fs set_db fst snd].
  destruct (download_file (DOWNLOAD_DIR config) env (fs st) (m_bucket message) (m_key message))
    as [[path|] fs1]; cbn [fst snd].
  - destruct (String.eqb_spec path "") as [-> | Hpath].
    + right. left. split; [auto|]. destruct record_id; split; reflexivity.
    + cbn [fs set_fs set_stats].
      match goal with
      | |- context [extract_metadata ?j ?f ?e ?p ?m] =>
          destruct (extract_metadata j f e p m) as [x|e0]
      end.
      * left. exists path, x. split; [reflexivity|]. split; [exact Hpath|].
        destruct record_id, (CLEANUP_AFTER_PROCESSING config); split; reflexivity.
      * right. right. exists path, e0. split; [reflexivity|]. split; [exact Hpath|].
        destruct record_id; split; reflexivity.
  - right. left. split; [auto|]. destruct record_id; split; reflexivity.
Qed.

Lemma handle_message_deleted (env : MsgEnv) (st : State) (message : ParsedMessage) :
  deleted (handle_message config json_loads env st message)
    = m_receipt_handle message :: deleted st.
Proof.
  destruct (handle_message_cases env st message)
    as [(path & x & _ & _ & _ & ->) | [(_ & _ & ->) | (path & e & _ & _ & _ & ->)]];
    reflexivity.
Qed.

Lemma process_messages_deleted (envs : nat -> MsgEnv) (messages : list ParsedMessage) :
  forall i st,
    deleted (process_messages config json_loads envs i st messages)
      = (rev (map m_receipt_handle messages) ++ deleted st)%list.
Proof.
  induction messages as [|message rest IH]; intros i st; simpl; [reflexivity|].
  rewrite IH, handle_message_deleted, <- app_assoc. reflexivity.
Qed.

(** X15. Every event a poll returns is acknowledged exactly once, in
    the order of the poll, whether its handling succeeded or failed:
    after a cycle, the delete requests sent to the queue are those sent
    before it and then one for each polled event, and no other. *)
Theorem every_polled_event_is_acknowledged (c : CycleEnv) (st : State) :
  deleted (process_cycle config json_loads c st)
    = (rev (map m_receipt_handle (polled config json_loads c st)) ++ deleted st)%list.
Proof.
  unfold process_cycle, polled.
  pose proof (poll_messages_sends_no_delete config json_loads (received c) (deleted st)) as Hd.
  destruct (poll_messages config json_loads (received c) (deleted st)) as [messages deleted'].
  simpl in Hd. subst deleted'. cbn [fst].
  destruct messages as [|m ms]; [reflexivity|].
  cbn [deleted set_stats]. rewrite process_messages_deleted. reflexivity.
Qed.

Lemma handle_message_stats (env : MsgEnv) (st : State) (message : ParsedMessage) :
  let s := stats st in
  let s' := stats (handle_message config json_loads env st message) in
  messages_processed s' + processing_errors s'
    = messages_processed s + processing_errors s + 1 /\
  messages_processed s' - messages_processed s
    <= files_downloaded s' - files_downloaded s <= 1 /\
  messages_processed s <= messages_processed s' /\
  processing_errors s <= processing_errors s' /\
  last_activity s' = last_activity s.
Proof.
  cbv zeta.
  destruct (handle_message_cases env st message)
    as [(path & x & _ & _ & _ & ->) | [(_ & _ & ->) | (path & e & _ & _ & _ & ->)]];
    simpl; repeat split; lia.
Qed.

Lemma process_messages_stats (envs : nat -> MsgEnv) (messages : list ParsedMessage) :
  forall i st,
    let s := stats st in
    let s' := stats (process_messages config json_loads envs i st messages) in
    messages_processed s' + processing_errors s'
      = messages_processed s + processing_errors s + Z.of_nat (length messages) /\
    messages_processed s' - messages_processed s
      <= files_downloaded s' - files_downloaded s <= Z.of_nat (length messages) /\
    messages_processed s <= messages_processed s' /\
    processing_errors s <= processing_errors s'.
Proof.
  induction messages as [|message rest IH]; intros i st; cbv zeta.
  - simpl. repeat split; lia.
  - cbn [process_messages length].
    pose proof (IH (S i) (handle_message config json_loads (envs i) st message)) as H.
    pose proof (handle_message_stats (envs i) st message) as H0.
    cbv zeta in H, H0. repeat split; lia.
Qed.

(** X16. The counters of a cycle: each polled event is counted once,
    as processed or as an error; a file is counted as downloaded for
    every event counted as processed, and for no more events than were
    polled (an event whose extraction raises after its download is
    counted as downloaded and as an error); no counter ever
    decreases. *)
Theorem cycle_counters (c : CycleEnv) (st : State) :
  let s := stats st in
  let s' := stats (process_cycle config json_loads c st) in
  messages_processed s' + processing_errors s'
    = messages_processed s + processing_errors s
      + Z.of_nat (length (polled config json_loads c st)) /\
  messages_processed s' - messages_processed s
    <= files_downloaded s' - files_downloaded s
    <= Z.of_nat (length (polled config json_loads c st)) /\
  messages_processed s <= messages_processed s' /\
  processing_errors s <= processing_errors s'.
Proof.
  cbv zeta. unfold process_cycle, polled.
  destruct (poll_messages config json_loads (received c) (deleted st)) as [messages deleted'].
  cbn [fst]. destruct messages as [|m ms].
  - simpl. repeat split; lia.
  - pose proof (process_messages_stats (msg_env c) (m :: ms) 0 (set_deleted st deleted')) as H.
    cbv zeta in H. cbn [stats set_stats set_deleted set_last_activity messages_processed
                        processing_errors files_downloaded] in *.
    exact H.
Qed.

Lemma process_cycle_idle (c : CycleEnv) (st : State) :
  polled config json_loads c st = [] -> process_cycle config json_loads c st = st.
Proof.
  unfold process_cycle, polled.
  pose proof (poll_messages_sends_no_delete config json_loads (received c) (deleted st)) as Hd.
  destruct (poll_messages config json_loads (received c) (deleted st)) as [messages deleted'].
  simpl in Hd. subst deleted'. cbn [fst]. intros ->. destruct st; reflexivity.
Qed.

Lemma poll_loop_nothing (messages : list RawMessage) (deleted : list string) :
  Forall (fun m => _parse_message config json_loads m = Ret None) messages ->
  fst (poll_loop config json_loads messages deleted) = [].
Proof.
  induction 1 as [|m rest Hm Hrest IH]; simpl; [reflexivity|].
  rewrite Hm. exact IH.
Qed.

(** X17. A cycle that gets no event is idle: when the receive call
    fails, or when none of the received messages yields an event, the
    cycle leaves the records, the local files, the queue and the
    counters as they were, the time of last activity included; a cycle
    that handles an event sets that time to its own clock. *)
Theorem idle_cycle_changes_nothing (c : CycleEnv) (st : State) :
  (forall e, received c = Raise e -> process_cycle config json_loads c st = st) /\
  (forall messages,
     received c = Ret messages ->
     Forall (fun m => _parse_message config json_loads m = Ret None) messages ->
     process_cycle config json_loads c st = st) /\
  (polled config json_loads c st <> [] ->
   last_activity (stats (process_cycle config json_loads c st)) = Some (activity_time c)).
Proof.
  split; [|split].
  - intros e He. apply process_cycle_idle. unfold polled. rewrite He. reflexivity.
  - intros messages Hr Hnone. apply process_cycle_idle. unfold polled. rewrite Hr.
    simpl. apply poll_loop_nothing. exact Hnone.
  - unfold process_cycle, polled.
    destruct (poll_messages config json_loads (received c) (deleted st))
      as [messages deleted'].
    cbn [fst]. destruct messages as [|m ms]; [contradiction|]. reflexivity.
Qed.



Lemma handle_message_db (env : MsgEnv) (st : State) (message : ParsedMessage) :
  db_ok (db st) ->
  db_ok (db (handle_message config json_loads env st message)) /\
  db_extends (db st) (db (handle_message config json_loads env st message)).
Proof.
  intros Hok.
  assert (Hnone : db_create_ok env = false ->
            create_processing_record env (db st) (m_bucket message) (m_key message)
              = (None, db st)).
  { intros H. unfold create_processing_record. rewrite H. reflexivity. }
  assert (Hupd : forall status metadata error,
            db_create_ok env = true ->
            service_record
              (updated_record env
                 {| upload_id :=
                      match _extract_upload_id_from_key (m_key message) with
                      | Ret r => r
                      | Raise _ => None
                      end;
                    s3_bucket := m_bucket message;
                    s3_key := m_key message;
                    processing_status := "processing";
                    processing_started := created_at env;
                    processing_completed := None;
                    metadata_json := None;
                    error_message := None;
                    retry_count := 0 |} status metadata error) ->
            let created :=
              create_processing_record env (db st) (m_bucket message) (m_key message) in
            let d' := match fst created with
                      | Some id => update_processing_status env (snd created) id status
                                     metadata error
                      | None => snd created
                      end in
            db_ok d' /\ db_extends (db st) d').
  { intros status metadata error Hcreate Hsr. cbv zeta.
    unfold create_processing_record. rewrite Hcreate. cbn [fst snd].
    unfold update_processing_status. cbn [rows next_id].
    rewrite lookup_insert_eq.
    destruct (db_update_ok env).
    - eapply db_ok_insert;
        [exact Hok | | apply lookup_insert_eq
        | intros id Hne; rewrite !lookup_insert_ne by congruence; reflexivity].
      exact Hsr.
    - eapply db_ok_insert;
        [exact Hok | | apply lookup_insert_eq
        | intros id Hne; rewrite lookup_insert_ne by congruence; reflexivity].
      left. simpl. auto. }
  destruct (db_create_ok env) eqn:Hcreate.
  - destruct (handle_message_cases env st message)
      as [(path & x & _ & _ & _ & ->) | [(_ & _ & ->) | (path & e & _ & _ & _ & ->)]];
      cbn [db].
    + apply (Hupd "completed" (Some x) None eq_refl). right. left. simpl. auto.
    + apply (Hupd "failed" None (Some "Failed to download file from S3") eq_refl).
      right. right. simpl. auto.
    + apply (Hupd "failed" None (Some (exn_str e)) eq_refl).
      right. right. simpl. auto.
  - destruct (handle_message_cases env st message)
      as [(path & x & _ & _ & _ & ->) | [(_ & _ & ->) | (path & e & _ & _ & _ & ->)]];
      cbn [db]; rewrite (Hnone eq_refl); cbn [fst snd]; split; auto using db_extends_refl.
Qed.

Lemma process_messages_db (envs : nat -> MsgEnv) (messages : list ParsedMessage) :
  forall i st,
    db_ok (db st) ->
    db_ok (db (process_messages config json_loads envs i st messages)) /\
    db_extends (db st) (db (process_messages config json_loads envs i st messages)).
Proof.
  induction messages as [|message rest IH]; intros i st Hok; simpl.
  - split; auto using db_extends_refl.
  - destruct (handle_message_db (envs i) st message Hok) as [Hok1 Hext1].
    destruct (IH (S i) _ Hok1) as [Hok2 Hext2].
    split; [exact Hok2 | eapply db_extends_trans; eauto].
Qed.

Lemma process_cycle_db (c : CycleEnv) (st : State) :
  db_ok (db st) ->
  db_ok (db (process_cycle config json_loads c st)) /\
  db_extends (db st) (db (process_cycle config json_loads c st)).
Proof.
  intros Hok. unfold process_cycle.
  destruct (poll_messages config json_loads (received c) (deleted st)) as [messages deleted'].
  destruct messages as [|m ms].
  - simpl. split; auto using db_extends_refl.
  - cbn [db set_stats].
    apply (process_messages_db (msg_env c) (m :: ms) 0 (set_deleted st deleted')). exact Hok.
Qed.

Lemma main_loop_unfold (c : CycleEnv) (rest : list CycleEnv) (st : State) :
  (exists e, main_loop config json_loads (c :: rest) st = (RuntimeLimit, st, [EvCheck e])) \/
  (exists checks,
     main_loop config json_loads (c :: rest) st =
       (let '(why, st2, evs) :=
          main_loop config json_loads rest (process_cycle config json_loads c st) in
        (why, st2, (checks ++ EvPoll :: EvSleep :: evs)%list))).
Proof.
  cbn [main_loop].
  destruct (max_runtime_seconds config) as [limit|]; [|right; exists []; reflexivity].
  destruct (PrimFloat.eqb limit 0); [right; exists []; reflexivity|].
  destruct (PrimFloat.leb limit _); [left; eauto | right; eexists; reflexivity].
Qed.

(** X19. The record table only grows. From a table the service has
    written, a run of the main loop ends with such a table again, in
    which every row that was there at the start is still there,
    unchanged: a record is written while its own event is handled and
    never after, so a failed record is never retried nor updated by a
    later event for the same object. *)
Theorem records_are_never_rewritten (cycles : list CycleEnv) (st : State) :
  db_ok (db st) ->
  db_ok (db (snd (fst (main_loop config json_loads cycles st)))) /\
  db_extends (db st) (db (snd (fst (main_loop config json_loads cycles st)))).
Proof.
  revert st. induction cycles as [|c rest IH]; intros st Hok.
  - simpl. split; auto using db_extends_refl.
  - destruct (main_loop_unfold c rest st) as [[e ->] | [checks ->]].
    + simpl. split; auto using db_extends_refl.
    + destruct (process_cycle_db c st Hok) as [Hok1 Hext1].
      specialize (IH _ Hok1).
      destruct (main_loop config json_loads rest (process_cycle config json_loads c st))
        as [[why st2] evs]. simpl in *. destruct IH as [Hok2 Hext2].
      split; [exact Hok2 | eapply db_extends_trans; eauto].
Qed.

(** X20. Without a runtime budget the loop never stops by itself: when
    [MAX_RUNTIME_HOURS] is not greater than zero (zero, negative, or not
    a number), the main loop reads no clock, and polls and sleeps once
    in every cycle for as long as cycles are given. *)
Theorem no_budget_never_stops (cycles : list CycleEnv) (st : State) :
  PrimFloat.ltb 0 (MAX_RUNTIME_HOURS config) = false ->
  main_loop config json_loads cycles st =
    (WorldEnds,
     fold_left (fun s c => process_cycle config json_loads c s) cycles st,
     flat_map (fun _ => [EvPoll; EvSleep]) cycles).
Proof.
  intros Hmax. revert st. induction cycles as [|c rest IH]; intros st; [reflexivity|].
  cbn [main_loop]. unfold max_runtime_seconds. rewrite Hmax.
  rewrite IH. reflexivity.
Qed.

End ServiceFurther.

(** ** From the upload to its record *)

Lemma split_nonempty (sep : ascii) (s : string) : split sep s <> [].
Proof.
  destruct s as [|c s]; simpl; [discriminate|].
  destruct (Ascii.eqb c sep); [discriminate|].
  destruct (split sep s); discriminate.
Qed.

Lemma split_app (sep : ascii) (a b : string) :
  split sep (a +:+ String sep b) = (split sep a ++ split sep b)%list.
Proof.
  induction a as [|c a IH]; simpl.
  - rewrite Ascii.eqb_refl. reflexivity.
  - destruct (Ascii.eqb c sep); [rewrite IH; reflexivity|].
    rewrite IH. pose proof (split_nonempty sep a) as Hne.
    destruct (split sep a) as [|w ws]; [contradiction | reflexivity].
Qed.

Lemma split_no_sep (sep : ascii) (s : string) :
  contains_char sep s = false -> split sep s = [s].
Proof.
  induction s as [|c s IH]; simpl; [reflexivity|].
  intros H. apply orb_false_iff in H. destruct H as [Hc Hs].
  rewrite Hc, (IH Hs). reflexivity.
Qed.

Lemma contains_char_app (c : ascii) (a b : string) :
  contains_char c (a +:+ b) = contains_char c a || contains_char c b.
Proof.
  induction a as [|x a IH]; simpl; [reflexivity|].
  rewrite IH, orb_assoc. reflexivity.
Qed.

Lemma split_parts (sep c : ascii) (s w : string) :
  In w (split sep s) ->
  contains_char sep w = false /\ (contains_char c s = false -> contains_char c w = false).
Proof.
  revert w. induction s as [|x s IH]; simpl; intros w.
  - intros [<- | []]. auto.
  - destruct (Ascii.eqb x sep) eqn:Hx.
    + intros [<- | Hin].
      * split; [reflexivity|]. reflexivity.
      * destruct (IH w Hin) as [H1 H2]. split; [exact H1|].
        intros H. apply orb_false_iff in H. apply H2, H.
    + pose proof (split_nonempty sep s) as Hne.
      destruct (split sep s) as [|w0 ws]; [contradiction|].
      intros [<- | Hin].
      * destruct (IH w0 (or_introl eq_refl)) as [H1 H2]. simpl. rewrite Hx, H1.
        split; [reflexivity|].
        intros H. apply orb_false_iff in H. destruct H as [Ha Hb].
        rewrite Ha. exact (H2 Hb).
      * destruct (IH w (or_intror Hin)) as [H1 H2]. split; [exact H1|].
        intros H. apply orb_false_iff in H. apply H2, H.
Qed.

Lemma last_in {A : Type} (l : list A) (d : A) : l <> [] -> In (List.last l d) l.
Proof.
  induction l as [|a l IH]; [contradiction|]. intros _.
  destruct l as [|b l]; [left; reflexivity|].
  right. apply IH. discriminate.
Qed.

(** What [os.path.splitext] gives as an extension: nothing, or a dot
    followed by characters that are neither dots nor slashes. *)
Lemma splitext_ext_shape (p : string) :
  splitext_ext p = "" \/
  exists rest, splitext_ext p = String "." rest /\
               contains_char "/" rest = false /\ contains_char "." rest = false.
Proof.
  unfold splitext_ext.
  destruct (length (split "." (basename p)) <=? 1)%nat; [left; reflexivity|].
  destruct (all_dots _); [left; reflexivity|].
  right. eexists. split; [reflexivity|].
  assert (Hbase : contains_char "/" (basename p) = false).
  { unfold basename.
    destruct (split_parts "/" "/" p (List.last (split "/" p) "")) as [H _];
      [apply last_in, split_nonempty | exact H]. }
  destruct (split_parts "." "/" (basename p) (List.last (split "." (basename p)) ""))
    as [Hdot Hslash]; [apply last_in, split_nonempty|].
  split; [apply Hslash, Hbase | exact Hdot].
Qed.

Lemma append_empty_r (s : string) : s +:+ "" = s.
Proof.
  induction s as [|c s IH]; [reflexivity|].
  change (String c (s +:+ "") = String c s). rewrite IH. reflexivity.
Qed.

Lemma append_assoc (a b c : string) : (a +:+ b) +:+ c = a +:+ (b +:+ c).
Proof.
  induction a as [|x a IH]; [reflexivity|].
  change (String x ((a +:+ b) +:+ c) = String x (a +:+ (b +:+ c))). rewrite IH. reflexivity.
Qed.

Lemma startswith_append (p s : string) : startswith (p +:+ s) p = true.
Proof.
  unfold startswith. induction p as [|c p IH]; simpl.
  - destruct s; reflexivity.
  - rewrite IH. destruct (ascii_dec c c); [reflexivity | contradiction].
Qed.

Lemma upload_file_name (id filename : string) :
  contains_char "/" id = false ->
  contains_char "." id = false ->
  split "/" (id +:+ splitext_ext filename) = [id +:+ splitext_ext filename] /\
  hd "" (split "." (id +:+ splitext_ext filename)) = id.
Proof.
  intros Hslash Hdot. set (ext := splitext_ext filename).
  assert (Hext : contains_char "/" ext = false /\
                 hd "" (split "." (id +:+ ext)) = id).
  { destruct (splitext_ext_shape filename) as [Hq | (rest & Hq & Hs & Hd)];
      fold ext in Hq; rewrite Hq.
    - split; [reflexivity|]. rewrite append_empty_r, (split_no_sep "." id Hdot).
      reflexivity.
    - split; [simpl; exact Hs|].
      rewrite split_app, (split_no_sep "." id Hdot). reflexivity. }
  destruct Hext as [Hext Hid]. split; [|exact Hid].
  apply split_no_sep. rewrite contains_char_app, Hslash, Hext. reflexivity.
Qed.

Lemma split_upload_key (prefix user_id subject_id id ext : string) :
  split "/" (id +:+ ext) = [id +:+ ext] ->
  split "/" (upload_s3_key prefix user_id subject_id id ext) =
    ((split "/" prefix ++ split "/" user_id ++ split "/" subject_id) ++ [id +:+ ext])%list.
Proof.
  intros Hfile. unfold upload_s3_key.
  change (split "/" (prefix +:+ String "/" (user_id +:+ String "/"
            (subject_id +:+ String "/" (id +:+ ext)))) =
          ((split "/" prefix ++ split "/" user_id ++ split "/" subject_id)
             ++ [id +:+ ext])%list).
  rewrite !split_app, Hfile, <- !app_assoc. reflexivity.
Qed.

Lemma upload_id_of_upload_key (prefix user_id subject_id id filename : string) :
  contains_char "/" id = false ->
  contains_char "." id = false ->
  _extract_upload_id_from_key
    (PStr (upload_s3_key prefix user_id subject_id id (splitext_ext filename))) =
    Ret (if String.eqb (hd "" (split "/" prefix)) "uploads" then Some id else None).
Proof.
  intros Hslash Hdot.
  destruct (upload_file_name id filename Hslash Hdot) as [Hfile Hid].
  unfold _extract_upload_id_from_key, _extract_upload_id_from_key_body.
  cbv beta iota delta [mbind res_bind py_split].
  rewrite (split_upload_key prefix user_id subject_id id _ Hfile), last_last, Hid.
  pose proof (split_nonempty "/" prefix) as H1.
  pose proof (split_nonempty "/" user_id) as H2.
  pose proof (split_nonempty "/" subject_id) as H3.
  destruct (split "/" prefix) as [|p ps]; [contradiction|].
  destruct (split "/" user_id) as [|u us]; [contradiction|].
  destruct (split "/" subject_id) as [|s ss]; [contradiction|].
  assert (Hlen : (4 <=? length (((p :: ps) ++ (u :: us) ++ s :: ss)
                                  ++ [id +:+ splitext_ext filename]))%nat = true).
  { apply Nat.leb_le. rewrite !length_app. simpl. lia. }
  rewrite Hlen. simpl. destruct (String.eqb p "uploads"); reflexivity.
Qed.

(** X21. The key the backend stores an upload under leads the analysis
    service back to the upload: for an upload id without slash or dot
    (the backend makes it from a UUID) and the extension of any file
    name, the key passes the prefix check the queue client makes under
    the same prefix, its last segment is the upload id followed by the
    extension, and the upload id derived from it for the record is the
    upload id itself when the first segment of the prefix is
    ["uploads"], and none under any other prefix. *)
Theorem upload_key_gives_upload_id (prefix user_id subject_id id filename : string) :
  contains_char "/" id = false ->
  contains_char "." id = false ->
  let key := upload_s3_key prefix user_id subject_id id (splitext_ext filename) in
  startswith key (prefix +:+ "/") = true /\
  basename key = id +:+ splitext_ext filename /\
  _extract_upload_id_from_key (PStr key) =
    Ret (if String.eqb (hd "" (split "/" prefix)) "uploads" then Some id else None).
Proof.
  intros Hslash Hdot. cbv zeta.
  destruct (upload_file_name id filename Hslash Hdot) as [Hfile _].
  split; [|split].
  - unfold upload_s3_key.
    change (prefix +:+ "/" +:+ user_id +:+ "/" +:+ subject_id +:+ "/" +:+ id
              +:+ splitext_ext filename)
      with (prefix +:+ ("/" +:+ (user_id +:+ "/" +:+ subject_id +:+ "/" +:+ id
                                   +:+ splitext_ext filename))).
    rewrite <- append_assoc. apply startswith_append.
  - unfold basename.
    rewrite (split_upload_key prefix user_id subject_id id _ Hfile). apply last_last.
  - apply upload_id_of_upload_key; assumption.
Qed.

Section UploadRecord.

Variable config : Config.
Variable json_loads : string -> option pyval.

(** X22. From the upload to its record: when the event of an upload
    stored by the backend under a prefix whose first segment is
    ["uploads"] is handled and the record can be created, the record
    of the attempt carries the upload id of the backend, the bucket and
    the key of the event, whether the handling succeeds or fails and
    whether or not the later update is accepted. *)
Theorem handled_upload_is_linked_to_its_record (env : MsgEnv) (st : State)
    (message : ParsedMessage) (prefix user_id subject_id id filename : string) :
  contains_char "/" id = false ->
  contains_char "." id = false ->
  hd "" (split "/" prefix) = "uploads" ->
  m_key message = PStr (upload_s3_key prefix user_id subject_id id (splitext_ext filename)) ->
  db_create_ok env = true ->
  exists r,
    rows (db (handle_message config json_loads env st message)) !! next_id (db st) = Some r /\
    upload_id r = Some id /\
    s3_bucket r = m_bucket message /\
    s3_key r = m_key message /\
    processing_started r = created_at env.
Proof.
  intros Hslash Hdot Hprefix Hkey Hcreate.
  pose proof (upload_id_of_upload_key prefix user_id subject_id id filename Hslash Hdot)
    as Hid.
  rewrite Hprefix in Hid. cbn [String.eqb Ascii.eqb Bool.eqb] in Hid.
  assert (Hrow : forall status metadata error,
            let created :=
              create_processing_record env (db st) (m_bucket message) (m_key message) in
            exists r,
              rows match fst created with
                   | Some id0 => update_processing_status env (snd created) id0 status
                                   metadata error
                   | None => snd created
                   end !! next_id (db st) = Some r /\
              upload_id r = Some id /\
              s3_bucket r = m_bucket message /\
              s3_key r = m_key message /\
              processing_started r = created_at env).
  { intros status metadata error. cbv zeta.
    unfold create_processing_record. rewrite Hcreate, Hkey, Hid. cbn [fst snd].
    unfold update_processing_status. cbn [rows next_id]. rewrite lookup_insert_eq.
    destruct (db_update_ok env); cbn [rows]; rewrite lookup_insert_eq;
      eexists; (split; [reflexivity|]); [|simpl; auto].
    unfold updated_record.
    destruct (String.eqb status "completed"); [simpl; auto|].
    destruct (String.eqb status "failed"); simpl; auto. }
  destruct (handle_message_cases config json_loads env st message)
    as [(path & x & _ & _ & _ & ->) | [(_ & _ & ->) | (path & e & _ & _ & _ & ->)]];
    cbn [db]; apply Hrow.
Qed.

End UploadRecord.

(** ** The object store client: metadata *)

Lemma list_ascii_of_string_app (a b : string) :
  list_ascii_of_string (a +:+ b) = (list_ascii_of_string a ++ list_ascii_of_string b)%list.
Proof.
  induction a as [|c a IH]; [reflexivity|].
  change (c :: list_ascii_of_string (a +:+ b) =
          c :: (list_ascii_of_string a ++ list_ascii_of_string b))%list.
  rewrite IH. reflexivity.
Qed.

Lemma rev_string_snoc (s : string) (c : ascii) :
  rev_string (s +:+ String c "") = String c (rev_string s).
Proof.
  unfold rev_string. rewrite list_ascii_of_string_app. simpl.
  rewrite rev_unit. reflexivity.
Qed.

Lemma rev_string_involutive (s : string) : rev_string (rev_string s) = s.
Proof.
  unfold rev_string.
  rewrite list_ascii_of_string_of_list_ascii, rev_involutive.
  apply string_of_list_ascii_of_string.
Qed.

Lemma contains_char_list (c : ascii) (l : list ascii) :
  contains_char c (string_of_list_ascii l) = existsb (fun a => Ascii.eqb a c) l.
Proof. induction l as [|a l IH]; simpl; [reflexivity | rewrite IH; reflexivity]. Qed.

Lemma contains_char_rev (c : ascii) (s : string) :
  contains_char c (rev_string s) = contains_char c s.
Proof.
  unfold rev_string. rewrite contains_char_list.
  rewrite <- (string_of_list_ascii_of_string s) at 2. rewrite contains_char_list.
  induction (list_ascii_of_string s) as [|a l IH]; [reflexivity|].
  simpl. rewrite existsb_app, IH. simpl. rewrite orb_false_r. apply orb_comm.
Qed.

Lemma lstrip_no_char (c : ascii) (s : string) :
  contains_char c s = false -> lstrip_char c s = s.
Proof.
  destruct s as [|a s]; simpl; [reflexivity|].
  intros H. apply orb_false_iff in H. destruct H as [Ha _]. rewrite Ha. reflexivity.
Qed.

Lemma strip_quoted (c : ascii) (s : string) :
  contains_char c s = false ->
  strip_char c (String c s +:+ String c "") = s.
Proof.
  intros H. unfold strip_char.
  change (String c s +:+ String c "") with (String c (s +:+ String c "")).
  cbn [lstrip_char]. rewrite Ascii.eqb_refl.
  destruct s as [|a s].
  - simpl. rewrite Ascii.eqb_refl. reflexivity.
  - assert (Ha : Ascii.eqb a c = false).
    { simpl in H. apply orb_false_iff in H. apply H. }
    change (String a s +:+ String c "") with (String a (s +:+ String c "")).
    cbn [lstrip_char]. rewrite Ha.
    change (String a (s +:+ String c "")) with (String a s +:+ String c "").
    rewrite rev_string_snoc. cbn [lstrip_char]. rewrite Ascii.eqb_refl.
    rewrite lstrip_no_char by (rewrite contains_char_rev; exact H).
    apply rev_string_involutive.
Qed.

(** X23. [get_file_metadata] returns nothing when the request to the
    store fails, or when the bucket or the key is not a string.
    Otherwise it returns the bucket and the key it was given and the
    entity tag of the object without the quotes the store puts around
    it: a tag that holds no quote comes back as it is, and an absent
    tag as the empty string. *)
Theorem file_metadata_etag_is_unquoted (env : MsgEnv) (bucket key : pyval) :
  (forall e, meta_head env = Raise e -> get_file_metadata env bucket key = None) /\
  ((forall b, bucket <> PStr b) \/ (forall k, key <> PStr k) ->
   get_file_metadata env bucket key = None) /\
  (forall response b k,
     meta_head env = Ret response -> bucket = PStr b -> key = PStr k ->
     exists md,
       get_file_metadata env bucket key = Some (PDict md) /\
       assoc "bucket" md = Some bucket /\
       assoc "key" md = Some key /\
       (ETag response = None -> assoc "etag" md = Some (PStr "")) /\
       (forall tag,
          ETag response = Some (quoted tag) ->
          contains_char dquote tag = false ->
          assoc "etag" md = Some (PStr tag))).
Proof.
  split; [|split].
  - intros e He. unfold get_file_metadata. rewrite He.
    destruct bucket; try reflexivity; destruct key; reflexivity.
  - intros [Hb | Hk]; unfold get_file_metadata.
    + destruct bucket as [| | | | b | | |]; try reflexivity.
      exfalso. apply (Hb b). reflexivity.
    + destruct bucket; try reflexivity.
      destruct key as [| | | | k | | |]; try reflexivity.
      exfalso. apply (Hk k). reflexivity.
  - intros response b k Hhead -> ->. unfold get_file_metadata. rewrite Hhead.
    eexists. split; [reflexivity|]. split; [reflexivity|]. split; [reflexivity|].
    split.
    + intros Htag. simpl. rewrite Htag. reflexivity.
    + intros tag Htag Hclean. simpl. rewrite Htag. cbn [default from_option id].
      unfold quoted. rewrite (strip_quoted dquote tag Hclean). reflexivity.
Qed.

(** ** Concrete runs of the further properties *)

(** The event polled from the valid notification passed the checks. *)
Lemma polled_events_are_validated_witness :
  In abc123_event
     (fst (poll_messages default_config loads_documents
             (Ret [message_of "1" valid_event]) [])) /\
  exists messages message,
    Ret [message_of "1" valid_event] = Ret messages /\ In message messages /\
    (manual message abc123_event \/ validated default_config message abc123_event).
Proof.
  assert (H : In abc123_event
                (fst (poll_messages default_config loads_documents
                        (Ret [message_of "1" valid_event]) []))).
  { vm_compute. left. reflexivity. }
  split; [exact H|].
  exact (polled_events_are_validated default_config loads_documents _ [] abc123_event H).
Defined.

(** The valid notification is decoded to the event of its record. *)
Lemma valid_record_is_decoded_witness :
  poll_messages default_config loads_documents (Ret [message_of "1" valid_event]) []
    = ([abc123_event], []).
Proof.
  apply (valid_record_is_decoded default_config loads_documents
           (message_of "1" valid_event)
           [("Records",
             PList [s3_record "aws:s3" "ObjectCreated:Put" "dancer-uploads"
                      "uploads/u1/s1/abc123.mp4"])]
           [("eventSource", PStr "aws:s3");
            ("eventName", PStr "ObjectCreated:Put");
            ("eventTime", PStr "2024-05-01T10:00:00.000Z");
            ("awsRegion", PStr "us-east-1");
            ("s3", PDict [("bucket", PDict [("name", PStr "dancer-uploads")]);
                          ("object", PDict [("key", PStr "uploads/u1/s1/abc123.mp4");
                                            ("size", PInt 1024);
                                            ("eTag", PStr "0a1b2c")])])]
           [("bucket", PDict [("name", PStr "dancer-uploads")]);
            ("object", PDict [("key", PStr "uploads/u1/s1/abc123.mp4");
                              ("size", PInt 1024);
                              ("eTag", PStr "0a1b2c")])]
           [("name", PStr "dancer-uploads")]
           [("key", PStr "uploads/u1/s1/abc123.mp4");
            ("size", PInt 1024);
            ("eTag", PStr "0a1b2c")]
           "ObjectCreated:Put" "uploads/u1/s1/abc123.mp4" []);
    vm_compute; reflexivity.
Defined.

(** A direct message for another bucket and another prefix is accepted. *)
Lemma direct_format_skips_validation_witness :
  exists parsed,
    poll_messages default_config loads_further (Ret [message_of "8" direct_event]) []
      = ([parsed], []) /\
    m_bucket parsed = PStr "other-bucket" /\
    m_key parsed = PStr "private/clip.mov" /\
    m_event_name parsed = PStr "manual".
Proof.
  eexists. split.
  - apply (direct_format_skips_validation default_config loads_further
             (message_of "8" direct_event)
             [("bucket", PStr "other-bucket"); ("key", PStr "private/clip.mov")]
             (PStr "other-bucket") (PStr "private/clip.mov") []);
      vm_compute; reflexivity.
  - repeat split; reflexivity.
Defined.

(** A record without [s3] before a valid record: no event. *)
Lemma malformed_record_voids_message_witness :
  parse_record default_config (message_of "9" broken_then_valid_event) broken_record
    = Raise KeyError /\
  poll_messages default_config loads_further
    (Ret [message_of "9" broken_then_valid_event]) [] = ([], []).
Proof.
  destruct (malformed_record_voids_message default_config loads_further
              (message_of "9" broken_then_valid_event)
              [("Records",
                PList [broken_record;
                       s3_record "aws:s3" "ObjectCreated:Put" "dancer-uploads"
                         "uploads/u1/s1/abc123.mp4"])]
              [] [s3_record "aws:s3" "ObjectCreated:Put" "dancer-uploads"
                    "uploads/u1/s1/abc123.mp4"]
              broken_record []) as [Hvoid Hraise].
  - vm_compute. reflexivity.
  - reflexivity.
  - constructor.
  - assert (H : parse_record default_config (message_of "9" broken_then_valid_event)
                  broken_record = Raise KeyError).
    { apply (Hraise [("eventSource", PStr "aws:s3"); ("eventName", PStr "ObjectCreated:Put")]
               "ObjectCreated:Put"); reflexivity. }
    split; [exact H|]. apply Hvoid. exists KeyError. exact H.
Defined.

(** Of an undecodable message and a valid one, the poll returns the
    event of the second; a failing receive call gives none. *)
Lemma poll_keeps_order_witness :
  sublist
    (map m_raw_message
       (fst (poll_messages default_config loads_documents
               (Ret [undecodable_message; message_of "1" valid_event]) [])))
    [undecodable_message; message_of "1" valid_event].
Proof.
  destruct (poll_keeps_order default_config loads_documents
              (Ret [undecodable_message; message_of "1" valid_event]) []) as [Hsub _].
  apply Hsub. reflexivity.
Defined.

(** One counter present, the others absent; then one counter that is
    no number. *)
Lemma get_queue_stats_spec_witness :
  get_queue_stats "https://sqs.us-east-1.amazonaws.com/1/dancer"
    (Ret (PDict [("Attributes", PDict [("ApproximateNumberOfMessages", PStr "5")])]))
    = PDict [("queue_url", PStr "https://sqs.us-east-1.amazonaws.com/1/dancer");
             ("approximate_messages", PInt 5);
             ("messages_in_flight", PInt 0);
             ("messages_delayed", PInt 0)] /\
  get_queue_stats "https://sqs.us-east-1.amazonaws.com/1/dancer"
    (Ret (PDict [("Attributes",
                  PDict [("ApproximateNumberOfMessages", PStr "5");
                         ("ApproximateNumberOfMessagesDelayed", PStr "many")])]))
    = PDict [].
Proof.
  destruct (get_queue_stats_spec "https://sqs.us-east-1.amazonaws.com/1/dancer")
    as (_ & _ & Hattrs).
  split.
  - destruct (Hattrs [("Attributes", PDict [("ApproximateNumberOfMessages", PStr "5")])]
                [("ApproximateNumberOfMessages", PStr "5")] eq_refl) as [Hok _].
    apply Hok; vm_compute; reflexivity.
  - destruct (Hattrs [("Attributes",
                       PDict [("ApproximateNumberOfMessages", PStr "5");
                              ("ApproximateNumberOfMessagesDelayed", PStr "many")])]
                [("ApproximateNumberOfMessages", PStr "5");
                 ("ApproximateNumberOfMessagesDelayed", PStr "many")] eq_refl) as [_ Hbad].
    apply (Hbad "ApproximateNumberOfMessagesDelayed" ValueError).
    + simpl. auto.
    + vm_compute. reflexivity.
Defined.

(** A file that is there is removed once; the second cleanup reports
    [False]. *)
Lemma cleanup_file_spec_witness :
  fst (cleanup_file missing_object_world {["./temp_downloads/abc123.mp4" := 1024]}
         "./temp_downloads/abc123.mp4") = true /\
  cleanup_file missing_object_world
    (snd (cleanup_file missing_object_world {["./temp_downloads/abc123.mp4" := 1024]}
            "./temp_downloads/abc123.mp4"))
    "./temp_downloads/abc123.mp4"
    = (false, snd (cleanup_file missing_object_world
                     {["./temp_downloads/abc123.mp4" := 1024]}
                     "./temp_downloads/abc123.mp4")).
Proof.
  destruct (cleanup_file_spec missing_object_world missing_object_world
              {["./temp_downloads/abc123.mp4" := 1024]} "./temp_downloads/abc123.mp4")
    as (Hiff & Hgone & _ & _).
  assert (H : fst (cleanup_file missing_object_world
                     {["./temp_downloads/abc123.mp4" := 1024]}
                     "./temp_downloads/abc123.mp4") = true).
  { apply Hiff. split; [exists 1024; vm_compute; reflexivity | reflexivity]. }
  split; [exact H|]. apply (Hgone H).
Defined.

(** A download into an empty directory, then its cleanup: the directory
    is empty again. *)
Lemma download_then_cleanup_witness :
  cleanup_file missing_object_world {["./temp_downloads/abc123.mp4" := 1024]}
    "./temp_downloads/abc123.mp4" = (true, ∅).
Proof.
  destruct (download_then_cleanup "./temp_downloads"
              (world (Ret abc123_response) (Ret (Some 1024)) (Ret abc123_response))
              missing_object_world ∅ {["./temp_downloads/abc123.mp4" := 1024]}
              (PStr "dancer-uploads") (PStr "uploads/u1/s1/abc123.mp4")
              "./temp_downloads/abc123.mp4" download_of_whole_file eq_refl)
    as [_ Hempty].
  apply Hempty. vm_compute. reflexivity.
Defined.

(** Two uploads of two users with the same file name: one local file,
    holding the second object. *)
Lemma downloads_collide_on_basename_witness :
  basename "uploads/u1/s1/clip.mp4" = basename "uploads/u2/s9/clip.mp4" /\
  (<["./temp_downloads/clip.mp4" := 2048]> {["./temp_downloads/clip.mp4" := 1024]} : files)
    !! "./temp_downloads/clip.mp4" = Some 2048.
Proof.
  destruct (downloads_collide_on_basename "./temp_downloads"
              (world (Ret abc123_response) (Ret (Some 1024)) (Ret abc123_response))
              (world (Ret abc123_response) (Ret (Some 2048)) (Ret abc123_response))
              ∅ {["./temp_downloads/clip.mp4" := 1024]}
              (<["./temp_downloads/clip.mp4" := 2048]>
                 {["./temp_downloads/clip.mp4" := 1024]})
              (PStr "dancer-uploads") (PStr "dancer-uploads")
              "uploads/u1/s1/clip.mp4" "uploads/u2/s9/clip.mp4"
              "./temp_downloads/clip.mp4" "./temp_downloads/clip.mp4")
    as [Hpath Hfile].
  - vm_compute. reflexivity.
  - vm_compute. reflexivity.
  - vm_compute. reflexivity.
  - split; [vm_compute; reflexivity|]. apply Hfile. reflexivity.
Defined.

(** An audio stream and two video streams: the counts are 1 and 2, and
    the details are those of the output that holds the first video
    stream alone. *)
Lemma probe_summary_streams_witness :
  exists md md',
    probe_summary
      (PDict (probe_output "12.5" [audio_stream; video_stream "h264" 1920 1080;
                                   video_stream "mjpeg" 160 90])) = Ret (PDict md) /\
    assoc "video_streams" md = Some (PInt 2) /\
    assoc "audio_streams" md = Some (PInt 1) /\
    probe_summary (PDict (probe_output "12.5" [video_stream "h264" 1920 1080]))
      = Ret (PDict md') /\
    assoc "video_details" md' = assoc "video_details" md.
Proof.
  destruct (probe_summary
              (PDict (probe_output "12.5" [audio_stream; video_stream "h264" 1920 1080;
                                           video_stream "mjpeg" 160 90])))
    as [m|e] eqn:Hm; [|vm_compute in Hm; discriminate].
  destruct (probe_summary_streams
              (probe_output "12.5" [audio_stream; video_stream "h264" 1920 1080;
                                    video_stream "mjpeg" 160 90])
              [audio_stream; video_stream "h264" 1920 1080; video_stream "mjpeg" 160 90]
              m eq_refl)
    as (md & -> & Hvideo & Haudio & _ & Hfirst).
  - repeat constructor; eexists; reflexivity.
  - exact Hm.
  - destruct (Hfirst (probe_output "12.5" [video_stream "h264" 1920 1080])
                [video_stream "h264" 1920 1080] eq_refl) as (md' & Hm' & Hdetails).
    + repeat constructor; eexists; reflexivity.
    + reflexivity.
    + reflexivity.
    + exists md, md'. split; [reflexivity|]. split; [exact Hvideo|].
      split; [exact Haudio|]. split; [exact Hm' | exact Hdetails].
Defined.

(** The tool prints ["N/A"] as the duration: the result is the guess
    from the extension. *)
Lemma unreadable_probe_number_falls_back_witness :
  exists info,
    _extract_video_metadata loads_further
      (probe_world (PDict (probe_output "N/A" [audio_stream; video_stream "h264" 1920 1080])))
      "./temp_downloads/abc123.mp4" = Ret (PDict info) /\
    assoc "extraction_method" info = Some (PStr "basic_analysis").
Proof.
  destruct (unreadable_probe_number_falls_back loads_further
              (probe_world
                 (PDict (probe_output "N/A" [audio_stream; video_stream "h264" 1920 1080])))
              "./temp_downloads/abc123.mp4"
              (json_text
                 (PDict (probe_output "N/A" [audio_stream; video_stream "h264" 1920 1080])))
              ""
              (probe_output "N/A" [audio_stream; video_stream "h264" 1920 1080])
              (probe_format "N/A")) as [_ Hinfo].
  - reflexivity.
  - vm_compute. reflexivity.
  - reflexivity.
  - left. exists ValueError. vm_compute. reflexivity.
  - exact Hinfo.
Defined.

(** The table after one failed handling: its record is returned for a
    retry limit of 3, and not for a limit of 1. *)
Lemma failed_records_of_service_table_witness :
  db_ok failed_table /\
  exists r,
    rows failed_table !! 1%positive = Some r /\
    In (failed_record_dict 1 r) (get_failed_records true failed_table 3) /\
    get_failed_records true failed_table 1 = [].
Proof.
  assert (Hok : db_ok failed_table).
  { apply handle_message_db. intros id r H. simpl in H. rewrite lookup_empty in H.
    discriminate. }
  split; [exact Hok|].
  destruct (failed_records_of_service_table failed_table 3 Hok) as (Hall & _ & _).
  destruct (failed_records_of_service_table failed_table 1 Hok) as (_ & Hnone & _).
  eexists. split; [vm_compute; reflexivity|]. split.
  - apply Hall; [lia|]. exists 1%positive. eexists. split; [vm_compute; reflexivity|].
    split; reflexivity.
  - apply Hnone. lia.
Defined.

(** A receive call that fails: the cycle changes nothing. *)
Lemma idle_cycle_changes_nothing_witness :
  process_cycle default_config loads_documents unreachable_queue_cycle initial_state
    = initial_state.
Proof.
  destruct (idle_cycle_changes_nothing default_config loads_documents
              unreachable_queue_cycle initial_state) as (Hfails & _ & _).
  apply (Hfails (ClientError "AWS.SimpleQueueService.NonExistentQueue")). reflexivity.
Defined.


(** A later event for the same object adds its own record and leaves
    the failed one as it was. *)
Lemma records_are_never_rewritten_witness :
  db_ok failed_table /\
  exists r,
    rows failed_table !! 1%positive = Some r /\
    processing_status r = "failed" /\
    rows (db (snd (fst (main_loop default_config loads_documents [first_cycle]
                          (set_db initial_state failed_table))))) !! 1%positive = Some r.
Proof.
  assert (Hok : db_ok failed_table).
  { apply handle_message_db. intros id r H. simpl in H. rewrite lookup_empty in H.
    discriminate. }
  split; [exact Hok|].
  destruct (records_are_never_rewritten default_config loads_documents [first_cycle]
              (set_db initial_state failed_table) Hok) as [_ [_ Hrows]].
  eexists. split; [vm_compute; reflexivity|]. split; [reflexivity|].
  apply Hrows. vm_compute. reflexivity.
Defined.

(** Without a budget, a cycle whose clock reads an hour is handled as
    any other. *)
Lemma no_budget_never_stops_witness :
  PrimFloat.ltb 0 (MAX_RUNTIME_HOURS unlimited_config) = false /\
  snd (main_loop unlimited_config loads_documents [first_cycle; late_cycle] initial_state)
    = [EvPoll; EvSleep; EvPoll; EvSleep] /\
  fst (fst (main_loop unlimited_config loads_documents [first_cycle; late_cycle]
              initial_state)) = WorldEnds.
Proof.
  assert (H : PrimFloat.ltb 0 (MAX_RUNTIME_HOURS unlimited_config) = false)
    by reflexivity.
  split; [exact H|].
  rewrite (no_budget_never_stops unlimited_config loads_documents
             [first_cycle; late_cycle] initial_state H).
  split; reflexivity.
Defined.

(** An upload of a file named ["walk trial.final.MP4"]. *)
Lemma upload_key_gives_upload_id_witness :
  upload_s3_key "uploads" "u1" "s1" "3f2b8c1e-9d4a-4c6b-8f0e-2a7d5b1c9e33"
      (splitext_ext "walk trial.final.MP4")
    = "uploads/u1/s1/3f2b8c1e-9d4a-4c6b-8f0e-2a7d5b1c9e33.MP4" /\
  _extract_upload_id_from_key
      (PStr "uploads/u1/s1/3f2b8c1e-9d4a-4c6b-8f0e-2a7d5b1c9e33.MP4")
    = Ret (Some "3f2b8c1e-9d4a-4c6b-8f0e-2a7d5b1c9e33").
Proof.
  split; [vm_compute; reflexivity|].
  destruct (upload_key_gives_upload_id "uploads" "u1" "s1"
              "3f2b8c1e-9d4a-4c6b-8f0e-2a7d5b1c9e33" "walk trial.final.MP4")
    as (_ & _ & Hid); [vm_compute; reflexivity | vm_compute; reflexivity |].
  exact Hid.
Defined.

(** The event of the upload ["abc123"] of a file named ["gait.mp4"]:
    its record carries the upload id. *)
Lemma handled_upload_is_linked_to_its_record_witness :
  exists r,
    rows (db (handle_message default_config loads_documents
                (world (Ret abc123_response) (Ret (Some 1024)) (Ret abc123_response))
                initial_state abc123_event)) !! 1%positive = Some r /\
    upload_id r = Some "abc123" /\
    s3_key r = PStr "uploads/u1/s1/abc123.mp4".
Proof.
  destruct (handled_upload_is_linked_to_its_record default_config loads_documents
              (world (Ret abc123_response) (Ret (Some 1024)) (Ret abc123_response))
              initial_state abc123_event "uploads" "u1" "s1" "abc123" "gait.mp4")
    as (r & Hrow & Hid & _ & Hkey & _);
    [vm_compute; reflexivity | vm_compute; reflexivity | vm_compute; reflexivity
    | vm_compute; reflexivity | reflexivity |].
  exists r. split; [exact Hrow|]. split; [exact Hid | exact Hkey].
Defined.

(** The store answers with the tag in quotes; the metadata holds it
    without them. *)
Lemma file_metadata_etag_is_unquoted_witness :
  exists md,
    get_file_metadata
      (world (Ret abc123_response) (Ret (Some 1024)) (Ret abc123_response))
      (PStr "dancer-uploads") (PStr "uploads/u1/s1/abc123.mp4") = Some (PDict md) /\
    assoc "etag" md = Some (PStr "0a1b2c").
Proof.
  destruct (file_metadata_etag_is_unquoted
              (world (Ret abc123_response) (Ret (Some 1024)) (Ret abc123_response))
              (PStr "dancer-uploads") (PStr "uploads/u1/s1/abc123.mp4")) as (_ & _ & Hmd).
  destruct (Hmd abc123_response "dancer-uploads" "uploads/u1/s1/abc123.mp4"
              eq_refl eq_refl eq_refl) as (md & Hget & _ & _ & _ & Htag).
  exists md. split; [exact Hget|].
  apply (Htag "0a1b2c"); [reflexivity | vm_compute; reflexivity].
Defined.

(** The views of the result of an extraction that printed its summary. *)
Lemma metadata_views_split_witness :
  exists full info real,
    extract_metadata loads_documents {["./temp_downloads/abc123.mp4" := 1024]}
      (world (Ret abc123_response) (Ret (Some 1024)) (Ret abc123_response))
      "./temp_downloads/abc123.mp4" (PDict []) = Ret full /\
    get_real_metadata_only full =
      Ret (PDict [("processing_info", info); ("real_metadata", real)]).
Proof.
  destruct (metadata_views_split loads_documents
              {["./temp_downloads/abc123.mp4" := 1024]}
              (world (Ret abc123_response) (Ret (Some 1024)) (Ret abc123_response))
              "./temp_downloads/abc123.mp4" (PDict []))
    as [(full & info & real & placeholder & Hex & _ & Hreal & _) _].
  exists full, info, real. split; [|exact Hreal].
  rewrite Hex.
  destruct (_print_metadata_summary
              (world (Ret abc123_response) (Ret (Some 1024)) (Ret abc123_response))
              full) as [[]|e] eqn:Hprint; [reflexivity|].
  vm_compute in Hex. discriminate.
Defined.

(** A cycle whose one event is downloaded and then fails in the
    extraction: the file is counted as downloaded and the event as an
    error; the record ends failed, the message is deleted, and the
    downloaded file stays where it is. *)
Example extraction_failure_run :
  let st := handle_message default_config loads_overflowing overflowing_world
              initial_state abc123_event in
  (messages_processed (stats st), files_downloaded (stats st), processing_errors (stats st))
    = (0, 1, 1) /\
  deleted st = ["rh-1"] /\
  fs st !! "./temp_downloads/abc123.mp4" = Some 1024 /\
  (exists record,
     rows (db st) !! 1%positive = Some record /\
     processing_status record = "failed" /\
     error_message record = Some "OverflowError" /\
     retry_count record = 1).
Proof.
  cbv zeta. split; [vm_compute; reflexivity|]. split; [vm_compute; reflexivity|].
  split; [vm_compute; reflexivity|].
  eexists. split; [vm_compute; reflexivity|]. repeat split.
Qed.
